(** * The customer-churn notebook: a shallow embedding and its properties

  The program is [notebooks/customer_churn/xgboost_customer_churn.ipynb]:
  a linear script of code cells that talks to AWS through boto3 and the
  SageMaker SDK.  Each code cell is embedded as a computation in a small
  monad that threads the kernel (the notebook's namespace and the log of
  the calls it has issued) and propagates Python exceptions.  The outside
  world (AWS, the file system, the clock) is a parameter: an oracle that
  answers every call, with a value or with an exception, and that says
  which local operations of the libraries (creating a client, reading on
  from an open file) fail. *)

From Stdlib Require Import String Ascii List ZArith Lia DecimalString DecimalNat.
From Stdlib Require Import Strings.Byte.
From Stdlib Require QArith.
From stdpp Require Import base gmap strings list.

Open Scope string_scope.
Open Scope list_scope.

(** ** Python strings *)

Module PyStr.

Definition nl : ascii := "010"%char.
Definition newline : string := String nl "".

(** [c in chars] on characters. *)
Fixpoint mem (c : ascii) (chars : string) : bool :=
  match chars with
  | "" => false
  | String d rest => if Ascii.eqb c d then true else mem c rest
  end.

(** [s.rstrip(chars)]: drop the longest suffix made of characters of
    [chars]. *)
Fixpoint rstrip (s chars : string) : string :=
  match s with
  | "" => ""
  | String c rest =>
      match rstrip rest chars with
      | "" => if mem c chars then "" else String c ""
      | kept => String c kept
      end
  end.

(** [c * n]: the character repeated. *)
Fixpoint times (c : ascii) (n : nat) : string :=
  match n with
  | O => ""
  | S n' => String c (times c n')
  end.

(** The last character of [s], if any. *)
Fixpoint last_char (s : string) : option ascii :=
  match s with
  | "" => None
  | String c "" => Some c
  | String _ rest => last_char rest
  end.

(** [fmt.format(a, b, ...)] for the automatic fields [{}] the notebook uses;
    [None] is Python's IndexError (more fields than arguments). *)
Fixpoint format (fmt : string) (args : list string) : option string :=
  match fmt with
  | "" => Some ""
  | String c rest =>
      if Ascii.eqb c "{" then
        match rest with
        | String d rest' =>
            if Ascii.eqb d "}" then
              match args with
              | [] => None
              | a :: args' => option_map (String.append a) (format rest' args')
              end
            else option_map (String c) (format rest args)
        | "" => Some (String c "")
        end
      else option_map (String c) (format rest args)
  end.

(** [s.endswith(suffix)]. *)
Definition endswith (s suffix : string) : bool :=
  let n := String.length s in
  let m := String.length suffix in
  (m <=? n)%nat && String.eqb (String.substring (n - m) m s) suffix.

End PyStr.

(** ** Python bytes *)

Module PyBytes.

Definition quote : ascii := "039"%char.
Definition double_quote : ascii := "034"%char.
Definition backslash : ascii := "092"%char.
Definition tab : ascii := "009"%char.
Definition cr : ascii := "013"%char.

(** [c in b] on bytes. *)
Definition has (c : ascii) (b : list byte) : bool :=
  existsb (fun x => Ascii.eqb (ascii_of_byte x) c) b.

(** One lowercase hexadecimal digit. *)
Definition hexdigit (n : nat) : ascii :=
  match n with
  | 0 => "0" | 1 => "1" | 2 => "2" | 3 => "3" | 4 => "4" | 5 => "5" | 6 => "6" | 7 => "7"
  | 8 => "8" | 9 => "9" | 10 => "a" | 11 => "b" | 12 => "c" | 13 => "d" | 14 => "e"
  | _ => "f"
  end%char.

(** How [repr] writes one byte inside the quotes [q]. *)
Definition escape (q : ascii) (x : byte) : string :=
  let c := ascii_of_byte x in
  let n := nat_of_ascii c in
  if Ascii.eqb c q || Ascii.eqb c backslash then String backslash (String c "")
  else if Ascii.eqb c tab then String backslash "t"
  else if Ascii.eqb c PyStr.nl then String backslash "n"
  else if Ascii.eqb c cr then String backslash "r"
  else if (n <? 32)%nat || (127 <=? n)%nat then
    String backslash (String "x" (String (hexdigit (n / 16)) (String (hexdigit (n mod 16)) "")))
  else String c "".

(** [repr(b)], which is what [print(b)] writes: the bytes between
    quotes after a [b], double quotes when the bytes hold a single quote
    and no double quote. *)
Definition repr (b : list byte) : string :=
  let q := if has quote b && negb (has double_quote b) then double_quote else quote in
  String "b" (String q (String.concat "" (map (escape q) b) +:+ String q "")).

End PyBytes.

(** ** Text files *)

Module PyIO.

Definition cr : ascii := "013"%char.

(** What text mode makes of the characters of a file (universal
    newlines, the default of [open]): a carriage return followed by a line
    feed, and a carriage return alone, are read as one line feed.  The
    characters are those of [ascii], one byte each; a decoding error is a
    failure of the read (see [read_line] below). *)
Fixpoint universal_newlines (raw : list ascii) : list ascii :=
  match raw with
  | [] => []
  | c :: rest =>
      if Ascii.eqb c cr then
        PyStr.nl :: match rest with
                    | d :: rest' =>
                        if Ascii.eqb d PyStr.nl then universal_newlines rest'
                        else universal_newlines rest
                    | [] => []
                    end
      else c :: universal_newlines rest
  end.

(** The lines of a text, each with the line feed that ends it; the last
    line may have none. *)
Fixpoint lines (text : list ascii) : list string :=
  match text with
  | [] => []
  | c :: rest =>
      if Ascii.eqb c PyStr.nl then String c "" :: lines rest
      else match lines rest with
           | [] => [String c ""]
           | line :: more => String c line :: more
           end
  end.

(** The rows that iterating a file opened in text mode yields. *)
Definition rows (raw : list ascii) : list string := lines (universal_newlines raw).

End PyIO.

(** ** The [time] module *)

Module PyTime.

(** The fields of [time.struct_time] that the notebook's format reads. *)
Record struct_time := {
  tm_year : nat; tm_mon : nat; tm_mday : nat;
  tm_hour : nat; tm_min : nat; tm_sec : nat
}.

Definition decimal (n : nat) : string := NilEmpty.string_of_uint (Nat.to_uint n).

Fixpoint zeros (n : nat) : string :=
  match n with O => "" | S n' => String "0" (zeros n') end.

(** Decimal, zero-padded on the left to [width] digits. *)
Definition zpad (width n : nat) : string :=
  let d := decimal n in
  zeros (width - String.length d) +:+ d.

(** One conversion of [strftime]. *)
Definition directive (d : ascii) (t : struct_time) : string :=
  if Ascii.eqb d "Y" then zpad 4 (tm_year t)
  else if Ascii.eqb d "m" then zpad 2 (tm_mon t)
  else if Ascii.eqb d "d" then zpad 2 (tm_mday t)
  else if Ascii.eqb d "H" then zpad 2 (tm_hour t)
  else if Ascii.eqb d "M" then zpad 2 (tm_min t)
  else if Ascii.eqb d "S" then zpad 2 (tm_sec t)
  else if Ascii.eqb d "%" then "%"
  else String "%" (String d "").

(** [time.strftime(fmt, t)] *)
Fixpoint strftime (fmt : string) (t : struct_time) : string :=
  match fmt with
  | "" => ""
  | String c rest =>
      if Ascii.eqb c "%" then
        match rest with
        | String d rest' => directive d t +:+ strftime rest' t
        | "" => "%"
        end
      else String c (strftime rest t)
  end.

End PyTime.

(** ** Exceptions and the kernel monad *)

(** The exceptions a run can meet.  [KeyboardInterrupt] and [SystemExit]
    derive from [BaseException] only; the others derive from [Exception]. *)
Inductive exn :=
| KeyboardInterrupt
| SystemExit
| NameError (name : string)
| AttributeError (attr : string)
| KeyError (key : string)
| IndexError
| ClientError (code : string)
| OtherError (cls : string).

(** [isinstance(e, Exception)] *)
Definition isinstance_Exception (e : exn) : bool :=
  match e with
  | KeyboardInterrupt | SystemExit => false
  | _ => true
  end.

Inductive outcome (A : Type) :=
| Ok (a : A)
| Raise (e : exn).
Arguments Ok {A} a.
Arguments Raise {A} e.

(** ** Data model *)

(** [sess] is first a [boto3.Session] and is rebound, in the first training
    cell, to a [sagemaker.session.Session]. *)
Inductive session :=
| Boto3Session (region_name : string)
| SageMakerSession (boto_region_name : string).

(** A boto3 service client. *)
Record client := { service : string; client_region : string }.

(** [sagemaker.s3_input(s3_data=..., content_type=...)] *)
Record s3_input := { s3_data : string; content_type : string }.

(** A hyperparameter value: the notebook's literals are integers, decimal
    fractions (kept as the rational the literal denotes) and one string. *)
Inductive hpvalue :=
| HInt (n : Z)
| HFloat (q : QArith_base.Q)
| HStr (s : string).

(** The two estimator classes the notebook instantiates. *)
Inductive estimator_class :=
| Estimator          (* sagemaker.estimator.Estimator: built-in algorithm *)
| XGBoost.           (* sagemaker.xgboost.XGBoost: framework, entry point *)

Record estimator := {
  est_class : estimator_class;
  image_name : string;
  entry_point : option string;
  est_role : string;
  framework_version : option string;
  py_version : option string;
  hyperparameters : gmap string hpvalue;
  train_instance_count : nat;
  train_instance_type : string;
  output_path : string;
  base_job_name : string;
  sagemaker_session : session
}.

(** The serializer attribute of a predictor. *)
Inductive serializer_obj := default_serializer | csv_serializer.

(** The predictor that [deploy] returns, with the attributes the notebook
    reads or assigns. *)
Record predictor := {
  endpoint : string;
  pred_content_type : option string;
  pred_serializer : serializer_obj;
  pred_deserializer : option string
}.

(** The data frame is only displayed: its rows are kept as text. *)
Definition dataframe := list string.

(** ** Calls to the outside *)

(** Every operation of the notebook that leaves the kernel: AWS requests
    (directly or through the SDK), the file system, the clock, the shell,
    and the cell output. *)
Inductive call :=
| get_execution_role
| pd_read_csv (path : string)
| pd_set_option (name : string) (value : nat)
| display (d : dataframe)
| sts_get_caller_identity (c : client)
| s3_create_bucket (c : client) (Bucket : string)
    (CreateBucketConfiguration : option (gmap string string))
| print (s : string)
| S3Uploader_upload (local_path desired_s3_uri : string)
| get_image_uri (region repo_name : string)
| fit (e : estimator) (inputs : gmap string s3_input)
| shell (cmd : string)
| gmtime
| deploy (e : estimator) (initial_instance_count : nat)
    (instance_type endpoint_name : string)
| open_ (path mode : string)
| predict (p : predictor) (data : string)
| time_sleep (secs : QArith_base.Q)
| delete_endpoint (s : session) (endpoint_name : string).

(** What each call returns when it returns. *)
Definition ret_type (c : call) : Type :=
  match c with
  | get_execution_role => string
  | pd_read_csv _ => dataframe
  | sts_get_caller_identity _ => gmap string string
  | S3Uploader_upload _ _ => string
  | get_image_uri _ _ => string
  | gmtime => PyTime.struct_time
  | open_ _ _ => list ascii         (* the characters the file holds *)
  | predict _ _ => list byte        (* the body of the response, not decoded *)
  | _ => unit
  end.

(** One line of the log: the call and how the outside answered it. *)
Record entry := Entry { ev : call; out : outcome (ret_type ev) }.

(** Operations of the libraries that stay inside the process and can
    fail all the same: creating a boto3 client (no region configured, an
    unknown service), and reading on from a file that is open (a read or a
    decoding error; the file is read lazily, so this can happen between
    two turns of the loop).  They leave no line in the log. *)
Inductive local_op :=
| new_client (service region : string)
| read_line (path : string).

(** The outside world: the region boto3 is configured with, an answer
    to the call issued as the [i]-th line of the log, and the local
    operations that fail when [i] lines are logged. *)
Record world := {
  configured_region : string;
  answer : nat -> forall c : call, outcome (ret_type c);
  fault : nat -> local_op -> option exn
}.

(** Whether a local operation fails: when the world says so, and, for a
    client, when the region is empty (a ValueError of botocore, which
    cannot build the endpoint). *)
Definition fault_of (w : world) (i : nat) (op : local_op) : option exn :=
  match fault w i op with
  | Some e => Some e
  | None =>
      match op with
      | new_client _ region =>
          if String.eqb region "" then Some (OtherError "ValueError") else None
      | read_line _ => None
      end
  end.

(** ** The kernel *)

(** The notebook's global namespace: one slot per variable the cells
    assign, empty until the first assignment. *)
Module Ns.

Record t := {
  sess : option (session);
  sm : option (client);
  role : option (string);
  local_data_path : option (string);
  data : option (dataframe);
  account_id : option (string);
  bucket : option (string);
  prefix : option (string);
  s3url : option (string);
  docker_image_name : option (string);
  s3_input_train : option (s3_input);
  s3_input_validation : option (s3_input);
  hyperparams : option (gmap string hpvalue);
  xgb : option (estimator);
  entry_point_script : option (string);
  framework_xgb : option (estimator);
  data_capture_prefix : option (string);
  endpoint_name : option (string);
  xgb_predictor : option (predictor)
}.

Definition empty : t :=
  {| sess := None;
     sm := None;
     role := None;
     local_data_path := None;
     data := None;
     account_id := None;
     bucket := None;
     prefix := None;
     s3url := None;
     docker_image_name := None;
     s3_input_train := None;
     s3_input_validation := None;
     hyperparams := None;
     xgb := None;
     entry_point_script := None;
     framework_xgb := None;
     data_capture_prefix := None;
     endpoint_name := None;
     xgb_predictor := None |}.

Definition set_sess (v : session) (n : t) : t :=
  {| sess := Some v; sm := sm n; role := role n; local_data_path :=
     local_data_path n; data := data n; account_id := account_id n; bucket :=
     bucket n; prefix := prefix n; s3url := s3url n; docker_image_name :=
     docker_image_name n; s3_input_train := s3_input_train n;
     s3_input_validation := s3_input_validation n; hyperparams := hyperparams
     n; xgb := xgb n; entry_point_script := entry_point_script n; framework_xgb
     := framework_xgb n; data_capture_prefix := data_capture_prefix n;
     endpoint_name := endpoint_name n; xgb_predictor := xgb_predictor n |}.

Definition set_sm (v : client) (n : t) : t :=
  {| sess := sess n; sm := Some v; role := role n; local_data_path :=
     local_data_path n; data := data n; account_id := account_id n; bucket :=
     bucket n; prefix := prefix n; s3url := s3url n; docker_image_name :=
     docker_image_name n; s3_input_train := s3_input_train n;
     s3_input_validation := s3_input_validation n; hyperparams := hyperparams
     n; xgb := xgb n; entry_point_script := entry_point_script n; framework_xgb
     := framework_xgb n; data_capture_prefix := data_capture_prefix n;
     endpoint_name := endpoint_name n; xgb_predictor := xgb_predictor n |}.

Definition set_role (v : string) (n : t) : t :=
  {| sess := sess n; sm := sm n; role := Some v; local_data_path :=
     local_data_path n; data := data n; account_id := account_id n; bucket :=
     bucket n; prefix := prefix n; s3url := s3url n; docker_image_name :=
     docker_image_name n; s3_input_train := s3_input_train n;
     s3_input_validation := s3_input_validation n; hyperparams := hyperparams
     n; xgb := xgb n; entry_point_script := entry_point_script n; framework_xgb
     := framework_xgb n; data_capture_prefix := data_capture_prefix n;
     endpoint_name := endpoint_name n; xgb_predictor := xgb_predictor n |}.

Definition set_local_data_path (v : string) (n : t) : t :=
  {| sess := sess n; sm := sm n; role := role n; local_data_path := Some v;
     data := data n; account_id := account_id n; bucket := bucket n; prefix :=
     prefix n; s3url := s3url n; docker_image_name := docker_image_name n;
     s3_input_train := s3_input_train n; s3_input_validation :=
     s3_input_validation n; hyperparams := hyperparams n; xgb := xgb n;
     entry_point_script := entry_point_script n; framework_xgb := framework_xgb
     n; data_capture_prefix := data_capture_prefix n; endpoint_name :=
     endpoint_name n; xgb_predictor := xgb_predictor n |}.

Definition set_data (v : dataframe) (n : t) : t :=
  {| sess := sess n; sm := sm n; role := role n; local_data_path :=
     local_data_path n; data := Some v; account_id := account_id n; bucket :=
     bucket n; prefix := prefix n; s3url := s3url n; docker_image_name :=
     docker_image_name n; s3_input_train := s3_input_train n;
     s3_input_validation := s3_input_validation n; hyperparams := hyperparams
     n; xgb := xgb n; entry_point_script := entry_point_script n; framework_xgb
     := framework_xgb n; data_capture_prefix := data_capture_prefix n;
     endpoint_name := endpoint_name n; xgb_predictor := xgb_predictor n |}.

Definition set_account_id (v : string) (n : t) : t :=
  {| sess := sess n; sm := sm n; role := role n; local_data_path :=
     local_data_path n; data := data n; account_id := Some v; bucket := bucket
     n; prefix := prefix n; s3url := s3url n; docker_image_name :=
     docker_image_name n; s3_input_train := s3_input_train n;
     s3_input_validation := s3_input_validation n; hyperparams := hyperparams
     n; xgb := xgb n; entry_point_script := entry_point_script n; framework_xgb
     := framework_xgb n; data_capture_prefix := data_capture_prefix n;
     endpoint_name := endpoint_name n; xgb_predictor := xgb_predictor n |}.

Definition set_bucket (v : string) (n : t) : t :=
  {| sess := sess n; sm := sm n; role := role n; local_data_path :=
     local_data_path n; data := data n; account_id := account_id n; bucket :=
     Some v; prefix := prefix n; s3url := s3url n; docker_image_name :=
     docker_image_name n; s3_input_train := s3_input_train n;
     s3_input_validation := s3_input_validation n; hyperparams := hyperparams
     n; xgb := xgb n; entry_point_script := entry_point_script n; framework_xgb
     := framework_xgb n; data_capture_prefix := data_capture_prefix n;
     endpoint_name := endpoint_name n; xgb_predictor := xgb_predictor n |}.

Definition set_prefix (v : string) (n : t) : t :=
  {| sess := sess n; sm := sm n; role := role n; local_data_path :=
     local_data_path n; data := data n; account_id := account_id n; bucket :=
     bucket n; prefix := Some v; s3url := s3url n; docker_image_name :=
     docker_image_name n; s3_input_train := s3_input_train n;
     s3_input_validation := s3_input_validation n; hyperparams := hyperparams
     n; xgb := xgb n; entry_point_script := entry_point_script n; framework_xgb
     := framework_xgb n; data_capture_prefix := data_capture_prefix n;
     endpoint_name := endpoint_name n; xgb_predictor := xgb_predictor n |}.

Definition set_s3url (v : string) (n : t) : t :=
  {| sess := sess n; sm := sm n; role := role n; local_data_path :=
     local_data_path n; data := data n; account_id := account_id n; bucket :=
     bucket n; prefix := prefix n; s3url := Some v; docker_image_name :=
     docker_image_name n; s3_input_train := s3_input_train n;
     s3_input_validation := s3_input_validation n; hyperparams := hyperparams
     n; xgb := xgb n; entry_point_script := entry_point_script n; framework_xgb
     := framework_xgb n; data_capture_prefix := data_capture_prefix n;
     endpoint_name := endpoint_name n; xgb_predictor := xgb_predictor n |}.

Definition set_docker_image_name (v : string) (n : t) : t :=
  {| sess := sess n; sm := sm n; role := role n; local_data_path :=
     local_data_path n; data := data n; account_id := account_id n; bucket :=
     bucket n; prefix := prefix n; s3url := s3url n; docker_image_name := Some
     v; s3_input_train := s3_input_train n; s3_input_validation :=
     s3_input_validation n; hyperparams := hyperparams n; xgb := xgb n;
     entry_point_script := entry_point_script n; framework_xgb := framework_xgb
     n; data_capture_prefix := data_capture_prefix n; endpoint_name :=
     endpoint_name n; xgb_predictor := xgb_predictor n |}.

Definition set_s3_input_train (v : s3_input) (n : t) : t :=
  {| sess := sess n; sm := sm n; role := role n; local_data_path :=
     local_data_path n; data := data n; account_id := account_id n; bucket :=
     bucket n; prefix := prefix n; s3url := s3url n; docker_image_name :=
     docker_image_name n; s3_input_train := Some v; s3_input_validation :=
     s3_input_validation n; hyperparams := hyperparams n; xgb := xgb n;
     entry_point_script := entry_point_script n; framework_xgb := framework_xgb
     n; data_capture_prefix := data_capture_prefix n; endpoint_name :=
     endpoint_name n; xgb_predictor := xgb_predictor n |}.

Definition set_s3_input_validation (v : s3_input) (n : t) : t :=
  {| sess := sess n; sm := sm n; role := role n; local_data_path :=
     local_data_path n; data := data n; account_id := account_id n; bucket :=
     bucket n; prefix := prefix n; s3url := s3url n; docker_image_name :=
     docker_image_name n; s3_input_train := s3_input_train n;
     s3_input_validation := Some v; hyperparams := hyperparams n; xgb := xgb n;
     entry_point_script := entry_point_script n; framework_xgb := framework_xgb
     n; data_capture_prefix := data_capture_prefix n; endpoint_name :=
     endpoint_name n; xgb_predictor := xgb_predictor n |}.

Definition set_hyperparams (v : gmap string hpvalue) (n : t) : t :=
  {| sess := sess n; sm := sm n; role := role n; local_data_path :=
     local_data_path n; data := data n; account_id := account_id n; bucket :=
     bucket n; prefix := prefix n; s3url := s3url n; docker_image_name :=
     docker_image_name n; s3_input_train := s3_input_train n;
     s3_input_validation := s3_input_validation n; hyperparams := Some v; xgb
     := xgb n; entry_point_script := entry_point_script n; framework_xgb :=
     framework_xgb n; data_capture_prefix := data_capture_prefix n;
     endpoint_name := endpoint_name n; xgb_predictor := xgb_predictor n |}.

Definition set_xgb (v : estimator) (n : t) : t :=
  {| sess := sess n; sm := sm n; role := role n; local_data_path :=
     local_data_path n; data := data n; account_id := account_id n; bucket :=
     bucket n; prefix := prefix n; s3url := s3url n; docker_image_name :=
     docker_image_name n; s3_input_train := s3_input_train n;
     s3_input_validation := s3_input_validation n; hyperparams := hyperparams
     n; xgb := Some v; entry_point_script := entry_point_script n;
     framework_xgb := framework_xgb n; data_capture_prefix :=
     data_capture_prefix n; endpoint_name := endpoint_name n; xgb_predictor :=
     xgb_predictor n |}.

Definition set_entry_point_script (v : string) (n : t) : t :=
  {| sess := sess n; sm := sm n; role := role n; local_data_path :=
     local_data_path n; data := data n; account_id := account_id n; bucket :=
     bucket n; prefix := prefix n; s3url := s3url n; docker_image_name :=
     docker_image_name n; s3_input_train := s3_input_train n;
     s3_input_validation := s3_input_validation n; hyperparams := hyperparams
     n; xgb := xgb n; entry_point_script := Some v; framework_xgb :=
     framework_xgb n; data_capture_prefix := data_capture_prefix n;
     endpoint_name := endpoint_name n; xgb_predictor := xgb_predictor n |}.

Definition set_framework_xgb (v : estimator) (n : t) : t :=
  {| sess := sess n; sm := sm n; role := role n; local_data_path :=
     local_data_path n; data := data n; account_id := account_id n; bucket :=
     bucket n; prefix := prefix n; s3url := s3url n; docker_image_name :=
     docker_image_name n; s3_input_train := s3_input_train n;
     s3_input_validation := s3_input_validation n; hyperparams := hyperparams
     n; xgb := xgb n; entry_point_script := entry_point_script n; framework_xgb
     := Some v; data_capture_prefix := data_capture_prefix n; endpoint_name :=
     endpoint_name n; xgb_predictor := xgb_predictor n |}.

Definition set_data_capture_prefix (v : string) (n : t) : t :=
  {| sess := sess n; sm := sm n; role := role n; local_data_path :=
     local_data_path n; data := data n; account_id := account_id n; bucket :=
     bucket n; prefix := prefix n; s3url := s3url n; docker_image_name :=
     docker_image_name n; s3_input_train := s3_input_train n;
     s3_input_validation := s3_input_validation n; hyperparams := hyperparams
     n; xgb := xgb n; entry_point_script := entry_point_script n; framework_xgb
     := framework_xgb n; data_capture_prefix := Some v; endpoint_name :=
     endpoint_name n; xgb_predictor := xgb_predictor n |}.

Definition set_endpoint_name (v : string) (n : t) : t :=
  {| sess := sess n; sm := sm n; role := role n; local_data_path :=
     local_data_path n; data := data n; account_id := account_id n; bucket :=
     bucket n; prefix := prefix n; s3url := s3url n; docker_image_name :=
     docker_image_name n; s3_input_train := s3_input_train n;
     s3_input_validation := s3_input_validation n; hyperparams := hyperparams
     n; xgb := xgb n; entry_point_script := entry_point_script n; framework_xgb
     := framework_xgb n; data_capture_prefix := data_capture_prefix n;
     endpoint_name := Some v; xgb_predictor := xgb_predictor n |}.

Definition set_xgb_predictor (v : predictor) (n : t) : t :=
  {| sess := sess n; sm := sm n; role := role n; local_data_path :=
     local_data_path n; data := data n; account_id := account_id n; bucket :=
     bucket n; prefix := prefix n; s3url := s3url n; docker_image_name :=
     docker_image_name n; s3_input_train := s3_input_train n;
     s3_input_validation := s3_input_validation n; hyperparams := hyperparams
     n; xgb := xgb n; entry_point_script := entry_point_script n; framework_xgb
     := framework_xgb n; data_capture_prefix := data_capture_prefix n;
     endpoint_name := endpoint_name n; xgb_predictor := Some v |}.

End Ns.

(** The kernel state: the namespace, the log of the calls issued so far
    with their answers, and the files currently held open. *)
Record kernel := {
  ns : Ns.t;
  log : list entry;
  opened : list string
}.

Definition fresh_kernel : kernel := {| ns := Ns.empty; log := []; opened := [] |}.

(** A computation reads the world, transforms the kernel, and returns or
    raises. *)
Definition M (A : Type) : Type := world -> kernel -> outcome A * kernel.

Definition ret {A} (a : A) : M A := fun _ k => (Ok a, k).

Definition raise {A} (e : exn) : M A := fun _ k => (Raise e, k).

Definition bind {A B} (m : M A) (f : A -> M B) : M B := fun w k =>
  match m w k with
  | (Ok a, k') => f a w k'
  | (Raise e, k') => (Raise e, k')
  end.

Declare Scope py_scope.
Delimit Scope py_scope with py.
Notation "x <- m ;; k" := (bind m (fun x => k))
  (at level 100, m at next level, k at level 200, right associativity) : py_scope.
Notation "m ;; k" := (bind m (fun _ => k))
  (at level 100, k at level 200, right associativity) : py_scope.
Open Scope py_scope.

(** Issue a call: the world answers it, and the log records both. *)
Definition perform (c : call) : M (ret_type c) := fun w k =>
  let r := answer w (length (log k)) c in
  (r, {| ns := ns k; log := log k ++ [Entry c r]; opened := opened k |}).

(** Cell output ([print], the display of a cell's last expression): it is
    logged and returns [None]. *)
Definition emit (c : call) (done : ret_type c) : M unit := fun _ k =>
  (Ok tt, {| ns := ns k; log := log k ++ [Entry c (Ok done)]; opened := opened k |}).

(** A local operation: it fails when the world says so, and is not
    logged. *)
Definition attempt (op : local_op) : M unit := fun w k =>
  match fault_of w (length (log k)) op with
  | Some e => (Raise e, k)
  | None => (Ok tt, k)
  end.

(** Read a global variable; unbound is [NameError]. *)
Definition get {A} (name : string) (slot : Ns.t -> option A) : M A := fun _ k =>
  match slot (ns k) with
  | Some v => (Ok v, k)
  | None => (Raise (NameError name), k)
  end.

(** Bind a global variable. *)
Definition assign (upd : Ns.t -> Ns.t) : M unit := fun _ k =>
  (Ok tt, {| ns := upd (ns k); log := log k; opened := opened k |}).

(** [str.format], raising IndexError when arguments run out. *)
Definition format (fmt : string) (args : list string) : M string :=
  match PyStr.format fmt args with
  | Some s => ret s
  | None => raise IndexError
  end.

(** [d[key]] on a dict. *)
Definition subscript {V} (d : gmap string V) (key : string) : M V :=
  match d !! key with
  | Some v => ret v
  | None => raise (KeyError key)
  end.

(** [try: body / except Exception as e: handler]: only instances of
    [Exception] are caught. *)
Definition try_except {A} (body : M A) (handler : exn -> M A) : M A := fun w k =>
  match body w k with
  | (Ok a, k') => (Ok a, k')
  | (Raise e, k') =>
      if isinstance_Exception e then handler e w k' else (Raise e, k')
  end.

(** A file opened for reading in text mode: its name and the characters
    it holds. *)
Record text_file := { file_name : string; file_chars : list ascii }.

(** [for row in ...: body] over the rows a file still has: the file is
    read on before each turn, and once more to find its end. *)
Fixpoint for_rows (path : string) (rows : list string) (body : string -> M unit) : M unit :=
  attempt (read_line path) ;;
  match rows with
  | [] => ret tt
  | row :: rest => body row ;; for_rows path rest body
  end.

(** [for row in f: body]: the rows are those of text mode. *)
Definition for_each (f : text_file) (body : string -> M unit) : M unit :=
  for_rows (file_name f) (PyIO.rows (file_chars f)) body.

(** [with open(path, mode) as f: body]: the file is closed when the block
    is left, normally or by an exception, and the exception goes on. *)
Definition with_open (path mode : string) (body : text_file -> M unit) : M unit := fun w k =>
  match perform (open_ path mode) w k with
  | (Raise e, k') => (Raise e, k')
  | (Ok chars, k') =>
      let held := {| ns := ns k'; log := log k'; opened := path :: opened k' |} in
      match body {| file_name := path; file_chars := chars |} w held with
      | (r, k'') => (r, {| ns := ns k''; log := log k''; opened := tl (opened k'') |})
      end
  end.

(** ** The SDK surface the notebook uses *)

(** [boto3.Session()] *)
Definition boto3_Session : M session := fun w k =>
  (Ok (Boto3Session (configured_region w)), k).

(** [sagemaker.session.Session()] *)
Definition sagemaker_Session : M session := fun w k =>
  (Ok (SageMakerSession (configured_region w)), k).

(** [s.region_name]: an attribute of a boto3 session only. *)
Definition attr_region_name (s : session) : M string :=
  match s with
  | Boto3Session r => ret r
  | SageMakerSession _ => raise (AttributeError "region_name")
  end.

(** [s.client]: a method of a boto3 session only.  The client falls back
    on the session's region; creating it can fail. *)
Definition attr_client (s : session) : M (string -> option string -> M client) :=
  match s with
  | Boto3Session r =>
      ret (fun service_name region_name =>
             let region := match region_name with Some x => x | None => r end in
             attempt (new_client service_name region) ;;
             ret {| service := service_name; client_region := region |})
  | SageMakerSession _ => raise (AttributeError "client")
  end.

(** [s.delete_endpoint]: a method of a SageMaker session only. *)
Definition attr_delete_endpoint (s : session) : M (string -> M unit) :=
  match s with
  | SageMakerSession _ => ret (fun endpoint_name => perform (delete_endpoint s endpoint_name))
  | Boto3Session _ => raise (AttributeError "delete_endpoint")
  end.

(** [e.deploy(...)]: creates the endpoint and returns a predictor bound to
    the endpoint name it was given. *)
Definition Estimator_deploy (e : estimator) (initial_instance_count : nat)
    (instance_type endpoint_name : string) : M predictor :=
  perform (deploy e initial_instance_count instance_type endpoint_name) ;;
  ret {| endpoint := endpoint_name; pred_content_type := None;
         pred_serializer := default_serializer; pred_deserializer := None |}.

(** Attribute assignment on the predictor object. *)
Definition setattr_content_type (v : option string) (p : predictor) : predictor :=
  {| endpoint := endpoint p; pred_content_type := v;
     pred_serializer := pred_serializer p; pred_deserializer := pred_deserializer p |}.

Definition setattr_serializer (v : serializer_obj) (p : predictor) : predictor :=
  {| endpoint := endpoint p; pred_content_type := pred_content_type p;
     pred_serializer := v; pred_deserializer := pred_deserializer p |}.

Definition setattr_deserializer (v : option string) (p : predictor) : predictor :=
  {| endpoint := endpoint p; pred_content_type := pred_content_type p;
     pred_serializer := pred_serializer p; pred_deserializer := v |}.

(** ** The code cells

    Cells are numbered by their position in the notebook file, markdown
    cells included (and skipped here). *)

(** Cell 1: imports. *)
Definition cell_01 : M unit := ret tt.

(** Cell 2: session, SageMaker client, execution role. *)
Definition cell_02 : M unit :=
  s <- boto3_Session ;; assign (Ns.set_sess s) ;;
  s <- get "sess" Ns.sess ;; client <- attr_client s ;;
  c <- client "sagemaker" None ;; assign (Ns.set_sm c) ;;
  r <- perform get_execution_role ;; assign (Ns.set_role r).

(** Cell 4: load the data set with its header and show it. *)
Definition cell_04 : M unit :=
  assign (Ns.set_local_data_path "./data/training-dataset-with-header.csv") ;;
  p <- get "local_data_path" Ns.local_data_path ;;
  d <- perform (pd_read_csv p) ;; assign (Ns.set_data d) ;;
  perform (pd_set_option "display.max_columns" 500) ;;
  perform (pd_set_option "display.max_rows" 10) ;;
  d <- get "data" Ns.data ;; emit (display d) tt.

Definition bucket_exists_message : string :=
  "Looks like you already have a bucket of this name. That's good. Uploading the data files...".

(** The [try] block of cell 6. *)
Definition create_bucket : M unit :=
  s <- get "sess" Ns.sess ;; r <- attr_region_name s ;;
  if String.eqb r "us-east-1" then
    s <- get "sess" Ns.sess ;; client <- attr_client s ;; c <- client "s3" None ;;
    b <- get "bucket" Ns.bucket ;;
    perform (s3_create_bucket c b None)
  else
    s <- get "sess" Ns.sess ;; client <- attr_client s ;; c <- client "s3" None ;;
    b <- get "bucket" Ns.bucket ;;
    s' <- get "sess" Ns.sess ;; r' <- attr_region_name s' ;;
    perform (s3_create_bucket c b (Some (<["LocationConstraint" := r']> ∅))).

(** Cell 6: name the bucket, create it if need be, upload both splits. *)
Definition cell_06 : M unit :=
  s <- get "sess" Ns.sess ;; client <- attr_client s ;;
  s' <- get "sess" Ns.sess ;; r <- attr_region_name s' ;;
  c <- client "sts" (Some r) ;;
  identity <- perform (sts_get_caller_identity c) ;;
  a <- subscript identity "Account" ;; assign (Ns.set_account_id a) ;;
  s <- get "sess" Ns.sess ;; r <- attr_region_name s ;;
  a <- get "account_id" Ns.account_id ;;
  b <- format "sagemaker-{}-{}" [r; a] ;; assign (Ns.set_bucket b) ;;
  assign (Ns.set_prefix "xgboost-churn") ;;
  try_except create_bucket (fun e => emit (print bucket_exists_message) tt) ;;
  b <- get "bucket" Ns.bucket ;; p <- get "prefix" Ns.prefix ;;
  dest <- format "s3://{}/{}/{}" [b; p; "train"] ;;
  u <- perform (S3Uploader_upload "data/train.csv" dest) ;; assign (Ns.set_s3url u) ;;
  u <- get "s3url" Ns.s3url ;; emit (print u) tt ;;
  b <- get "bucket" Ns.bucket ;; p <- get "prefix" Ns.prefix ;;
  dest <- format "s3://{}/{}/{}" [b; p; "validation"] ;;
  u <- perform (S3Uploader_upload "data/validation.csv" dest) ;; assign (Ns.set_s3url u) ;;
  u <- get "s3url" Ns.s3url ;; emit (print u) tt.

(** Cell 8: the XGBoost container image for the region. *)
Definition cell_08 : M unit :=
  s <- boto3_Session ;; r <- attr_region_name s ;;
  i <- perform (get_image_uri r "xgboost") ;; assign (Ns.set_docker_image_name i).

(** Cell 10: the two input channels. *)
Definition cell_10 : M unit :=
  b <- get "bucket" Ns.bucket ;; p <- get "prefix" Ns.prefix ;;
  d <- format "s3://{}/{}/train" [b; p] ;;
  assign (Ns.set_s3_input_train {| s3_data := d; content_type := "csv" |}) ;;
  b <- get "bucket" Ns.bucket ;; p <- get "prefix" Ns.prefix ;;
  d <- format "s3://{}/{}/validation/" [b; p] ;;
  assign (Ns.set_s3_input_validation {| s3_data := d; content_type := "csv" |}).

(** The dictionary literal of cell 12. *)
Definition hyperparams_literal : gmap string hpvalue :=
  <["max_depth" := HInt 5]>
  (<["subsample" := HFloat (QArith_base.Qmake 8 10)]>
  (<["num_round" := HInt 600]>
  (<["eta" := HFloat (QArith_base.Qmake 2 10)]>
  (<["gamma" := HInt 4]>
  (<["min_child_weight" := HInt 6]>
  (<["silent" := HInt 0]>
  (<["objective" := HStr "binary:logistic"]> ∅))))))).

(** Cell 12: hyperparameters. *)
Definition cell_12 : M unit :=
  assign (Ns.set_hyperparams hyperparams_literal).

(** The dict [{'train': s3_input_train, 'validation': s3_input_validation}]. *)
Definition channels : M (gmap string s3_input) :=
  tr <- get "s3_input_train" Ns.s3_input_train ;;
  va <- get "s3_input_validation" Ns.s3_input_validation ;;
  ret (<["train" := tr]> (<["validation" := va]> ∅)).

(** Cell 14: trial 1, the built-in algorithm. *)
Definition cell_14 : M unit :=
  s <- sagemaker_Session ;; assign (Ns.set_sess s) ;;
  img <- get "docker_image_name" Ns.docker_image_name ;;
  r <- get "role" Ns.role ;;
  hp <- get "hyperparams" Ns.hyperparams ;;
  b <- get "bucket" Ns.bucket ;; p <- get "prefix" Ns.prefix ;;
  o <- format "s3://{}/{}/output" [b; p] ;;
  s <- get "sess" Ns.sess ;;
  assign (Ns.set_xgb
    {| est_class := Estimator; image_name := img; entry_point := None;
       est_role := r; framework_version := None; py_version := None;
       hyperparameters := hp; train_instance_count := 1;
       train_instance_type := "ml.m5.large"; output_path := o;
       base_job_name := "demo-xgboost-customer-churn";
       sagemaker_session := s |}) ;;
  x <- get "xgb" Ns.xgb ;; inputs <- channels ;;
  perform (fit x inputs).

(** Cell 17: show the entry-point script. *)
Definition cell_17 : M unit :=
  perform (shell "pygmentize xgboost_customer_churn.py").

(** Cell 19: trial 2, the framework estimator with an entry point. *)
Definition cell_19 : M unit :=
  assign (Ns.set_entry_point_script "xgboost_customer_churn.py") ;;
  img <- get "docker_image_name" Ns.docker_image_name ;;
  ep <- get "entry_point_script" Ns.entry_point_script ;;
  r <- get "role" Ns.role ;;
  hp <- get "hyperparams" Ns.hyperparams ;;
  b <- get "bucket" Ns.bucket ;; p <- get "prefix" Ns.prefix ;;
  o <- format "s3://{}/{}/output" [b; p] ;;
  s <- get "sess" Ns.sess ;;
  assign (Ns.set_framework_xgb
    {| est_class := XGBoost; image_name := img; entry_point := Some ep;
       est_role := r; framework_version := Some "0.90-2"; py_version := Some "py3";
       hyperparameters := hp; train_instance_count := 1;
       train_instance_type := "ml.m5.large"; output_path := o;
       base_job_name := "demo-xgboost-customer-churn";
       sagemaker_session := s |}) ;;
  x <- get "framework_xgb" Ns.framework_xgb ;; inputs <- channels ;;
  perform (fit x inputs).

Definition endpoint_prefix : string := "demo-xgboost-customer-churn-".
Definition endpoint_time_format : string := "%Y-%m-%d-%H-%M-%S".

(** Cell 21: the time-stamped endpoint name. *)
Definition cell_21 : M unit :=
  p <- get "prefix" Ns.prefix ;;
  d <- format "{}/datacapture" [p] ;; assign (Ns.set_data_capture_prefix d) ;;
  now <- perform gmtime ;;
  assign (Ns.set_endpoint_name
            (endpoint_prefix +:+ PyTime.strftime endpoint_time_format now)) ;;
  n <- get "endpoint_name" Ns.endpoint_name ;;
  m <- format "EndpointName = {}" [n] ;; emit (print m) tt.

(** Cell 22: deploy the model of trial 1. *)
Definition cell_22 : M unit :=
  x <- get "xgb" Ns.xgb ;; n <- get "endpoint_name" Ns.endpoint_name ;;
  p <- Estimator_deploy x 1 "ml.m5.large" n ;;
  assign (Ns.set_xgb_predictor p).

(** Cell 24: CSV in, raw response out. *)
Definition cell_24 : M unit :=
  p <- get "xgb_predictor" Ns.xgb_predictor ;;
  assign (Ns.set_xgb_predictor (setattr_content_type (Some "text/csv") p)) ;;
  p <- get "xgb_predictor" Ns.xgb_predictor ;;
  assign (Ns.set_xgb_predictor (setattr_serializer csv_serializer p)) ;;
  p <- get "xgb_predictor" Ns.xgb_predictor ;;
  assign (Ns.set_xgb_predictor (setattr_deserializer None p)).

Definition traffic_message : string :=
  "Sending test traffic to the endpoint {}. 
Please wait for a minute...".

(** [time.sleep(0.5)]: the literal is one half. *)
Definition half_second : QArith_base.Q := QArith_base.Qmake 1 2.

(** The body of the loop of cell 26, for one row of the file. *)
Definition send_row (row : string) : M unit :=
  let payload := PyStr.rstrip row PyStr.newline in
  p <- get "xgb_predictor" Ns.xgb_predictor ;;
  response <- perform (predict p payload) ;;
  emit (print (PyBytes.repr response)) tt ;;
  perform (time_sleep half_second).

(** Cell 26: one request per row of the test sample. *)
Definition cell_26 : M unit :=
  n <- get "endpoint_name" Ns.endpoint_name ;;
  m <- format traffic_message [n] ;; emit (print m) tt ;;
  with_open "data/test_sample.csv" "r" (fun f => for_each f send_row).

(** Cell 28: clean up. *)
Definition cell_28 : M unit :=
  s <- get "sess" Ns.sess ;; del <- attr_delete_endpoint s ;;
  p <- get "xgb_predictor" Ns.xgb_predictor ;;
  del (endpoint p).

(** The code cells in notebook order. *)
Definition notebook : list (M unit) :=
  [cell_01; cell_02; cell_04; cell_06; cell_08; cell_10; cell_12; cell_14;
   cell_17; cell_19; cell_21; cell_22; cell_24; cell_26; cell_28].

(** Run cells one after the other; an exception stops the run. *)
Fixpoint run_cells (cells : list (M unit)) : M unit :=
  match cells with
  | [] => ret tt
  | c :: rest => c ;; run_cells rest
  end.

(** "Run All" on a fresh kernel. *)
Definition run_all (w : world) : outcome unit * kernel :=
  run_cells notebook w fresh_kernel.

Definition result (w : world) : outcome unit := fst (run_all w).
Definition transcript (w : world) : list entry := log (snd (run_all w)).

(** ** The shape of a run

    What the cells compute from the answers they get, written out, and the
    transcript a run leaves when every call returns. *)

(** ['sagemaker-{}-{}'.format(region, account_id)] *)
Definition bucket_name (region account : string) : string :=
  "sagemaker-" +:+ region +:+ "-" +:+ account.

(** ['s3://{}/{}/{}'.format(bucket, prefix, leaf)] *)
Definition s3_uri (b p leaf : string) : string :=
  "s3://" +:+ b +:+ "/" +:+ p +:+ "/" +:+ leaf.

Definition churn_prefix : string := "xgboost-churn".

(** The [CreateBucketConfiguration] argument for a region. *)
Definition bucket_configuration (region : string) : option (gmap string string) :=
  if String.eqb region "us-east-1" then None
  else Some (<["LocationConstraint" := region]> ∅).

Definition train_channel (b : string) : s3_input :=
  {| s3_data := s3_uri b churn_prefix "train"; content_type := "csv" |}.

Definition validation_channel (b : string) : s3_input :=
  {| s3_data := s3_uri b churn_prefix "validation/"; content_type := "csv" |}.

Definition fit_inputs (b : string) : gmap string s3_input :=
  <["train" := train_channel b]> (<["validation" := validation_channel b]> ∅).

(** The estimator of trial 1. *)
Definition algorithm_estimator (region role image b : string) : estimator :=
  {| est_class := Estimator; image_name := image; entry_point := None;
     est_role := role; framework_version := None; py_version := None;
     hyperparameters := hyperparams_literal; train_instance_count := 1;
     train_instance_type := "ml.m5.large";
     output_path := s3_uri b churn_prefix "output";
     base_job_name := "demo-xgboost-customer-churn";
     sagemaker_session := SageMakerSession region |}.

(** The estimator of trial 2. *)
Definition framework_estimator (region role image b : string) : estimator :=
  {| est_class := XGBoost; image_name := image;
     entry_point := Some "xgboost_customer_churn.py";
     est_role := role; framework_version := Some "0.90-2"; py_version := Some "py3";
     hyperparameters := hyperparams_literal; train_instance_count := 1;
     train_instance_type := "ml.m5.large";
     output_path := s3_uri b churn_prefix "output";
     base_job_name := "demo-xgboost-customer-churn";
     sagemaker_session := SageMakerSession region |}.

(** The endpoint name computed at time [now]. *)
Definition endpoint_name_at (now : PyTime.struct_time) : string :=
  endpoint_prefix +:+ PyTime.strftime endpoint_time_format now.

(** The predictor as cell 24 leaves it. *)
Definition csv_predictor (name : string) : predictor :=
  {| endpoint := name; pred_content_type := Some "text/csv";
     pred_serializer := csv_serializer; pred_deserializer := None |}.

(** How the [try] statement of cell 6 went: the bucket was created, or
    the creation raised an [Exception], or already the creation of the S3
    client did; the handler takes both. *)
Inductive bucket_outcome :=
| bucket_created
| creation_raised (e : exn)
| client_raised (e : exn).

(** The values the outside hands to a run that gets through. *)
Record answers := {
  a_role : string;
  a_data : dataframe;
  a_identity : gmap string string;
  a_account : string;
  a_bucket : bucket_outcome;
  a_train_url : string;
  a_validation_url : string;
  a_image : string;
  a_now : PyTime.struct_time;
  a_chars : list ascii;          (* the characters of the test sample *)
  a_responses : list (list byte)
}.

(** The rows of the test sample. *)
Definition a_rows (a : answers) : list string := PyIO.rows (a_chars a).

(** The log lines of the request loop: per row, the request, the printed
    response, the pause. *)
Fixpoint traffic (p : predictor) (rows : list string) (responses : list (list byte))
    : list entry :=
  match rows, responses with
  | row :: rows', response :: responses' =>
      Entry (predict p (PyStr.rstrip row PyStr.newline)) (Ok response)
      :: Entry (print (PyBytes.repr response)) (Ok tt)
      :: Entry (time_sleep half_second) (Ok tt)
      :: traffic p rows' responses'
  | _, _ => []
  end.

(** The log lines of the [try] statement of cell 6. *)
Definition bucket_lines (region b : string) (how : bucket_outcome) : list entry :=
  let c := s3_create_bucket {| service := "s3"; client_region := region |} b
             (bucket_configuration region) in
  match how with
  | bucket_created => [Entry c (Ok tt)]
  | creation_raised e => [Entry c (Raise e); Entry (print bucket_exists_message) (Ok tt)]
  | client_raised e => [Entry (print bucket_exists_message) (Ok tt)]
  end.

(** The identity request of cell 6. *)
Definition sts_call (region : string) : call :=
  sts_get_caller_identity {| service := "sts"; client_region := region |}.

(** The transcript of a run in which every call returns (bucket creation
    apart, which may raise): the lines up to the request loop, the loop,
    and the clean-up. *)
Definition script_head (region : string) (a : answers) : list entry :=
  let b := bucket_name region (a_account a) in
  let name := endpoint_name_at (a_now a) in
  [ Entry get_execution_role (Ok (a_role a));
    Entry (pd_read_csv "./data/training-dataset-with-header.csv") (Ok (a_data a));
    Entry (pd_set_option "display.max_columns" 500) (Ok tt);
    Entry (pd_set_option "display.max_rows" 10) (Ok tt);
    Entry (display (a_data a)) (Ok tt);
    Entry (sts_call region) (Ok (a_identity a)) ]
  ++ bucket_lines region b (a_bucket a)
  ++ [ Entry (S3Uploader_upload "data/train.csv" (s3_uri b churn_prefix "train"))
             (Ok (a_train_url a));
       Entry (print (a_train_url a)) (Ok tt);
       Entry (S3Uploader_upload "data/validation.csv" (s3_uri b churn_prefix "validation"))
             (Ok (a_validation_url a));
       Entry (print (a_validation_url a)) (Ok tt);
       Entry (get_image_uri region "xgboost") (Ok (a_image a));
       Entry (fit (algorithm_estimator region (a_role a) (a_image a) b) (fit_inputs b)) (Ok tt);
       Entry (shell "pygmentize xgboost_customer_churn.py") (Ok tt);
       Entry (fit (framework_estimator region (a_role a) (a_image a) b) (fit_inputs b)) (Ok tt);
       Entry gmtime (Ok (a_now a));
       Entry (print ("EndpointName = " +:+ name)) (Ok tt);
       Entry (deploy (algorithm_estimator region (a_role a) (a_image a) b) 1 "ml.m5.large" name)
             (Ok tt);
       Entry (print ("Sending test traffic to the endpoint " +:+ name +:+ ". " +:+ PyStr.newline
                     +:+ "Please wait for a minute...")) (Ok tt);
       Entry (open_ "data/test_sample.csv" "r") (Ok (a_chars a)) ].

Definition script_loop (a : answers) : list entry :=
  traffic (csv_predictor (endpoint_name_at (a_now a))) (a_rows a) (a_responses a).

Definition script_cleanup (region : string) (a : answers) : list entry :=
  [ Entry (delete_endpoint (SageMakerSession region) (endpoint_name_at (a_now a))) (Ok tt) ].

Definition script (region : string) (a : answers) : list entry :=
  script_head region a ++ script_loop a ++ script_cleanup region a.

(** The answers fit together. *)
Definition coherent (a : answers) : Prop :=
  a_identity a !! "Account" = Some (a_account a)
  /\ length (a_responses a) = length (a_rows a)
  /\ match a_bucket a with
     | bucket_created => True
     | creation_raised e | client_raised e => isinstance_Exception e = true
     end.

(** Output lines cannot raise. *)
Definition is_output (c : call) : bool :=
  match c with
  | print _ | display _ => true
  | _ => false
  end.

Definition is_create_bucket (c : call) : bool :=
  match c with
  | s3_create_bucket _ _ _ => true
  | _ => false
  end.

(** The one exception the notebook handles: an [Exception] out of bucket
    creation. *)
Definition swallowed (c : call) (e : exn) : bool :=
  is_create_bucket c && isinstance_Exception e.

(** The exception an entry raised, if it did. *)
Definition raised (x : entry) : option exn :=
  match out x with
  | Ok _ => None
  | Raise e => Some e
  end.

(** A run of [full] that stops at a call that raises [e] and is not handled
    leaves [got]: the lines before that call, and the call with its
    exception. *)
Definition stopped (full : list entry) (e : exn) (got : list entry) : Prop :=
  exists (pre : list entry) c o (post : list entry),
    full = pre ++ Entry c o :: post
    /\ is_output c = false
    /\ swallowed c e = false
    /\ got = pre ++ [Entry c (Raise e)].

(** Where a local operation stands in a script: how many lines are
    logged before it.  The clients of cells 2 and 6, and the reads of the
    loop: one before each row and one at the end of the file. *)
Definition fault_points (region : string) (a : answers) : list (nat * local_op) :=
  [ (0, new_client "sagemaker" region);
    (5, new_client "sts" region);
    (6, new_client "s3" region) ]
  ++ map (fun i => (length (script_head region a) + 3 * i, read_line "data/test_sample.csv"))
         (seq 0 (S (length (a_rows a)))).

(** How a run ends: either through, or at the first call that raises and
    is not handled, or at the missing account in the identity response, or
    at a local operation that fails. *)
Inductive shape (w : world) : outcome unit -> list entry -> Prop :=
| shape_done a :
    coherent a ->
    shape w (Ok tt) (script (configured_region w) a)
| shape_stop a e got :
    coherent a ->
    stopped (script (configured_region w) a) e got ->
    shape w (Raise e) got
| shape_no_account a identity :
    coherent a ->
    identity !! "Account" = None ->
    shape w (Raise (KeyError "Account"))
      (firstn 5 (script (configured_region w) a)
       ++ [Entry (sts_call (configured_region w)) (Ok identity)])
| shape_fault a e i op :
    coherent a ->
    (i, op) ∈ fault_points (configured_region w) a ->
    fault_of w i op = Some e ->
    shape w (Raise e) (firstn i (script (configured_region w) a)).

(** A run, as a pair of its result and final kernel, has the shape. *)
Definition ends_well (w : world) (x : outcome unit * kernel) : Prop :=
  shape w x.1 (log x.2).
Arguments ends_well : simpl never.

(** ** Observations on a transcript *)

(** The calls of a log, answers dropped. *)
Definition calls (l : list entry) : list call := map ev l.

(** The steps of the flow that reach outside the kernel. *)
Inductive step :=
| StepInspect                          (* local CSV read *)
| StepUpload                           (* object-storage upload *)
| StepTrain (mode : estimator_class)   (* training-job submission *)
| StepDeploy                           (* endpoint deployment *)
| StepRequest                          (* one inference request *)
| StepTeardown.                        (* endpoint deletion *)

Definition step_of (c : call) : option step :=
  match c with
  | pd_read_csv _ => Some StepInspect
  | S3Uploader_upload _ _ => Some StepUpload
  | fit e _ => Some (StepTrain (est_class e))
  | deploy _ _ _ _ => Some StepDeploy
  | predict _ _ => Some StepRequest
  | delete_endpoint _ _ => Some StepTeardown
  | _ => None
  end.

Definition steps (l : list entry) : list step := omap step_of (calls l).

(** The payloads of the inference requests, in order. *)
Definition payload_of (c : call) : option string :=
  match c with predict _ data => Some data | _ => None end.
Definition payloads (l : list entry) : list string := omap payload_of (calls l).

(** The payloads as the specification words them: the lines of the file
    as it is stored, cut at the line feeds only, each without its trailing
    line feeds and otherwise unchanged. *)
Definition claimed_payloads (stored : list ascii) : list string :=
  map (fun line => PyStr.rstrip line PyStr.newline) (PyIO.lines stored).

(** What one line of a text is: a body without line feed, followed by one
    line feed or, at the end of a text that does not end with one, by
    nothing. *)
Definition line_of (text : list ascii) (body row : string) : Prop :=
  PyStr.mem PyStr.nl body = false
  /\ (row = body +:+ PyStr.newline \/ (row = body /\ body <> ""))
  /\ forall c, PyStr.mem c body = true -> In c text.

(** The uploads, as (local file, destination). *)
Definition upload_of (c : call) : option (string * string) :=
  match c with S3Uploader_upload f d => Some (f, d) | _ => None end.
Definition uploads (l : list entry) : list (string * string) := omap upload_of (calls l).

(** Requests and pauses, in order. *)
Inductive beat :=
| Request
| Pause (secs : QArith_base.Q).

Definition beat_of (c : call) : option beat :=
  match c with
  | predict _ _ => Some Request
  | time_sleep q => Some (Pause q)
  | _ => None
  end.
Definition rhythm (l : list entry) : list beat := omap beat_of (calls l).

(** What happens around the endpoint: the clock is read, the endpoint is
    created from an estimator, invoked, deleted. *)
Inductive endpoint_event :=
| Stamped (now : PyTime.struct_time)
| Created (by_estimator : estimator) (name : string)
| Invoked (name : string)
| Deleted (name : string).

Definition endpoint_event_of (x : entry) : option endpoint_event :=
  match x with
  | Entry gmtime (Ok now) => Some (Stamped now)
  | Entry (deploy e _ _ name) _ => Some (Created e name)
  | Entry (predict p _) _ => Some (Invoked (endpoint p))
  | Entry (delete_endpoint _ name) _ => Some (Deleted name)
  | _ => None
  end.
Definition endpoint_events (l : list entry) : list endpoint_event :=
  omap endpoint_event_of l.

(** What is done with estimators. *)
Inductive estimator_call :=
| Fitted (e : estimator)
| Deployed (e : estimator).

Definition estimator_call_of (c : call) : option estimator_call :=
  match c with
  | fit e _ => Some (Fitted e)
  | deploy e _ _ _ => Some (Deployed e)
  | _ => None
  end.
Definition estimator_calls (l : list entry) : list estimator_call :=
  omap estimator_call_of (calls l).

(** Does the call involve the framework-mode estimator? *)
Definition uses_framework (c : call) : bool :=
  match estimator_call_of c with
  | Some (Fitted e) | Some (Deployed e) =>
      match est_class e with XGBoost => true | Estimator => false end
  | None => false
  end.

(** Data on its way to training: uploaded, then submitted as channels. *)
Inductive data_event :=
| Uploaded (local_path destination : string)
| Submitted (e : estimator) (inputs : gmap string s3_input).

Definition data_event_of (c : call) : option data_event :=
  match c with
  | S3Uploader_upload f d => Some (Uploaded f d)
  | fit e inputs => Some (Submitted e inputs)
  | _ => None
  end.
Definition data_flow (l : list entry) : list data_event := omap data_event_of (calls l).

(** The identity the account answered with, and the bucket asked for. *)
Inductive supply :=
| Identity (identity : gmap string string)
| BucketRequest (cl : client) (b : string) (cfg : option (gmap string string)).

Definition supply_of (x : entry) : option supply :=
  match x with
  | Entry (sts_get_caller_identity _) (Ok identity) => Some (Identity identity)
  | Entry (s3_create_bucket cl b cfg) _ => Some (BucketRequest cl b cfg)
  | _ => None
  end.
Definition supplies (l : list entry) : list supply := omap supply_of l.

(** The rows the opened files hold, as text mode reads them. *)
Definition rows_read (x : entry) : option (list string) :=
  match x with
  | Entry (open_ _ _) (Ok chars) => Some (PyIO.rows chars)
  | _ => None
  end.
Definition files_read (l : list entry) : list (list string) := omap rows_read l.

(** The kernel after the first [n] code cells of "Run All". *)
Definition kernel_after (n : nat) (w : world) : kernel :=
  (run_cells (firstn n notebook) w fresh_kernel).2.

(** A location points at an upload destination when it names it, with or
    without the trailing separator of a key prefix. *)
Definition points_at (location destination : string) : Prop :=
  location = destination \/ location = destination +:+ "/".

(** ** Sample worlds *)

Definition epoch : PyTime.struct_time :=
  {| PyTime.tm_year := 1970; PyTime.tm_mon := 1; PyTime.tm_mday := 1;
     PyTime.tm_hour := 0; PyTime.tm_min := 0; PyTime.tm_sec := 0 |}.

Definition sample_time : PyTime.struct_time :=
  {| PyTime.tm_year := 2020; PyTime.tm_mon := 7; PyTime.tm_mday := 4;
     PyTime.tm_hour := 9; PyTime.tm_min := 30; PyTime.tm_sec := 5 |}.

(** Three rows: two end with a newline, the last does not. *)
Definition sample_rows : list string :=
  [ String "1" (String "," (String "2" PyStr.newline));
    String "3" (String "," (String "4" PyStr.newline));
    "5,6" ].

(** The characters of a file that holds the given rows. *)
Definition chars_of (rows : list string) : list ascii :=
  list_ascii_of_string (String.concat "" rows).

(** A value for every call. *)
Definition sample_reply (c : call) : ret_type c :=
  match c with
  | get_execution_role => "arn:aws:iam::123456789012:role/notebook"
  | pd_read_csv _ => ["State,Churn"; "KS,0"]
  | sts_get_caller_identity _ => <["Account" := "123456789012"]> ∅
  | S3Uploader_upload local_path desired_s3_uri => desired_s3_uri +:+ "/" +:+ local_path
  | get_image_uri _ _ => "xgboost:1"
  | gmtime => sample_time
  | open_ _ _ => chars_of sample_rows
  | predict _ _ => list_byte_of_string "0.25"
  | _ => tt
  end.

(** The world in region [region] where the calls [fails] selects raise and
    all others return the sample value; no local operation fails there. *)
Definition world_where (region : string) (fails : call -> option exn) : world :=
  {| configured_region := region;
     answer := fun _ c =>
       match fails c with
       | Some e => Raise e
       | None => Ok (sample_reply c)
       end;
     fault := fun _ _ => None |}.

(** Everything works, in Ireland. *)
Definition sample_world : world := world_where "eu-west-1" (fun _ => None).

(** Everything works, in the default region. *)
Definition virginia_world : world := world_where "us-east-1" (fun _ => None).

(** The bucket is already there. *)
Definition bucket_taken_world : world :=
  world_where "eu-west-1"
    (fun c => if is_create_bucket c then Some (ClientError "BucketAlreadyOwnedByYou") else None).

(** The second training job fails. *)
Definition framework_fails_world : world :=
  world_where "eu-west-1"
    (fun c => if uses_framework c then Some (ClientError "ResourceLimitExceeded") else None).


(** ** Runs against the script *)

(** The run of [w] follows the script of [a]: it goes through it, or stops
    on its way at a call whose exception is not handled, or at the identity
    response that has no account, or at a local operation that fails. *)
Definition follows (a : answers) (w : world) : Prop :=
  coherent a /\
  ( (result w = Ok tt /\ transcript w = script (configured_region w) a)
    \/ (exists (pre : list entry) x y (post : list entry) e,
          result w = Raise e
          /\ transcript w = pre ++ [x]
          /\ script (configured_region w) a = pre ++ y :: post
          /\ ev x = ev y
          /\ ( (raised x = Some e /\ is_output (ev x) = false
                /\ swallowed (ev x) e = false)
               \/ (raised x = None /\ ev x = sts_call (configured_region w)
                   /\ e = KeyError "Account" /\ length pre = 5) ))
    \/ (exists e i op,
          result w = Raise e
          /\ (i, op) ∈ fault_points (configured_region w) a
          /\ fault_of w i op = Some e
          /\ transcript w = firstn i (script (configured_region w) a)) ).

(** An observation of log lines that a stop cannot disturb: the line of a
    call that raised, or of the identity request, shows nothing or what
    the script's line shows. *)
Definition stable {B} (f : entry -> option B) : Prop :=
  (forall c o e, f (Entry c (Raise e)) = None \/ f (Entry c (Raise e)) = f (Entry c o))
  /\ (forall cl o o', f (Entry (sts_get_caller_identity cl) o)
                      = f (Entry (sts_get_caller_identity cl) o')).

(** The log only grows. *)
Definition extends {A} (m : M A) : Prop :=
  forall w k, log k `prefix_of` log (m w k).2.

(** Where a run stands when the cells before the hyperparameters are done:
    no hyperparameters yet, and of the steps the read and both uploads. *)
Definition after_uploads (x : outcome unit * kernel) : Prop :=
  x.1 = Ok tt ->
  Ns.hyperparams (ns x.2) = None
  /\ steps (log x.2) = [StepInspect; StepUpload; StepUpload].
Arguments after_uploads : simpl never.

(** ** Further observations on a transcript *)

Definition is_delete (c : call) : bool :=
  match c with delete_endpoint _ _ => true | _ => false end.

(** The frames shown. *)
Definition shown_of (c : call) : option dataframe :=
  match c with display d => Some d | _ => None end.
Definition shown (l : list entry) : list dataframe := omap shown_of (calls l).

(** What the cells print. *)
Definition printed_of (c : call) : option string :=
  match c with print s => Some s | _ => None end.
Definition printed (l : list entry) : list string := omap printed_of (calls l).

(** What the uploads returned. *)
Definition upload_url (x : entry) : option string :=
  match x with
  | Entry (S3Uploader_upload _ _) (Ok u) => Some u
  | _ => None
  end.
Definition upload_urls (l : list entry) : list string := omap upload_url l.

(** What the requests returned. *)
Definition response_of (x : entry) : option (list byte) :=
  match x with
  | Entry (predict _ _) (Ok r) => Some r
  | _ => None
  end.
Definition responses (l : list entry) : list (list byte) := omap response_of l.

(** The exceptions bucket creation raised. *)
Definition bucket_failure (x : entry) : option exn :=
  match x with
  | Entry (s3_create_bucket _ _ _) (Raise e) => Some e
  | _ => None
  end.
Definition bucket_failures (l : list entry) : list exn := omap bucket_failure l.

(** The buckets the run created. *)
Definition bucket_made (x : entry) : option string :=
  match x with
  | Entry (s3_create_bucket _ b _) (Ok _) => Some b
  | _ => None
  end.
Definition buckets_created (l : list entry) : list string := omap bucket_made l.

(** What goes into the estimators: the role and the image the outside
    returned, the uploads, and the estimators submitted for training. *)
Inductive training_event :=
| RoleIs (role : string)
| ImageIs (region repo_name image : string)
| SentTo (local_path destination : string)
| Trained (e : estimator).

Definition training_event_of (x : entry) : option training_event :=
  match x with
  | Entry get_execution_role (Ok r) => Some (RoleIs r)
  | Entry (get_image_uri region repo_name) (Ok image) => Some (ImageIs region repo_name image)
  | Entry (S3Uploader_upload f d) _ => Some (SentTo f d)
  | Entry (fit e _) _ => Some (Trained e)
  | _ => None
  end.
Definition training (l : list entry) : list training_event := omap training_event_of l.

(** Deployments that returned, and the predictors requests went through. *)
Inductive serving_event :=
| Serving (e : estimator) (initial_instance_count : nat) (instance_type name : string)
| Through (p : predictor).

Definition serving_event_of (x : entry) : option serving_event :=
  match x with
  | Entry (deploy e n t name) (Ok _) => Some (Serving e n t name)
  | Entry (predict p _) _ => Some (Through p)
  | _ => None
  end.
Definition serving (l : list entry) : list serving_event := omap serving_event_of l.

(** The regions a call is addressed to: the region of its client or of
    its session, the region it names, and the location constraint of a
    bucket. *)
Definition session_region (s : session) : string :=
  match s with
  | Boto3Session r => r
  | SageMakerSession r => r
  end.

Definition regions_of (c : call) : list string :=
  match c with
  | sts_get_caller_identity cl => [client_region cl]
  | s3_create_bucket cl _ cfg =>
      client_region cl
      :: match cfg with
         | Some m => option_list (m !! "LocationConstraint")
         | None => []
         end
  | get_image_uri region _ => [region]
  | fit e _ => [session_region (sagemaker_session e)]
  | deploy e _ _ _ => [session_region (sagemaker_session e)]
  | delete_endpoint s _ => [session_region s]
  | _ => []
  end.

(** ** Further notions *)

(** The field ranges of a [struct_time] that [gmtime] returns, in a year
    of four digits. *)
Definition four_digit_year (t : PyTime.struct_time) : Prop :=
  1000 <= PyTime.tm_year t < 10 ^ 4
  /\ 1 <= PyTime.tm_mon t <= 12 /\ 1 <= PyTime.tm_mday t <= 31
  /\ PyTime.tm_hour t <= 23 /\ PyTime.tm_min t <= 59 /\ PyTime.tm_sec t <= 61.

(** The number a string of digits denotes. *)
Definition digits_value (s : string) : option nat :=
  option_map Nat.of_uint (NilEmpty.uint_of_string s).

(** The files open when a computation ends are those open when it began. *)
Definition closes_its_files {A} (m : M A) : Prop :=
  forall w k, opened (m w k).2 = opened k.

(** Two runs end alike: the same result, the same log, the same open
    files, and, when they complete, the same bindings. *)
Definition same_outcome (x y : outcome unit * kernel) : Prop :=
  x.1 = y.1 /\ log x.2 = log y.2 /\ opened x.2 = opened y.2
  /\ (y.1 = Ok tt -> ns x.2 = ns y.2).
Arguments same_outcome : simpl never.

(** ** Further sample worlds *)

(** The sample values, with an identity response that names no account. *)
Definition anonymous_reply (c : call) : ret_type c :=
  match c return ret_type c with
  | sts_get_caller_identity _ => (<["UserId" := "AIDAEXAMPLE"]> ∅ : gmap string string)
  | x => sample_reply x
  end.

(** The identity response has no "Account". *)
Definition anonymous_world : world :=
  {| configured_region := "eu-west-1"; answer := fun _ c => Ok (anonymous_reply c);
     fault := fun _ _ => None |}.

(** The sample values, with a test sample that holds the given rows. *)
Definition reply_with_rows (rows : list string) (c : call) : ret_type c :=
  match c with
  | open_ _ _ => chars_of rows
  | x => sample_reply x
  end.

(** The test sample is an empty file. *)
Definition empty_sample_world : world :=
  {| configured_region := "eu-west-1"; answer := fun _ c => Ok (reply_with_rows [] c);
     fault := fun _ _ => None |}.

(** The test sample has a blank line in the middle. *)
Definition blank_line_world : world :=
  {| configured_region := "eu-west-1";
     answer := fun _ c =>
       Ok (reply_with_rows [String "1" (String "," (String "2" PyStr.newline));
                            PyStr.newline; "5,6"] c);
     fault := fun _ _ => None |}.

(** The sample values, with the clock one second later. *)
Definition reply_a_second_later (c : call) : ret_type c :=
  match c with
  | gmtime =>
      {| PyTime.tm_year := 2020; PyTime.tm_mon := 7; PyTime.tm_mday := 4;
         PyTime.tm_hour := 9; PyTime.tm_min := 30; PyTime.tm_sec := 6 |}
  | x => sample_reply x
  end.

Definition a_second_later_world : world :=
  {| configured_region := "eu-west-1"; answer := fun _ c => Ok (reply_a_second_later c);
     fault := fun _ _ => None |}.

(** The endpoint rejects the second row. *)
Definition second_request_fails_world : world :=
  world_where "eu-west-1"
    (fun c => match c with
              | predict _ "3,4" => Some (ClientError "ModelError")
              | _ => None
              end).

(** The deletion fails. *)
Definition teardown_fails_world : world :=
  world_where "eu-west-1"
    (fun c => if is_delete c then Some (ClientError "ThrottlingException") else None).

(** The test sample was saved with a carriage return and a line feed at
    the end of each of its two lines. *)
Definition crlf_chars : list ascii :=
  [ "1"; ","; "2"; PyIO.cr; PyStr.nl; "3"; ","; "4"; PyIO.cr; PyStr.nl ]%char.

Definition crlf_world : world :=
  {| configured_region := "eu-west-1";
     answer := fun _ c =>
       Ok (match c return ret_type c with
           | open_ _ _ => crlf_chars
           | x => sample_reply x
           end);
     fault := fun _ _ => None |}.

(** The configured region is the empty string. *)
Definition empty_region_world : world := world_where "" (fun _ => None).

(** No region is configured at all: boto3 refuses to create a client, so
    the run ends in cell 2 before the region name is used anywhere. *)
Definition unconfigured_world : world :=
  {| configured_region := "";
     answer := fun _ c => Ok (sample_reply c);
     fault := fun _ op =>
       match op with
       | new_client _ _ => Some (OtherError "NoRegionError")
       | read_line _ => None
       end |}.

(** Reading the test sample fails after the first row was sent. *)
Definition unreadable_sample_world : world :=
  {| configured_region := "eu-west-1";
     answer := fun _ c => Ok (sample_reply c);
     fault := fun i op =>
       match op with
       | read_line _ => if (20 <? i)%nat then Some (OtherError "UnicodeDecodeError") else None
       | _ => None
       end |}.

(** ** Reduction behaviour of the monad *)

Arguments bind {A B} m f w k /.
Arguments ret {A} a w k /.
Arguments raise {A} e w k /.
Arguments perform c w k /.
Arguments emit c done w k /.
Arguments get {A} name slot w k /.
Arguments assign upd w k /.
Arguments attempt op w k /.
Arguments format fmt args /.
Arguments subscript {V} d key /.
Arguments try_except {A} body handler w k /.
Arguments with_open path mode body w k /.
Arguments boto3_Session w k /.
Arguments sagemaker_Session w k /.
Arguments attr_region_name s /.
Arguments attr_client s /.
Arguments attr_delete_endpoint s /.
Arguments Estimator_deploy e initial_instance_count instance_type endpoint_name /.
Arguments send_row row w k /.
Arguments PyTime.strftime : simpl never.
Arguments PyStr.format : simpl never.
Arguments PyStr.rstrip : simpl never.
Arguments PyBytes.repr : simpl never.
Arguments PyIO.rows : simpl never.
Arguments fault_of : simpl never.
Arguments hyperparams_literal : simpl never.

(** ** Strings *)

Lemma append_empty_r (s : string) : s +:+ "" = s.
Proof.
  induction s as [|c s IH]; [reflexivity|].
  change (String c s +:+ "") with (String c (s +:+ "")). now rewrite IH.
Qed.

Ltac format_eq :=
  intros; cbv [PyStr.format Ascii.eqb Bool.eqb option_map];
  rewrite ?append_empty_r; reflexivity.

Lemma format_bucket_name r a :
  PyStr.format "sagemaker-{}-{}" [r; a] = Some (bucket_name r a).
Proof. format_eq. Qed.

Lemma format_s3_uri b p leaf :
  PyStr.format "s3://{}/{}/{}" [b; p; leaf] = Some (s3_uri b p leaf).
Proof. format_eq. Qed.

Lemma format_train_channel b p :
  PyStr.format "s3://{}/{}/train" [b; p] = Some (s3_uri b p "train").
Proof. format_eq. Qed.

Lemma format_validation_channel b p :
  PyStr.format "s3://{}/{}/validation/" [b; p] = Some (s3_uri b p "validation/").
Proof. format_eq. Qed.

Lemma format_output_path b p :
  PyStr.format "s3://{}/{}/output" [b; p] = Some (s3_uri b p "output").
Proof. format_eq. Qed.

Lemma format_data_capture p :
  PyStr.format "{}/datacapture" [p] = Some (p +:+ "/datacapture").
Proof. format_eq. Qed.

Lemma format_endpoint_banner n :
  PyStr.format "EndpointName = {}" [n] = Some ("EndpointName = " +:+ n).
Proof. format_eq. Qed.

Lemma format_traffic_message n :
  PyStr.format traffic_message [n]
  = Some ("Sending test traffic to the endpoint " +:+ n +:+ ". " +:+ PyStr.newline
          +:+ "Please wait for a minute...").
Proof. unfold traffic_message. format_eq. Qed.

Create Rewrite HintDb formats.
#[local] Hint Rewrite format_bucket_name format_s3_uri format_train_channel
  format_validation_channel format_output_path format_data_capture
  format_endpoint_banner format_traffic_message : formats.

(** ** Stopping points *)

Lemma stopped_app_l full rest e got :
  stopped full e got -> stopped (full ++ rest) e got.
Proof.
  intros (pre & c & o & post & -> & Hout & Hsw & ->).
  exists pre, c, o, (post ++ rest). rewrite <- app_assoc. auto.
Qed.

Lemma stopped_app_r before full e got :
  stopped full e got -> stopped (before ++ full) e (before ++ got).
Proof.
  intros (pre & c & o & post & -> & Hout & Hsw & ->).
  exists (before ++ pre), c, o, post. rewrite <- !app_assoc. auto.
Qed.

Lemma stopped_cons x full e got :
  stopped full e got -> stopped (x :: full) e (x :: got).
Proof. apply (stopped_app_r [x]). Qed.

Lemma stopped_here c o post e :
  is_output c = false -> swallowed c e = false ->
  stopped (Entry c o :: post) e [Entry c (Raise e)].
Proof. intros Hout Hsw. exists [], c, o, post. auto. Qed.

(** ** The request loop *)

Lemma length_traffic p rows : forall responses,
  length responses = length rows -> length (traffic p rows responses) = 3 * length rows.
Proof.
  induction rows as [|row rows IH]; intros [|response responses] Hlen;
    try discriminate; [reflexivity|].
  cbn [traffic length]. rewrite IH by (now injection Hlen). lia.
Qed.

(** The loop leaves the log of its requests: all of them, or those up to
    a call that raised, or those before a read that failed. *)
Lemma for_rows_shape w p path rows : forall k,
  Ns.xgb_predictor (ns k) = Some p ->
  exists responses, length responses = length rows /\
    ns (for_rows path rows send_row w k).2 = ns k /\
    opened (for_rows path rows send_row w k).2 = opened k /\
    match (for_rows path rows send_row w k).1 with
    | Ok _ => log (for_rows path rows send_row w k).2 = log k ++ traffic p rows responses
    | Raise e =>
        (exists got, stopped (traffic p rows responses) e got
                     /\ log (for_rows path rows send_row w k).2 = log k ++ got)
        \/ (exists i, i <= length rows
               /\ fault_of w (length (log k) + 3 * i) (read_line path) = Some e
               /\ log (for_rows path rows send_row w k).2
                  = log k ++ firstn (3 * i) (traffic p rows responses))
    end.
Proof.
  induction rows as [|row rows IH]; intros k Hp.
  - exists []. cbn. destruct (fault_of w (length (log k)) (read_line path)) as [e|] eqn:Hread;
      cbn; rewrite ?app_nil_r; repeat split.
    right. exists 0. rewrite Nat.add_0_r, app_nil_r. auto.
  - remember (for_rows path (row :: rows) send_row w k) as run eqn:Hrun.
    cbn in Hrun.
    destruct (fault_of w (length (log k)) (read_line path)) as [e|] eqn:Hread; cbn in Hrun.
    { subst run. exists (repeat [] (S (length rows))). rewrite repeat_length. cbn.
      repeat split. right. exists 0. rewrite Nat.add_0_r, app_nil_r.
      split; [lia|]. auto. }
    rewrite Hp in Hrun.
    destruct (answer w (length (log k)) _) as [response|e] eqn:Hpredict; cbn in Hrun.
    + destruct (answer w _ (time_sleep half_second)) as [[]|e] eqn:Hsleep; cbn in Hrun.
      * match type of Hrun with _ = for_rows path rows send_row w ?k' =>
          destruct (IH k' Hp) as (responses & Hlen & Hns & Hop & Hlog)
        end.
        rewrite <- Hrun in Hns, Hop, Hlog. cbn in Hns, Hop.
        exists (response :: responses). cbn [length traffic].
        split; [now rewrite Hlen|]. split; [assumption|]. split; [assumption|].
        destruct run.1 as [[]|e].
        -- rewrite Hlog. cbn. rewrite <- !app_assoc. reflexivity.
        -- destruct Hlog as [(got & Hstop & Hlog)|(i & Hi & Hfault & Hlog)].
           ++ left. eexists. split; [do 3 apply stopped_cons; exact Hstop|].
              rewrite Hlog. cbn. rewrite <- !app_assoc. reflexivity.
           ++ right. exists (S i). split; [lia|].
              cbn [log] in Hfault, Hlog. rewrite !length_app in Hfault. cbn [length] in Hfault.
              replace (length (log k) + 3 * S i) with (length (log k) + 1 + 1 + 1 + 3 * i) by lia.
              split; [exact Hfault|].
              replace (3 * S i) with (S (S (S (3 * i)))) by lia.
              rewrite Hlog. cbn [firstn]. rewrite <- !app_assoc. reflexivity.
      * subst run. exists (response :: repeat [] (length rows)). cbn [length traffic].
        rewrite repeat_length. cbn. repeat split.
        left. eexists. split; [do 2 apply stopped_cons; apply stopped_here; reflexivity|].
        rewrite <- !app_assoc. reflexivity.
    + subst run. exists ([] :: repeat [] (length rows)). cbn [length traffic].
      rewrite repeat_length. cbn. repeat split.
      left. eexists. split; [apply stopped_here; reflexivity|]. reflexivity.
Qed.

(** ** Every run has the shape *)

Ltac coherent_answers :=
  split; [first [eassumption | exact (lookup_insert_eq (∅ : gmap string string) "Account" "")]
         |split; [first [eassumption | reflexivity]
                 |first [exact I | eassumption | reflexivity]]].

Ltac script_eq :=
  unfold script, script_head, script_loop, script_cleanup, bucket_lines, a_rows;
  cbn [app a_role a_data a_identity a_account a_bucket a_train_url
       a_validation_url a_image a_now a_chars a_responses];
  reflexivity.

Lemma shape_done_eq w a got :
  coherent a -> got = script (configured_region w) a -> shape w (Ok tt) got.
Proof. intros Hc ->. now constructor. Qed.

Lemma shape_stop_in_loop w a e got log :
  coherent a -> stopped (script_loop a) e got ->
  log = script_head (configured_region w) a ++ got ->
  shape w (Raise e) log.
Proof.
  intros Hc Hstop ->. apply (shape_stop _ a); [assumption|].
  unfold script. now apply stopped_app_r, stopped_app_l.
Qed.

Lemma shape_stop_cleanup w a e log :
  coherent a ->
  log = script_head (configured_region w) a ++ script_loop a
        ++ [Entry (delete_endpoint (SageMakerSession (configured_region w))
                     (endpoint_name_at (a_now a)))
                  (Raise e)] ->
  shape w (Raise e) log.
Proof.
  intros Hc ->. apply (shape_stop _ a); [assumption|].
  unfold script. do 2 apply stopped_app_r.
  apply stopped_here; reflexivity.
Qed.

Lemma shape_fault_eq w a e i op got :
  got = firstn i (script (configured_region w) a) ->
  (i, op) ∈ fault_points (configured_region w) a ->
  fault_of w i op = Some e ->
  coherent a ->
  shape w (Raise e) got.
Proof. intros -> Hin Hf Hc. now apply (shape_fault _ a e i op). Qed.

Lemma shape_fault_in_loop w a e i log :
  coherent a -> i <= length (a_rows a) ->
  fault_of w (length (script_head (configured_region w) a) + 3 * i)
    (read_line "data/test_sample.csv") = Some e ->
  log = script_head (configured_region w) a ++ firstn (3 * i) (script_loop a) ->
  shape w (Raise e) log.
Proof.
  intros Hc Hi Hf ->.
  apply (shape_fault_eq w a e (length (script_head (configured_region w) a) + 3 * i)
           (read_line "data/test_sample.csv")); [| |exact Hf|exact Hc].
  - unfold script. rewrite firstn_app_2, firstn_app. f_equal.
    destruct Hc as (_ & Hlen & _). unfold script_loop at 3.
    rewrite (length_traffic _ _ _ Hlen).
    replace (3 * i - 3 * length (a_rows a)) with 0 by lia.
    cbn [firstn]. now rewrite app_nil_r.
  - unfold fault_points. apply elem_of_app. right.
    apply (list_elem_of_fmap_2
             (fun i => (length (script_head (configured_region w) a) + 3 * i,
                        read_line "data/test_sample.csv"))).
    apply elem_of_seq. lia.
Qed.

Ltac answers_with cb chars responses :=
  open_constr:({| a_role := _; a_data := _; a_identity := _; a_account := _;
             a_bucket := cb; a_train_url := _; a_validation_url := _;
             a_image := _; a_now := _; a_chars := chars; a_responses := responses |}).

Ltac stop_with cb :=
  unfold ends_well; cbn;
  lazymatch goal with
  | |- shape _ (Raise _) ?got =>
      let pre := eval cbv [removelast] in (removelast got) in
      let x := eval cbv [List.last] in (List.last got (Entry gmtime (Raise SystemExit))) in
      let c := lazymatch x with Entry ?c _ => c end in
      eapply (shape_stop _ {| a_role := _; a_data := _; a_identity := _;
                              a_account := _; a_bucket := cb;
                              a_train_url := _; a_validation_url := _;
                              a_image := _; a_now := _; a_chars := [];
                              a_responses := [] |});
      cycle 1;
      [ exists pre, c; do 2 eexists;
        split; [cbv [script script_head bucket_lines app];
                script_eq
               |split; [reflexivity|split; [first [reflexivity|cbn; assumption]|reflexivity]]]
      | coherent_answers ]
  end.

(** A stop at a client that could not be created. *)
Ltac fault_stop :=
  unfold ends_well; cbn;
  lazymatch goal with
  | H : fault_of ?w ?i ?op = Some ?e |- shape _ (Raise ?e) ?got =>
      eapply (shape_fault_eq w {| a_role := _; a_data := _; a_identity := _;
                                  a_account := _; a_bucket := bucket_created;
                                  a_train_url := _; a_validation_url := _;
                                  a_image := _; a_now := _; a_chars := [];
                                  a_responses := [] |} e i op got);
      [ unfold script, script_head; cbn [app firstn]; reflexivity
      | unfold fault_points; apply elem_of_app; left;
        repeat first [apply list_elem_of_here | apply list_elem_of_further]
      | exact H
      | coherent_answers ]
  end.

Ltac kred :=
  cbv beta iota zeta delta
    [bind ret raise perform emit get assign attempt format subscript try_except with_open
     for_each file_name file_chars
     boto3_Session sagemaker_Session attr_region_name attr_client
     attr_delete_endpoint Estimator_deploy
     setattr_content_type setattr_serializer setattr_deserializer
     endpoint pred_content_type pred_serializer pred_deserializer
     ns log opened Datatypes.length Datatypes.app
     Ns.sess Ns.set_sess Ns.sm Ns.set_sm Ns.role Ns.set_role
     Ns.local_data_path Ns.set_local_data_path Ns.data Ns.set_data
     Ns.account_id Ns.set_account_id Ns.bucket Ns.set_bucket
     Ns.prefix Ns.set_prefix Ns.s3url Ns.set_s3url
     Ns.docker_image_name Ns.set_docker_image_name
     Ns.s3_input_train Ns.set_s3_input_train
     Ns.s3_input_validation Ns.set_s3_input_validation
     Ns.hyperparams Ns.set_hyperparams Ns.xgb Ns.set_xgb
     Ns.entry_point_script Ns.set_entry_point_script
     Ns.framework_xgb Ns.set_framework_xgb
     Ns.data_capture_prefix Ns.set_data_capture_prefix
     Ns.endpoint_name Ns.set_endpoint_name
     Ns.xgb_predictor Ns.set_xgb_predictor].

Ltac step :=
  match goal with
  | |- context [answer ?w ?i ?c] =>
      let v := fresh "v" in let e := fresh "e" in let H := fresh "Hans" in
      destruct (answer w i c) as [v|e] eqn:H;
      [cbn in v; try (match type of v with unit => destruct v end)|]; kred
  end.

(** A local operation: it fails, or the run goes on. *)
Ltac local_step :=
  match goal with
  | |- context [fault_of ?w ?i ?op] =>
      let e := fresh "e" in let H := fresh "Hfault" in
      destruct (fault_of w i op) as [e|] eqn:H; kred
  end.

Ltac formats := autorewrite with formats; kred.

Lemma run_cells_cons c rest w k :
  run_cells (c :: rest) w k
  = match c w k with
    | (Ok _, k') => run_cells rest w k'
    | (Raise e, k') => (Raise e, k')
    end.
Proof. reflexivity. Qed.

Arguments run_cells : simpl never.

(** Run the body of the next cell as far as it goes without the world. *)
Ltac onward := kred; repeat (progress (autorewrite with formats; kred)).
Ltac cell c := rewrite run_cells_cons; unfold c, channels; onward.

(** A call: either it returns and the run goes on, or the run stops. *)
Ltac call cb := step; [onward|solve [stop_with cb]].

(** The creation of a client: either it fails and the run stops, or the
    run goes on. *)
Ltac client := local_step; [solve [fault_stop]|onward].

Ltac traffic_loop cb :=
  lazymatch goal with
  | |- context [for_rows ?path (PyIO.rows ?chars) send_row ?w ?k] =>
      lazymatch goal with
      | |- context [PyTime.strftime endpoint_time_format ?now] =>
          let Hp := fresh "Hp" in
          assert (Hp : Ns.xgb_predictor (ns k) = Some (csv_predictor (endpoint_name_at now)))
            by reflexivity;
          let responses := fresh "responses" in
          let Hlen := fresh "Hlen" in let Hns := fresh "Hns" in
          let Hop := fresh "Hop" in let Hlog := fresh "Hlog" in
          destruct (for_rows_shape w _ path (PyIO.rows chars) k Hp)
            as (responses & Hlen & Hns & Hop & Hlog);
          clear Hp;
          let e := fresh "e" in let n' := fresh "n'" in
          let l' := fresh "l'" in let o' := fresh "o'" in
          destruct (for_rows path (PyIO.rows chars) send_row w k) as [[[]|e] [n' l' o']];
          cbn in Hns, Hop, Hlog; subst n' o';
          [ subst l'; kred; cell cell_28;
            step;
            [ unfold run_cells, ends_well; cbn;
              let a := answers_with cb chars responses in eapply (shape_done_eq _ a);
              [coherent_answers | script_eq]
            | unfold ends_well; cbn;
              let a := answers_with cb chars responses in eapply (shape_stop_cleanup _ a);
              [coherent_answers | script_eq] ]
          | let got := fresh "got" in let Hstop := fresh "Hstop" in
            let i := fresh "i" in let Hi := fresh "Hi" in let Hread := fresh "Hread" in
            destruct Hlog as [(got & Hstop & Hlog)|(i & Hi & Hread & Hlog)];
              subst l'; kred; unfold ends_well; cbn;
            [ let a := answers_with cb chars responses in eapply (shape_stop_in_loop _ a);
              [coherent_answers | exact Hstop | script_eq]
            | let a := answers_with cb chars responses in
              eapply (shape_fault_in_loop _ a _ i);
              [coherent_answers | exact Hi | exact Hread | script_eq] ] ]
      end
  end.

(** From the first upload to the end, whatever bucket creation did. *)
Ltac after_bucket cb :=
  onward;
  do 2 call cb;
  cell cell_08; call cb;
  cell cell_10;
  cell cell_12;
  cell cell_14; call cb;
  cell cell_17; call cb;
  cell cell_19; call cb;
  cell cell_21; call cb;
  cell cell_22; call cb;
  cell cell_24;
  cell cell_26; call cb;
  traffic_loop cb.

(** Both branches of the [try] block create the S3 client and issue one
    call, with the configuration the region asks for. *)
Lemma create_bucket_run w k r b :
  Ns.sess (ns k) = Some (Boto3Session r) ->
  Ns.bucket (ns k) = Some b ->
  create_bucket w k
  = (attempt (new_client "s3" r) ;;
     perform (s3_create_bucket {| service := "s3"; client_region := r |} b
                (bucket_configuration r))) w k.
Proof.
  intros Hsess Hbucket. destruct k as [n l o]. destruct n. cbn in Hsess, Hbucket.
  subst. unfold create_bucket, bucket_configuration.
  destruct (String.eqb r "us-east-1") eqn:Hregion; cbn; rewrite ?Hregion; cbn;
    destruct (fault_of w (length l) (new_client "s3" r)); reflexivity.
Qed.

Lemma run_all_shape w : ends_well w (run_all w).
Proof.
  unfold run_all, notebook, fresh_kernel, Ns.empty.
  cell cell_01.
  cell cell_02. client. call bucket_created.
  cell cell_04. do 3 call bucket_created.
  cell cell_06. client. call bucket_created.
  match goal with |- context [?d !! "Account"] =>
    destruct (d !! "Account") as [account|] eqn:Haccount; kred
  end.
  2:{ apply (shape_no_account _ {| a_role := v; a_data := v0;
            a_identity := <["Account" := ""]> ∅;
            a_account := ""; a_bucket := bucket_created; a_train_url := "";
            a_validation_url := "";
            a_image := ""; a_now := epoch; a_chars := []; a_responses := [] |} v1);
        [repeat split|exact Haccount]. }
  formats.
  match goal with |- context [create_bucket w ?k] =>
    rewrite (create_bucket_run w k (configured_region w)
               (bucket_name (configured_region w) account) eq_refl eq_refl)
  end.
  kred. local_step.
  - destruct (isinstance_Exception e) eqn:Hexception; kred.
    + after_bucket (client_raised e).
    + fault_stop.
  - step.
    + after_bucket bucket_created.
    + destruct (isinstance_Exception e) eqn:Hexception; kred.
      * after_bucket (creation_raised e).
      * stop_with bucket_created.
  Unshelve.
  all: first [exact "" | exact [] | exact ∅ | exact epoch].
Qed.

(** ** Runs follow a script *)

Lemma run_follows w : exists a, follows a w.
Proof.
  pose proof (run_all_shape w) as H.
  change (shape w (result w) (transcript w)) in H.
  inversion H as [a Hc Hr Ht | a e got Hc Hstop Hr Ht | a identity Hc Hid Hr Ht
                 | a e i op Hc Hin Hf Hr Ht].
  - exists a. split; [assumption|]. left. split; congruence.
  - destruct Hstop as (pre & c & o & post & Hscript & Hout & Hsw & Hgot).
    exists a. split; [assumption|]. right. left.
    exists pre, (Entry c (Raise e)), (Entry c o), post, e.
    repeat split; auto; congruence.
  - exists a. split; [assumption|]. right. left.
    exists (firstn 5 (script (configured_region w) a)),
      (Entry (sts_call (configured_region w)) (Ok identity)),
      (Entry (sts_call (configured_region w)) (Ok (a_identity a))),
      (skipn 6 (script (configured_region w) a)),
      (KeyError "Account").
    split; [symmetry; exact Hr|]. split; [symmetry; exact Ht|].
    split; [reflexivity|]. split; [reflexivity|]. right. auto.
  - exists a. split; [assumption|]. right. right.
    exists e, i, op. split; [symmetry; exact Hr|]. split; [exact Hin|].
    split; [exact Hf|]. symmetry; exact Ht.
Qed.

Lemma follows_done a w :
  follows a w -> result w = Ok tt -> transcript w = script (configured_region w) a.
Proof.
  intros [_ [[_ Ht]|[(pre & x & y & post & e & Hr & _)|(e & i & op & Hr & _)]]] Hok;
    [assumption|congruence|congruence].
Qed.

Lemma firstn_prefix {A} n (l : list A) : firstn n l `prefix_of` l.
Proof. exists (skipn n l). symmetry. apply firstn_skipn. Qed.

Lemma follows_calls a w :
  follows a w -> calls (transcript w) `prefix_of` calls (script (configured_region w) a).
Proof.
  intros [_ [[_ ->]|[(pre & x & y & post & e & _ & -> & -> & Hev & _)
                    |(e & i & op & _ & _ & _ & ->)]]]; [reflexivity| |].
  - unfold calls. rewrite !map_app. cbn. rewrite Hev.
    apply prefix_app. now exists (map ev post).
  - unfold calls. rewrite <- firstn_map. apply firstn_prefix.
Qed.

Lemma omap_prefix {A B} (f : A -> option B) (l1 l2 : list A) :
  l1 `prefix_of` l2 -> omap f l1 `prefix_of` omap f l2.
Proof. intros [k ->]. rewrite omap_app. now exists (omap f k). Qed.

(** What a run shows of its calls is the beginning of what the script
    shows. *)
Lemma follows_seen {B} (g : call -> option B) a w :
  follows a w ->
  omap g (calls (transcript w)) `prefix_of` omap g (calls (script (configured_region w) a)).
Proof. intros H. apply omap_prefix, follows_calls, H. Qed.

Lemma follows_stable {B} (f : entry -> option B) a w :
  follows a w -> stable f ->
  omap f (transcript w) `prefix_of` omap f (script (configured_region w) a).
Proof.
  intros [_ [[_ ->]|[(pre & x & y & post & e & _ & -> & -> & Hev & Hx)
                    |(e & i & op & _ & _ & _ & ->)]]] [Hraise Hsts];
    [reflexivity| |apply omap_prefix, firstn_prefix].
  rewrite !omap_app. apply prefix_app.
  destruct x as [c ox], y as [c' oy]. cbn in Hev. subst c'.
  assert (f (Entry c ox) = None \/ f (Entry c ox) = f (Entry c oy)) as [Hf|Hf].
  { destruct Hx as [(Hr & _)|(Hr & Hc & _)].
    - unfold raised in Hr. cbn in Hr. destruct ox as [v|e']; [discriminate|].
      apply Hraise.
    - cbn in Hc. subst c. right. apply Hsts. }
  - cbn. rewrite Hf. apply prefix_nil.
  - cbn. rewrite Hf. destruct (f (Entry c oy)); [|apply prefix_nil].
    apply prefix_cons, prefix_nil.
Qed.

(** ** What the script shows *)

Lemma calls_app (l1 l2 : list entry) : calls (l1 ++ l2) = calls l1 ++ calls l2.
Proof. apply map_app. Qed.

(** The loop shows, per row, what the request and the pause show. *)
Lemma seen_traffic {B} (g : call -> option B) p rows : forall responses,
  length responses = length rows ->
  (forall s, g (print s) = None) ->
  omap g (calls (traffic p rows responses))
  = flat_map (fun row => option_list (g (predict p (PyStr.rstrip row PyStr.newline)))
                         ++ option_list (g (time_sleep half_second))) rows.
Proof.
  induction rows as [|row rows IH]; intros [|response responses] Hlen Hprint;
    try discriminate; [reflexivity|].
  cbn [traffic flat_map]. injection Hlen as Hlen.
  rewrite <- (IH responses Hlen Hprint).
  change (calls (?a :: ?b :: ?c :: ?l)) with (ev a :: ev b :: ev c :: calls l).
  cbn [ev omap list_omap]. rewrite Hprint.
  destruct (g (predict _ _)), (g (time_sleep _)); reflexivity.
Qed.

(** The loop has no line of the kinds [f] picks when [f] ignores requests,
    prints and pauses. *)
Lemma unseen_traffic {B} (f : entry -> option B) p rows : forall responses,
  (forall d o, f (Entry (predict p d) o) = None) ->
  (forall s o, f (Entry (print s) o) = None) ->
  (forall q o, f (Entry (time_sleep q) o) = None) ->
  omap f (traffic p rows responses) = [].
Proof.
  induction rows as [|row rows IH]; intros [|response responses] H1 H2 H3;
    try reflexivity.
  cbn [traffic omap list_omap]. rewrite H1, H2, H3. now apply IH.
Qed.

Lemma flat_map_single {A B} (f : A -> B) (l : list A) :
  flat_map (fun x => [f x]) l = map f l.
Proof. induction l; cbn; congruence. Qed.

Lemma flat_map_const {A B} (y : B) (l : list A) :
  flat_map (fun _ => [y]) l = repeat y (length l).
Proof. induction l; cbn; congruence. Qed.

Lemma flat_map_none {A B} (l : list A) :
  flat_map (fun _ => @nil B) l = [].
Proof. induction l; cbn; congruence. Qed.

Ltac script_view :=
  unfold script, script_head, script_loop, script_cleanup, bucket_lines;
  repeat rewrite ?calls_app, ?omap_app.

Lemma steps_script region a :
  coherent a ->
  steps (script region a)
  = [StepInspect; StepUpload; StepUpload; StepTrain Estimator; StepTrain XGBoost;
     StepDeploy] ++ repeat StepRequest (length (a_rows a)) ++ [StepTeardown].
Proof.
  intros (_ & Hlen & _). unfold steps. script_view.
  rewrite (seen_traffic step_of) by (assumption || reflexivity).
  destruct (a_bucket a); cbn; now rewrite flat_map_const.
Qed.

Lemma payloads_script region a :
  coherent a ->
  payloads (script region a)
  = map (fun row => PyStr.rstrip row PyStr.newline) (a_rows a).
Proof.
  intros (_ & Hlen & _). unfold payloads. script_view.
  rewrite (seen_traffic payload_of) by (assumption || reflexivity).
  destruct (a_bucket a); cbn; now rewrite app_nil_r, flat_map_single.
Qed.

Lemma rhythm_script region a :
  coherent a ->
  rhythm (script region a)
  = flat_map (fun _ => [Request; Pause half_second]) (a_rows a).
Proof.
  intros (_ & Hlen & _). unfold rhythm. script_view.
  rewrite (seen_traffic beat_of) by (assumption || reflexivity).
  destruct (a_bucket a); cbn; now rewrite app_nil_r.
Qed.

Lemma uploads_script region a :
  coherent a ->
  uploads (script region a)
  = [ ("data/train.csv", s3_uri (bucket_name region (a_account a)) churn_prefix "train");
      ("data/validation.csv",
       s3_uri (bucket_name region (a_account a)) churn_prefix "validation") ].
Proof.
  intros (_ & Hlen & _). unfold uploads. script_view.
  rewrite (seen_traffic upload_of) by (assumption || reflexivity).
  destruct (a_bucket a); cbn; now rewrite flat_map_none.
Qed.

Lemma estimator_calls_script region a :
  coherent a ->
  let b := bucket_name region (a_account a) in
  estimator_calls (script region a)
  = [ Fitted (algorithm_estimator region (a_role a) (a_image a) b);
      Fitted (framework_estimator region (a_role a) (a_image a) b);
      Deployed (algorithm_estimator region (a_role a) (a_image a) b) ].
Proof.
  intros (_ & Hlen & _). unfold estimator_calls. script_view.
  rewrite (seen_traffic estimator_call_of) by (assumption || reflexivity).
  destruct (a_bucket a); cbn; now rewrite flat_map_none.
Qed.

Lemma data_flow_script region a :
  coherent a ->
  let b := bucket_name region (a_account a) in
  data_flow (script region a)
  = [ Uploaded "data/train.csv" (s3_uri b churn_prefix "train");
      Uploaded "data/validation.csv" (s3_uri b churn_prefix "validation");
      Submitted (algorithm_estimator region (a_role a) (a_image a) b) (fit_inputs b);
      Submitted (framework_estimator region (a_role a) (a_image a) b) (fit_inputs b) ].
Proof.
  intros (_ & Hlen & _). unfold data_flow. script_view.
  rewrite (seen_traffic data_event_of) by (assumption || reflexivity).
  destruct (a_bucket a); cbn; now rewrite flat_map_none.
Qed.

Lemma endpoint_events_traffic p rows : forall responses,
  length responses = length rows ->
  endpoint_events (traffic p rows responses) = repeat (Invoked (endpoint p)) (length rows).
Proof.
  induction rows as [|row rows IH]; intros [|response responses] Hlen;
    try discriminate; [reflexivity|].
  cbn. f_equal. apply IH. now injection Hlen.
Qed.

Lemma endpoint_events_script region a :
  coherent a ->
  let b := bucket_name region (a_account a) in
  let name := endpoint_name_at (a_now a) in
  endpoint_events (script region a)
  = Stamped (a_now a)
    :: Created (algorithm_estimator region (a_role a) (a_image a) b) name
    :: repeat (Invoked name) (length (a_rows a)) ++ [Deleted name].
Proof.
  intros (_ & Hlen & _). unfold endpoint_events. script_view.
  rewrite (endpoint_events_traffic _ _ _ Hlen).
  destruct (a_bucket a); reflexivity.
Qed.

Lemma supplies_script region a :
  supplies (script region a)
  = Identity (a_identity a)
    :: match a_bucket a with
       | client_raised _ => []
       | _ => [ BucketRequest {| service := "s3"; client_region := region |}
                  (bucket_name region (a_account a)) (bucket_configuration region) ]
       end.
Proof.
  unfold supplies. script_view.
  rewrite unseen_traffic by reflexivity.
  destruct (a_bucket a); reflexivity.
Qed.

Lemma endpoint_events_stable : stable endpoint_event_of.
Proof.
  split.
  - intros c o e. destruct c; cbn; auto.
  - reflexivity.
Qed.

(** ** Strings of the notebook *)

Lemma s3_uri_leaf_inj b p leaf1 leaf2 :
  s3_uri b p leaf1 = s3_uri b p leaf2 -> leaf1 = leaf2.
Proof.
  unfold s3_uri. intros H.
  repeat apply String.app_inj in H. exact H.
Qed.

Lemma append_assoc (s1 s2 s3 : string) : (s1 +:+ s2) +:+ s3 = s1 +:+ (s2 +:+ s3).
Proof.
  induction s1 as [|c s1 IH]; [reflexivity|].
  change (String c ((s1 +:+ s2) +:+ s3) = String c (s1 +:+ (s2 +:+ s3))).
  now rewrite IH.
Qed.

Lemma s3_uri_slash b p leaf :
  s3_uri b p (leaf +:+ "/") = s3_uri b p leaf +:+ "/".
Proof. unfold s3_uri. now rewrite !append_assoc. Qed.

(** C7: exactly two files are uploaded, both CSV, the train split and the
    validation split, to two distinct paths under the same bucket and
    prefix; there is no other upload.  In any run the uploads are a
    beginning of these two, and in a run that completes they are exactly
    these two, in this order. *)
Theorem two_csv_uploads w :
  exists account,
    let b := "sagemaker-" +:+ configured_region w +:+ "-" +:+ account in
    let train := "s3://" +:+ b +:+ "/xgboost-churn/train" in
    let validation := "s3://" +:+ b +:+ "/xgboost-churn/validation" in
    uploads (transcript w)
      `prefix_of` [("data/train.csv", train); ("data/validation.csv", validation)]
    /\ (result w = Ok tt ->
        uploads (transcript w)
        = [("data/train.csv", train); ("data/validation.csv", validation)])
    /\ train <> validation
    /\ PyStr.endswith "data/train.csv" ".csv" = true
    /\ PyStr.endswith "data/validation.csv" ".csv" = true.
Proof.
  destruct (run_follows w) as [a Ha]. exists (a_account a).
  pose proof (proj1 Ha) as Hc.
  pose proof (uploads_script (configured_region w) a Hc) as Hscript.
  split; [|split; [|split; [|split; reflexivity]]].
  - pose proof (follows_seen upload_of a w Ha) as Hpre.
    fold (uploads (transcript w)) (uploads (script (configured_region w) a)) in Hpre.
    rewrite Hscript in Hpre. exact Hpre.
  - intros Hok. rewrite (follows_done a w Ha Hok). exact Hscript.
  - intros H. apply (s3_uri_leaf_inj _ churn_prefix "train" "validation") in H.
    discriminate H.
Qed.

Lemma two_csv_uploads_witness :
  exists account,
    uploads (transcript sample_world)
    = [("data/train.csv",
        "s3://" +:+ ("sagemaker-" +:+ "eu-west-1" +:+ "-" +:+ account) +:+ "/xgboost-churn/train");
       ("data/validation.csv",
        "s3://" +:+ ("sagemaker-" +:+ "eu-west-1" +:+ "-" +:+ account)
        +:+ "/xgboost-churn/validation")].
Proof.
  destruct (two_csv_uploads sample_world) as (account & _ & Hdone & _).
  exists account. apply Hdone. vm_compute. reflexivity.
Defined.

(** ** Requests and pauses alternate *)

Lemma alternation_between (rows : list string) :
  forall (before mid after : list beat),
    flat_map (fun _ => [Request; Pause half_second]) rows
    = before ++ Request :: mid ++ Request :: after ->
    Request ∉ mid -> mid = [Pause half_second].
Proof.
  induction rows as [|row rows IH]; intros before mid after Heq Hmid.
  - destruct before; discriminate Heq.
  - cbn [flat_map app] in Heq. destruct before as [|x [|y before]].
    + injection Heq as Heq. destruct mid as [|m mid]; [discriminate Heq|].
      injection Heq as <- Heq. destruct rows as [|row' rows].
      * destruct mid; discriminate Heq.
      * cbn [flat_map app] in Heq. destruct mid as [|m mid]; [reflexivity|].
        injection Heq as <- _. exfalso. apply Hmid. set_solver.
    + discriminate Heq.
    + injection Heq as _ _ Heq. now apply (IH before mid after).
Qed.

Lemma alternation_pause (rows : list string) q :
  Pause q ∈ flat_map (fun _ => [Request; Pause half_second]) rows -> q = half_second.
Proof.
  induction rows as [|row rows IH]; cbn [flat_map app].
  - intros H. inversion H.
  - rewrite !elem_of_cons. intros [H|[H|H]]; [discriminate|congruence|auto].
Qed.

(** C5: between any two successive inference requests the program sleeps
    once, for 0.5 seconds, the same constant every time; the program has
    no other pause. *)
Theorem fixed_pause_between_requests w (before mid after : list beat) :
  rhythm (transcript w) = before ++ Request :: mid ++ Request :: after ->
  Request ∉ mid ->
  mid = [Pause (QArith_base.Qmake 1 2)]
  /\ (forall q, Pause q ∈ rhythm (transcript w) -> q = QArith_base.Qmake 1 2).
Proof.
  intros Heq Hmid. destruct (run_follows w) as [a Ha].
  pose proof (follows_seen beat_of a w Ha) as [k Hk].
  fold (rhythm (transcript w)) (rhythm (script (configured_region w) a)) in Hk.
  rewrite (rhythm_script _ a (proj1 Ha)) in Hk. split.
  - apply (alternation_between (a_rows a) before mid (after ++ k)); [|assumption].
    rewrite Hk, Heq, <- !app_assoc. cbn. now rewrite <- !app_assoc.
  - intros q Hq. apply (alternation_pause (a_rows a)). rewrite Hk. set_solver.
Qed.

Lemma fixed_pause_between_requests_witness :
  [Pause half_second] = [Pause (QArith_base.Qmake 1 2)]
  /\ (forall q, Pause q ∈ rhythm (transcript sample_world) -> q = QArith_base.Qmake 1 2).
Proof.
  apply (fixed_pause_between_requests sample_world []
           [Pause half_second]
           [Pause half_second; Request; Pause half_second]).
  - vm_compute. reflexivity.
  - rewrite list_elem_of_singleton. discriminate.
Defined.

(** ** Estimators *)

Lemma elem_of_calls c (l : list entry) : c ∈ calls l -> exists x, x ∈ l /\ ev x = c.
Proof. unfold calls. rewrite list_elem_of_fmap. intros (x & -> & Hx). eauto. Qed.

Lemma elem_of_repeat_eq {A} (x y : A) n : x ∈ repeat y n -> x = y.
Proof.
  induction n as [|n IH]; cbn; [intros H; inversion H|].
  rewrite elem_of_cons. intros [H|H]; auto.
Qed.

(** C4: two models are trained, but only the estimator of the built-in
    algorithm is ever deployed and queried; the framework-mode estimator
    appears in its own [fit] call and nowhere else. *)
Theorem only_algorithm_model_is_deployed w :
  exists alg fw,
    est_class alg = Estimator /\ est_class fw = XGBoost
    /\ estimator_calls (transcript w) `prefix_of` [Fitted alg; Fitted fw; Deployed alg]
    /\ (result w = Ok tt ->
        estimator_calls (transcript w) = [Fitted alg; Fitted fw; Deployed alg])
    /\ (forall name, Invoked name ∈ endpoint_events (transcript w) ->
        Created alg name ∈ endpoint_events (transcript w)).
Proof.
  destruct (run_follows w) as [a Ha]. pose proof (proj1 Ha) as Hc.
  set (b := bucket_name (configured_region w) (a_account a)).
  exists (algorithm_estimator (configured_region w) (a_role a) (a_image a) b),
         (framework_estimator (configured_region w) (a_role a) (a_image a) b).
  split; [reflexivity|]. split; [reflexivity|].
  pose proof (estimator_calls_script (configured_region w) a Hc) as Hscript.
  cbv zeta in Hscript. fold b in Hscript. split; [|split].
  - rewrite <- Hscript. apply follows_seen, Ha.
  - intros Hok. now rewrite (follows_done a w Ha Hok).
  - intros name Hname.
    pose proof (follows_stable endpoint_event_of a w Ha endpoint_events_stable) as [k Hk].
    fold (endpoint_events (transcript w)) in Hk, Hname |- *.
    fold (endpoint_events (script (configured_region w) a)) in Hk.
    rewrite (endpoint_events_script _ a Hc) in Hk. cbv zeta in Hk. fold b in Hk.
    destruct (endpoint_events (transcript w)) as [|x [|y l]].
    + inversion Hname.
    + injection Hk as <- _. apply list_elem_of_singleton in Hname. discriminate Hname.
    + injection Hk as <- <- Hk.
      apply elem_of_cons in Hname as [Hname|Hname]; [discriminate|].
      apply elem_of_cons in Hname as [Hname|Hname]; [discriminate|].
      assert (Invoked name ∈ l ++ k) as Hin by set_solver.
      rewrite <- Hk in Hin. apply elem_of_app in Hin as [Hin|Hin].
      * apply elem_of_repeat_eq in Hin. injection Hin as ->. set_solver.
      * apply list_elem_of_singleton in Hin. discriminate Hin.
Qed.

Lemma only_algorithm_model_is_deployed_witness :
  exists alg fw,
    est_class alg = Estimator /\ est_class fw = XGBoost
    /\ estimator_calls (transcript sample_world) = [Fitted alg; Fitted fw; Deployed alg].
Proof.
  destruct (only_algorithm_model_is_deployed sample_world)
    as (alg & fw & Halg & Hfw & _ & Hdone & _).
  exists alg, fw. split; [exact Halg|]. split; [exact Hfw|].
  apply Hdone. vm_compute. reflexivity.
Defined.

(** ** Training data *)

Lemma fit_inputs_dom b : dom (fit_inputs b) = {["train"; "validation"]}.
Proof.
  unfold fit_inputs. rewrite !dom_insert_L, dom_empty_L. set_solver.
Qed.

Lemma elem_of_data_flow_upload f d (l : list entry) :
  Uploaded f d ∈ data_flow l -> S3Uploader_upload f d ∈ calls l.
Proof.
  unfold data_flow. rewrite list_elem_of_omap. intros (c & Hc & Hd).
  destruct c; try discriminate Hd. now injection Hd as -> ->.
Qed.

(** Membership in a short explicit list, by cases. *)
Ltac which_one H :=
  repeat (apply elem_of_cons in H as [H|H]; [try discriminate H|]);
  try (apply elem_of_nil in H; contradiction).

Ltac is_there :=
  repeat first [apply list_elem_of_here | apply list_elem_of_further].



(** ** The endpoint *)

Lemma strftime_endpoint_format now :
  PyTime.strftime "%Y-%m-%d-%H-%M-%S" now
  = PyTime.zpad 4 (PyTime.tm_year now) +:+ "-" +:+ PyTime.zpad 2 (PyTime.tm_mon now)
    +:+ "-" +:+ PyTime.zpad 2 (PyTime.tm_mday now) +:+ "-"
    +:+ PyTime.zpad 2 (PyTime.tm_hour now) +:+ "-" +:+ PyTime.zpad 2 (PyTime.tm_min now)
    +:+ "-" +:+ PyTime.zpad 2 (PyTime.tm_sec now).
Proof.
  cbv [PyTime.strftime PyTime.directive Ascii.eqb Bool.eqb].
  rewrite append_empty_r. reflexivity.
Qed.

(** C8: the endpoint name is the fixed prefix followed by the UTC time the
    clock returned, formatted year-month-day-hour-minute-second; the
    endpoint is created under this name, and the same name is used for
    every request and for the deletion. *)
Theorem endpoint_name_is_time_stamped w :
  exists now n by_estimator,
    let name := "demo-xgboost-customer-churn-"
                +:+ PyTime.strftime "%Y-%m-%d-%H-%M-%S" now in
    let full := Stamped now :: Created by_estimator name
                :: repeat (Invoked name) n ++ [Deleted name] in
    endpoint_events (transcript w) `prefix_of` full
    /\ (result w = Ok tt -> endpoint_events (transcript w) = full)
    /\ PyTime.strftime "%Y-%m-%d-%H-%M-%S" now
       = PyTime.zpad 4 (PyTime.tm_year now) +:+ "-" +:+ PyTime.zpad 2 (PyTime.tm_mon now)
         +:+ "-" +:+ PyTime.zpad 2 (PyTime.tm_mday now) +:+ "-"
         +:+ PyTime.zpad 2 (PyTime.tm_hour now) +:+ "-"
         +:+ PyTime.zpad 2 (PyTime.tm_min now) +:+ "-"
         +:+ PyTime.zpad 2 (PyTime.tm_sec now).
Proof.
  destruct (run_follows w) as [a Ha]. pose proof (proj1 Ha) as Hc.
  exists (a_now a), (length (a_rows a)),
    (algorithm_estimator (configured_region w) (a_role a) (a_image a)
       (bucket_name (configured_region w) (a_account a))).
  pose proof (endpoint_events_script (configured_region w) a Hc) as Hscript.
  cbv zeta in Hscript |- *. split; [|split].
  - pose proof (follows_stable endpoint_event_of a w Ha endpoint_events_stable) as Hpre.
    fold (endpoint_events (transcript w)) in Hpre.
    fold (endpoint_events (script (configured_region w) a)) in Hpre.
    rewrite Hscript in Hpre. exact Hpre.
  - intros Hok. rewrite (follows_done a w Ha Hok). exact Hscript.
  - apply strftime_endpoint_format.
Qed.

Lemma endpoint_name_is_time_stamped_witness :
  exists now n by_estimator,
    let name := "demo-xgboost-customer-churn-"
                +:+ PyTime.strftime "%Y-%m-%d-%H-%M-%S" now in
    endpoint_events (transcript sample_world)
    = Stamped now :: Created by_estimator name :: repeat (Invoked name) n ++ [Deleted name].
Proof.
  destruct (endpoint_name_is_time_stamped sample_world) as (now & n & e & _ & Hdone & _).
  exists now, n, e. apply Hdone. vm_compute. reflexivity.
Defined.

Lemma endpoint_events_app (l1 l2 : list entry) :
  endpoint_events (l1 ++ l2) = endpoint_events l1 ++ endpoint_events l2.
Proof. apply omap_app. Qed.

(** The only deletion in the events of a script is the last of them. *)
Lemma deletion_is_last (now : PyTime.struct_time) e name n
    (before after : list endpoint_event) d :
  Stamped now :: Created e name :: repeat (Invoked name) n ++ [Deleted name]
  = before ++ Deleted d :: after ->
  after = [] /\ d = name
  /\ before = Stamped now :: Created e name :: repeat (Invoked name) n.
Proof.
  intros Heq.
  destruct before as [|x1 [|x2 before]]; try discriminate Heq.
  injection Heq as <- <- Heq.
  revert before Heq. induction n as [|n IH]; intros before Heq; cbn in Heq.
  - destruct before as [|x before].
    + injection Heq as <- <-. auto.
    + injection Heq as _ Heq. destruct before; discriminate Heq.
  - destruct before as [|x before]; [discriminate Heq|].
    injection Heq as <- Heq. destruct (IH before Heq) as (-> & -> & Hb).
    injection Hb as ->. auto.
Qed.

(** C9: the teardown deletes, by name, the endpoint the program created
    and nothing else, and it is the last thing the program does: the
    deletion is the last line of the transcript of a run that completes,
    and in any run a deletion has no endpoint event after it and names the
    endpoint that the deployment before it created. *)
Theorem teardown_deletes_created_endpoint w :
  (result w = Ok tt ->
   exists (pre : list entry) s name now by_estimator n,
     transcript w = pre ++ [Entry (delete_endpoint s name) (Ok tt)]
     /\ endpoint_events pre
        = Stamped now :: Created by_estimator name :: repeat (Invoked name) n)
  /\ (forall (before after : list endpoint_event) d,
        endpoint_events (transcript w) = before ++ Deleted d :: after ->
        after = [] /\ exists by_estimator, Created by_estimator d ∈ before).
Proof.
  destruct (run_follows w) as [a Ha]. pose proof (proj1 Ha) as Hc.
  pose proof (endpoint_events_script (configured_region w) a Hc) as Hscript.
  cbv zeta in Hscript. split.
  - intros Hok.
    exists (script_head (configured_region w) a ++ script_loop a),
      (SageMakerSession (configured_region w)), (endpoint_name_at (a_now a)), (a_now a),
      (algorithm_estimator (configured_region w) (a_role a) (a_image a)
         (bucket_name (configured_region w) (a_account a))),
      (length (a_rows a)).
    split.
    + rewrite (follows_done a w Ha Hok). unfold script. now rewrite app_assoc.
    + unfold script in Hscript. rewrite app_assoc, endpoint_events_app in Hscript.
      change (endpoint_events (script_cleanup (configured_region w) a))
        with [Deleted (endpoint_name_at (a_now a))] in Hscript.
      rewrite app_comm_cons, (app_comm_cons _ _ (Stamped _)) in Hscript.
      now apply app_inj_tail in Hscript as [Hscript _].
  - intros before after d Heq.
    pose proof (follows_stable endpoint_event_of a w Ha endpoint_events_stable) as [k Hk].
    fold (endpoint_events (transcript w)) in Hk.
    fold (endpoint_events (script (configured_region w) a)) in Hk.
    rewrite Hscript, Heq, <- app_assoc in Hk. cbn in Hk.
    apply deletion_is_last in Hk as (Hnil & -> & ->).
    apply app_eq_nil in Hnil as [-> _]. split; [reflexivity|].
    eexists. apply elem_of_cons. right. apply elem_of_cons. left. reflexivity.
Qed.

Lemma teardown_deletes_created_endpoint_witness :
  exists (pre : list entry) s name now by_estimator n,
    transcript sample_world = pre ++ [Entry (delete_endpoint s name) (Ok tt)]
    /\ endpoint_events pre
       = Stamped now :: Created by_estimator name :: repeat (Invoked name) n.
Proof.
  apply (proj1 (teardown_deletes_created_endpoint sample_world)).
  vm_compute. reflexivity.
Defined.

(** ** The bucket *)

Lemma bucket_configuration_cases region :
  (region = "us-east-1" -> bucket_configuration region = None)
  /\ (region <> "us-east-1" ->
      bucket_configuration region = Some (<["LocationConstraint" := region]> ∅)).
Proof.
  unfold bucket_configuration. split; intros H.
  - now rewrite H.
  - apply String.eqb_neq in H. now rewrite H.
Qed.

Lemma supplies_app (l1 l2 : list entry) : supplies (l1 ++ l2) = supplies l1 ++ supplies l2.
Proof. apply omap_app. Qed.

(** What a run shows of its supplies is the beginning of what its script
    shows, or the one identity that has no account. *)
Lemma supplies_seen a w :
  follows a w ->
  supplies (transcript w) `prefix_of` supplies (script (configured_region w) a)
  \/ exists identity, supplies (transcript w) = [Identity identity].
Proof.
  intros [Hc [[_ ->]|[(pre & x & y & post & e & _ & -> & Hs & Hev & Hx)
                     |(e & i & op & _ & _ & _ & ->)]]].
  - now left.
  - destruct x as [c ox], y as [c' oy]. cbn in Hev. subst c'.
    destruct Hx as [(Hr & _)|(Hr & Hcall & _ & Hlen)].
    + left. unfold raised in Hr. cbn in Hr. destruct ox as [v|e']; [discriminate|].
      rewrite Hs.
      change (pre ++ Entry c oy :: post) with (pre ++ [Entry c oy] ++ post).
      rewrite !supplies_app. apply prefix_app.
      assert (supplies [Entry c (Raise e')] = []
              \/ supplies [Entry c (Raise e')] = supplies [Entry c oy]) as [Hx|Hx]
        by (destruct c; cbn; auto); rewrite Hx.
      * apply prefix_nil.
      * now apply prefix_app_r.
    + right. cbn in Hcall. subst c.
      unfold raised in Hr. cbn in Hr. destruct ox as [identity|]; [|discriminate].
      exists identity.
      destruct pre as [|x1 [|x2 [|x3 [|x4 [|x5 [|x6 pre]]]]]]; try discriminate Hlen.
      unfold script, script_head in Hs. cbn [app] in Hs.
      injection Hs as <- <- <- <- <- _. reflexivity.
  - left. apply omap_prefix, firstn_prefix.
Qed.

(** A run that asked for a bucket got an identity first; its supplies are
    those of the script. *)
Lemma supplies_with_bucket a w cl b cfg :
  follows a w ->
  BucketRequest cl b cfg ∈ supplies (transcript w) ->
  supplies (transcript w)
  = [ Identity (a_identity a);
      BucketRequest {| service := "s3"; client_region := configured_region w |}
        (bucket_name (configured_region w) (a_account a))
        (bucket_configuration (configured_region w)) ].
Proof.
  intros Ha Hin. destruct (supplies_seen a w Ha) as [[k Hk]|[identity Hid]].
  - rewrite supplies_script in Hk.
    destruct (supplies (transcript w)) as [|s1 [|s2 l]].
    + inversion Hin.
    + injection Hk as <- _. apply list_elem_of_singleton in Hin. discriminate.
    + destruct (a_bucket a);
        [injection Hk as <- <- Hk|injection Hk as <- <- Hk
        |injection Hk as <- Hk; discriminate Hk];
        symmetry in Hk; apply app_eq_nil in Hk as [-> _]; reflexivity.
  - rewrite Hid in Hin. apply list_elem_of_singleton in Hin. discriminate.
Qed.

(** C10: bucket creation depends on the session's region: in "us-east-1"
    the bucket is created without a location constraint, in any other
    region with a LocationConstraint equal to the region; either way the
    bucket is 'sagemaker-<region>-<account id>', the account being the one
    the identity request returned. *)
Theorem bucket_creation_by_region w cl b cfg :
  s3_create_bucket cl b cfg ∈ calls (transcript w) ->
  exists identity account,
    supplies (transcript w) = [Identity identity; BucketRequest cl b cfg]
    /\ identity !! "Account" = Some account
    /\ b = "sagemaker-" +:+ configured_region w +:+ "-" +:+ account
    /\ (configured_region w = "us-east-1" -> cfg = None)
    /\ (configured_region w <> "us-east-1" ->
        cfg = Some (<["LocationConstraint" := configured_region w]> ∅)).
Proof.
  intros Hcall. destruct (run_follows w) as [a Ha].
  assert (BucketRequest cl b cfg ∈ supplies (transcript w)) as Hin.
  { apply elem_of_calls in Hcall as ([c o] & Hx & Hev). cbn in Hev. subst c.
    unfold supplies. apply list_elem_of_omap. eauto. }
  pose proof (supplies_with_bucket a w cl b cfg Ha Hin) as Heq.
  rewrite Heq in Hin.
  apply elem_of_cons in Hin as [Hin|Hin]; [discriminate|].
  apply list_elem_of_singleton in Hin. injection Hin as -> -> ->.
  exists (a_identity a), (a_account a).
  split; [exact Heq|]. split; [apply Ha|]. split; [reflexivity|].
  apply bucket_configuration_cases.
Qed.

Lemma bucket_creation_by_region_witness :
  (exists identity account,
     supplies (transcript sample_world)
     = [Identity identity;
        BucketRequest {| service := "s3"; client_region := "eu-west-1" |}
          "sagemaker-eu-west-1-123456789012"
          (Some (<["LocationConstraint" := "eu-west-1"]> ∅))]
     /\ identity !! "Account" = Some account
     /\ "sagemaker-eu-west-1-123456789012" = "sagemaker-" +:+ "eu-west-1" +:+ "-" +:+ account)
  /\ (exists identity account,
        supplies (transcript virginia_world)
        = [Identity identity;
           BucketRequest {| service := "s3"; client_region := "us-east-1" |}
             "sagemaker-us-east-1-123456789012" None]
        /\ identity !! "Account" = Some account
        /\ "sagemaker-us-east-1-123456789012"
           = "sagemaker-" +:+ "us-east-1" +:+ "-" +:+ account).
Proof.
  split.
  - destruct (bucket_creation_by_region sample_world
                {| service := "s3"; client_region := "eu-west-1" |}
                "sagemaker-eu-west-1-123456789012"
                (Some (<["LocationConstraint" := "eu-west-1"]> ∅)))
      as (identity & account & Hs & Ha & Hb & _).
    + apply (list_elem_of_lookup_2 _ 6). vm_compute. reflexivity.
    + exists identity, account. split; [exact Hs|]. split; [exact Ha|exact Hb].
  - destruct (bucket_creation_by_region virginia_world
                {| service := "s3"; client_region := "us-east-1" |}
                "sagemaker-us-east-1-123456789012" None)
      as (identity & account & Hs & Ha & Hb & _).
    + apply (list_elem_of_lookup_2 _ 6). vm_compute. reflexivity.
    + exists identity, account. split; [exact Hs|]. split; [exact Ha|exact Hb].
Defined.

(** ** The request loop *)

(** [rstrip] with the newline: what is dropped is a run of newlines, and
    what is kept does not end with one. *)
Lemma rstrip_cons c rest chars :
  PyStr.rstrip (String c rest) chars
  = match PyStr.rstrip rest chars with
    | "" => if PyStr.mem c chars then "" else String c ""
    | String d kept => String c (String d kept)
    end.
Proof. reflexivity. Qed.

Lemma rstrip_newline row :
  exists k,
    row = PyStr.rstrip row PyStr.newline +:+ PyStr.times PyStr.nl k
    /\ PyStr.last_char (PyStr.rstrip row PyStr.newline) <> Some PyStr.nl.
Proof.
  induction row as [|c rest (k & Hrest & Hlast)].
  - exists 0. split; [reflexivity|discriminate].
  - rewrite rstrip_cons.
    destruct (PyStr.rstrip rest PyStr.newline) as [|d kept] eqn:Hkept.
    + change (String.append "" ?t) with t in Hrest.
      change (PyStr.mem c PyStr.newline) with (if Ascii.eqb c PyStr.nl then true else false).
      destruct (Ascii.eqb c PyStr.nl) eqn:Hc.
      * apply Ascii.eqb_eq in Hc as ->. exists (S k). split; [|discriminate].
        change (String PyStr.nl rest = String PyStr.nl (PyStr.times PyStr.nl k)).
        congruence.
      * exists k. split.
        -- change (String c rest = String c (PyStr.times PyStr.nl k)). congruence.
        -- cbn. intros [= ->]. now rewrite Ascii.eqb_refl in Hc.
    + exists k. split.
      * change (String c rest = String c (String d kept +:+ PyStr.times PyStr.nl k)).
        now rewrite <- Hrest.
      * exact Hlast.
Qed.

Lemma script_head_opens region a :
  exists pre,
    script_head region a
    = pre ++ [Entry (open_ "data/test_sample.csv" "r") (Ok (a_chars a))]
    /\ payloads pre = []
    /\ Entry (deploy (algorithm_estimator region (a_role a) (a_image a)
                        (bucket_name region (a_account a)))
                1 "ml.m5.large" (endpoint_name_at (a_now a))) (Ok tt) ∈ pre.
Proof.
  exists (removelast (script_head region a)).
  unfold script_head, bucket_lines.
  destruct (a_bucket a); (split; [reflexivity|]); (split; [reflexivity|]).
  - apply (list_elem_of_lookup_2 _ 17). reflexivity.
  - apply (list_elem_of_lookup_2 _ 18). reflexivity.
  - apply (list_elem_of_lookup_2 _ 17). reflexivity.
Qed.

(** *** Text mode *)

(** A text read with universal newlines holds no carriage return. *)
Lemma universal_newlines_no_cr raw :
  Forall (fun c => c <> PyIO.cr) (PyIO.universal_newlines raw).
Proof.
  assert (H : forall n raw, length raw <= n ->
              Forall (fun c => c <> PyIO.cr) (PyIO.universal_newlines raw)).
  { clear raw. induction n as [|n IH]; intros [|c rest] Hn; cbn in Hn;
      try constructor; try lia.
    - cbn [PyIO.universal_newlines]. destruct (Ascii.eqb c PyIO.cr) eqn:Hc.
      + constructor; [discriminate|].
        destruct rest as [|d rest']; [constructor|].
        destruct (Ascii.eqb d PyStr.nl); apply IH; cbn in *; lia.
      + constructor; [|apply IH; lia].
        intros ->. now rewrite Ascii.eqb_refl in Hc. }
  apply (H (length raw)). lia.
Qed.

Lemma line_of_cons text c body row :
  line_of text body row -> line_of (c :: text) body row.
Proof.
  intros (Hnl & Hrow & Hin). split; [exact Hnl|]. split; [exact Hrow|].
  intros d Hd. right. now apply Hin.
Qed.

Lemma mem_cons c d rest :
  PyStr.mem c (String d rest) = (Ascii.eqb c d || PyStr.mem c rest)%bool.
Proof. cbn. now destruct (Ascii.eqb c d). Qed.

Lemma lines_are_lines text :
  Forall (fun row => exists body, line_of text body row) (PyIO.lines text).
Proof.
  induction text as [|c rest IH]; [constructor|].
  assert (Hrest : Forall (fun row => exists body, line_of (c :: rest) body row)
                    (PyIO.lines rest)).
  { eapply Forall_impl; [exact IH|]. intros row (body & H).
    exists body. now apply line_of_cons. }
  cbn [PyIO.lines]. destruct (Ascii.eqb c PyStr.nl) eqn:Hc.
  - constructor; [|exact Hrest]. apply Ascii.eqb_eq in Hc as ->.
    exists "". split; [reflexivity|]. split; [now left|]. intros d Hd. discriminate Hd.
  - assert (Hone : forall d, PyStr.mem d (String c "") = true -> In d (c :: rest)).
    { intros d Hd. rewrite mem_cons in Hd. cbn in Hd.
      rewrite orb_false_r in Hd. apply Ascii.eqb_eq in Hd as ->. now left. }
    destruct (PyIO.lines rest) as [|line more].
    + constructor; [|constructor]. exists (String c "").
      split; [rewrite mem_cons, Ascii.eqb_sym, Hc; reflexivity|].
      split; [right; split; [reflexivity|discriminate]|exact Hone].
    + inversion Hrest as [|? ? (body & Hnl & Hrow & Hin) Hmore]; subst.
      constructor; [|exact Hmore]. exists (String c body).
      split; [rewrite mem_cons, Ascii.eqb_sym, Hc; exact Hnl|].
      split.
      * destruct Hrow as [->|[-> _]]; [now left|right; split; [reflexivity|discriminate]].
      * intros d Hd. rewrite mem_cons in Hd. apply orb_true_iff in Hd as [Hd|Hd].
        -- apply Ascii.eqb_eq in Hd as ->. now left.
        -- now apply Hin.
Qed.

(** The lines of a text are its characters, cut and not changed. *)
Lemma lines_concat text :
  String.concat "" (PyIO.lines text) = string_of_list_ascii text.
Proof.
  assert (Hcat : forall l, fold_right String.append "" l = String.concat "" l).
  { induction l as [|x [|y l] IH]; [reflexivity|apply append_empty_r|].
    cbn [fold_right String.concat] in *. now rewrite IH. }
  rewrite <- Hcat.
  induction text as [|c rest IH]; [reflexivity|].
  cbn [PyIO.lines string_of_list_ascii]. rewrite <- IH.
  destruct (Ascii.eqb c PyStr.nl); [reflexivity|].
  now destruct (PyIO.lines rest).
Qed.

(** Every line but the last ends with a line feed. *)
Lemma lines_end_with_newline text :
  Forall (fun row => exists body, row = body +:+ PyStr.newline)
    (removelast (PyIO.lines text)).
Proof.
  induction text as [|c rest IH]; [constructor|].
  cbn [PyIO.lines]. destruct (Ascii.eqb c PyStr.nl) eqn:Hc.
  - apply Ascii.eqb_eq in Hc as ->.
    destruct (PyIO.lines rest) as [|line more]; [constructor|].
    change (removelast (?x :: line :: more)) with (x :: removelast (line :: more)).
    constructor; [now exists ""|exact IH].
  - destruct (PyIO.lines rest) as [|line [|next more]]; [constructor|constructor|].
    change (removelast (?x :: next :: more)) with (x :: removelast (next :: more)).
    change (removelast (line :: next :: more)) with (line :: removelast (next :: more)) in IH.
    inversion IH as [|? ? (body & ->) Hmore]; subst.
    constructor; [now exists (String c body)|exact Hmore].
Qed.

(** [rstrip] of a line is its body. *)
Lemma rstrip_body body :
  PyStr.mem PyStr.nl body = false ->
  PyStr.rstrip body PyStr.newline = body
  /\ PyStr.rstrip (body +:+ PyStr.newline) PyStr.newline = body.
Proof.
  induction body as [|c body IH]; intros Hnl; [split; reflexivity|].
  rewrite mem_cons in Hnl. apply orb_false_iff in Hnl as [Hc Hnl].
  destruct (IH Hnl) as [IH1 IH2].
  change (String c body +:+ PyStr.newline) with (String c (body +:+ PyStr.newline)).
  rewrite !rstrip_cons, IH1, IH2.
  change (PyStr.mem c PyStr.newline) with (if Ascii.eqb c PyStr.nl then true else false).
  rewrite Ascii.eqb_sym, Hc. now destruct body.
Qed.

Lemma rstrip_line text body row :
  line_of text body row -> PyStr.rstrip row PyStr.newline = body.
Proof.
  intros (Hnl & [->|[-> _]] & _); now apply rstrip_body.
Qed.

(** C3, amended: on a run that completes, the test sample is opened in
    text mode, where a line ends at a line feed, at a carriage return or at
    a carriage return followed by a line feed, each read as one line feed;
    for every line so read, in file order, exactly one request is sent to
    the endpoint that was deployed, whose payload is the line without its
    line end: it holds no line feed and no carriage return and is
    otherwise the line unchanged; the response, which is bytes, is printed
    the way Python prints bytes, and a pause follows.  There are as many
    requests as lines, no line is empty, the lines together are the text
    read, and every line but the last ends with a line feed. *)
Theorem requests_follow_the_lines_read w :
  result w = Ok tt ->
  exists (pre : list entry) e p chars responses (post : list entry),
    let rows := PyIO.rows chars in
    transcript w
    = pre ++ Entry (open_ "data/test_sample.csv" "r") (Ok chars)
          :: traffic p rows responses ++ post
    /\ Entry (deploy e 1 "ml.m5.large" (endpoint p)) (Ok tt) ∈ pre
    /\ pred_deserializer p = None
    /\ length responses = length rows
    /\ payloads pre = [] /\ payloads post = []
    /\ payloads (transcript w) = map (fun row => PyStr.rstrip row PyStr.newline) rows
    /\ length (payloads (transcript w)) = length rows
    /\ String.concat "" rows = string_of_list_ascii (PyIO.universal_newlines chars)
    /\ Forall (fun row => exists body, row = body +:+ PyStr.newline) (removelast rows)
    /\ Forall (fun row =>
                 let payload := PyStr.rstrip row PyStr.newline in
                 row <> ""
                 /\ (row = payload \/ row = payload +:+ PyStr.newline)
                 /\ PyStr.mem PyStr.nl payload = false
                 /\ PyStr.mem PyIO.cr payload = false) rows.
Proof.
  intros Hok. destruct (run_follows w) as [a Ha]. pose proof (proj1 Ha) as Hc.
  destruct (script_head_opens (configured_region w) a) as (pre & Hhead & Hpre & Hdeploy).
  exists pre,
    (algorithm_estimator (configured_region w) (a_role a) (a_image a)
       (bucket_name (configured_region w) (a_account a))),
    (csv_predictor (endpoint_name_at (a_now a))), (a_chars a),
    (a_responses a), (script_cleanup (configured_region w) a).
  cbv zeta. rewrite (follows_done a w Ha Hok).
  split; [unfold script; rewrite Hhead, <- app_assoc; reflexivity|].
  split; [exact Hdeploy|].
  split; [reflexivity|].
  split; [apply Hc|]. split; [exact Hpre|]. split; [reflexivity|].
  rewrite (payloads_script _ a Hc).
  split; [reflexivity|]. split; [apply length_map|].
  split; [apply lines_concat|]. split; [apply lines_end_with_newline|].
  unfold PyIO.rows.
  pose proof (universal_newlines_no_cr (a_chars a)) as Hcr.
  eapply Forall_impl; [apply lines_are_lines|].
  cbv beta zeta. intros row (body & Hline).
  rewrite (rstrip_line _ _ _ Hline). destruct Hline as (Hnl & Hrow & Hin).
  split; [destruct Hrow as [->|[-> Hbody]]; [now destruct body|exact Hbody]|].
  split; [destruct Hrow as [->|[-> _]]; [now right|now left]|].
  split; [exact Hnl|].
  destruct (PyStr.mem PyIO.cr body) eqn:Hmem; [|reflexivity].
  apply Hin, list_elem_of_In in Hmem. rewrite Forall_forall in Hcr.
  now apply Hcr in Hmem.
Qed.

Lemma requests_follow_the_lines_read_witness :
  exists (pre : list entry) e p chars responses (post : list entry),
    let rows := PyIO.rows chars in
    transcript crlf_world
    = pre ++ Entry (open_ "data/test_sample.csv" "r") (Ok chars)
          :: traffic p rows responses ++ post
    /\ Entry (deploy e 1 "ml.m5.large" (endpoint p)) (Ok tt) ∈ pre
    /\ pred_deserializer p = None
    /\ length responses = length rows
    /\ payloads pre = [] /\ payloads post = []
    /\ payloads (transcript crlf_world)
       = map (fun row => PyStr.rstrip row PyStr.newline) rows
    /\ length (payloads (transcript crlf_world)) = length rows
    /\ String.concat "" rows = string_of_list_ascii (PyIO.universal_newlines chars)
    /\ Forall (fun row => exists body, row = body +:+ PyStr.newline) (removelast rows)
    /\ Forall (fun row =>
                 let payload := PyStr.rstrip row PyStr.newline in
                 row <> ""
                 /\ (row = payload \/ row = payload +:+ PyStr.newline)
                 /\ PyStr.mem PyStr.nl payload = false
                 /\ PyStr.mem PyIO.cr payload = false) rows.
Proof.
  apply (requests_follow_the_lines_read crlf_world). vm_compute. reflexivity.
Defined.

(** C3 as stated fails on a test sample saved with a carriage return and
    a line feed at the end of each line, served by an endpoint that
    answers 0.25: the run completes; the stored lines without their
    trailing line feeds still end with the carriage return, and the
    payloads sent do not; and what is printed for a response is not its
    text but the bytes as Python writes them. *)
Lemma one_request_per_row_counterexample :
  result crlf_world = Ok tt
  /\ Entry (open_ "data/test_sample.csv" "r") (Ok crlf_chars) ∈ transcript crlf_world
  /\ claimed_payloads crlf_chars
     = [String "1" (String "," (String "2" (String PyIO.cr "")));
        String "3" (String "," (String "4" (String PyIO.cr "")))]
  /\ payloads (transcript crlf_world) = ["1,2"; "3,4"]
  /\ ~ (payloads (transcript crlf_world) = claimed_payloads crlf_chars)
  /\ map string_of_list_byte (responses (transcript crlf_world)) = ["0.25"; "0.25"]
  /\ skipn 4 (printed (transcript crlf_world)) = ["b'0.25'"; "b'0.25'"]
  /\ ~ (skipn 4 (printed (transcript crlf_world))
        = map string_of_list_byte (responses (transcript crlf_world))).
Proof.
  split; [vm_compute; reflexivity|].
  split; [apply (list_elem_of_lookup_2 _ 19); vm_compute; reflexivity|].
  split; [vm_compute; reflexivity|].
  split; [vm_compute; reflexivity|].
  split; [vm_compute; discriminate|].
  split; [vm_compute; reflexivity|].
  split; [vm_compute; reflexivity|].
  vm_compute. discriminate.
Qed.

(** ** Exceptions *)

Lemma traffic_quiet p rows : forall responses,
  Forall (fun x => raised x = None) (traffic p rows responses).
Proof.
  induction rows as [|row rows IH]; intros [|response responses]; cbn [traffic];
    repeat constructor. apply IH.
Qed.

Lemma quiet_split (l1 l2 pre : list entry) x (post : list entry) :
  Forall (fun y => raised y = None) l1 ->
  l1 ++ l2 = pre ++ x :: post ->
  raised x <> None ->
  exists pre', pre = l1 ++ pre' /\ l2 = pre' ++ x :: post.
Proof.
  intros Hquiet. revert pre. induction Hquiet as [|y l1 Hy _ IH]; intros pre Heq Hx.
  - now exists pre.
  - destruct pre as [|z pre]; cbn in Heq; injection Heq as -> Heq.
    + contradiction.
    + destruct (IH pre Heq Hx) as (pre' & -> & ->). now exists pre'.
Qed.

Lemma quiet_all (l pre : list entry) x (post : list entry) :
  Forall (fun y => raised y = None) l -> l = pre ++ x :: post -> raised x = None.
Proof.
  intros Hquiet ->. apply Forall_app in Hquiet as [_ Hquiet].
  now apply Forall_cons in Hquiet as [Hx _].
Qed.

Lemma snoc_split {A} (pre0 pre post : list A) x0 x :
  pre0 ++ [x0] = pre ++ x :: post ->
  (post = [] /\ pre = pre0 /\ x = x0)
  \/ (exists post', post = post' ++ [x0] /\ pre0 = pre ++ x :: post').
Proof.
  destruct post as [|z post _] using rev_ind; intros Heq.
  - apply app_inj_tail in Heq as [-> ->]. now left.
  - right. exists post. rewrite app_comm_cons, app_assoc in Heq.
    now apply app_inj_tail in Heq as [-> ->].
Qed.

(** Where a local operation can fail: before the sixth line, or in the
    request loop. *)
Lemma length_script_head region a : 20 <= length (script_head region a).
Proof.
  unfold script_head, bucket_lines. rewrite !length_app.
  destruct (a_bucket a); cbn [length]; lia.
Qed.

Lemma fault_point_where region a i op :
  coherent a ->
  (i, op) ∈ fault_points region a ->
  i <= 6
  \/ (length (script_head region a) <= i
      /\ i <= length (script_head region a ++ script_loop a)).
Proof.
  intros (_ & Hlen & _) Hin. unfold fault_points in Hin.
  apply elem_of_app in Hin as [Hin|Hin].
  - left. rewrite !elem_of_cons in Hin.
    destruct Hin as [[= -> _]|[[= -> _]|[[= -> _]|Hin]]]; try lia. inversion Hin.
  - right. apply list_elem_of_fmap in Hin as (j & Heq & Hj).
    apply elem_of_seq in Hj.
    assert (i = length (script_head region a) + 3 * j) as -> by congruence.
    rewrite length_app. unfold script_loop.
    rewrite (length_traffic _ _ _ Hlen). lia.
Qed.

(** The one line of a script that raises is the bucket creation, the
    seventh line, and the message and the first upload follow it. *)
Lemma script_raise region a (pre : list entry) x (post : list entry) e :
  coherent a ->
  script region a = pre ++ x :: post ->
  raised x = Some e ->
  swallowed (ev x) e = true
  /\ length pre = 6
  /\ exists rest,
       post = Entry (print bucket_exists_message) (Ok tt)
              :: Entry (S3Uploader_upload "data/train.csv"
                          (s3_uri (bucket_name region (a_account a)) churn_prefix "train"))
                       (Ok (a_train_url a))
              :: rest.
Proof.
  intros (_ & _ & Hexn) Hscript Hx.
  unfold script, script_head in Hscript. rewrite <- !app_assoc in Hscript.
  apply quiet_split in Hscript as (pre' & -> & Hrest);
    [|repeat constructor|congruence].
  unfold bucket_lines in Hrest. destruct (a_bucket a) as [|e0|e0].
  - apply quiet_all in Hrest; [congruence|].
    cbn [app].
    repeat first [apply Forall_cons; split; [reflexivity|]
                 |apply Forall_app; split; [apply traffic_quiet|]
                 |apply Forall_nil; exact I].
  - destruct pre' as [|z pre']; cbn in Hrest; injection Hrest as <- Hrest.
    + cbn in Hx. injection Hx as <-. split; [exact Hexn|]. split; [reflexivity|].
      eexists. symmetry. exact Hrest.
    + apply quiet_all in Hrest; [congruence|].
      repeat first [apply Forall_cons; split; [reflexivity|]
                   |apply Forall_app; split; [apply traffic_quiet|]
                   |apply Forall_nil; exact I].
  - apply quiet_all in Hrest; [congruence|].
    cbn [app].
    repeat first [apply Forall_cons; split; [reflexivity|]
                 |apply Forall_app; split; [apply traffic_quiet|]
                 |apply Forall_nil; exact I].
Qed.

(** C1: the notebook handles exactly one kind of failure, an [Exception]
    raised by bucket creation: after it, the message is printed and the
    run goes on to the first upload.  Any other exception of any call
    ends the run there, and is the result of the run. *)
Theorem failures_propagate_except_bucket_creation w
    (pre : list entry) x (post : list entry) e :
  transcript w = pre ++ x :: post ->
  raised x = Some e ->
  (swallowed (ev x) e = true ->
   exists destination o rest,
     post = Entry (print bucket_exists_message) (Ok tt)
            :: Entry (S3Uploader_upload "data/train.csv" destination) o :: rest)
  /\ (swallowed (ev x) e = false -> post = [] /\ result w = Raise e).
Proof.
  intros Ht Hx. destruct (run_follows w) as [a Ha].
  destruct Ha as [Hc [[Hr Hs]|[(pre0 & x0 & y & post0 & e0 & Hr & Ht0 & Hs & Hev & Hx0)
                              |(e0 & i & op & Hr & Hin & Hf & Ht0)]]].
  - rewrite Hs in Ht.
    destruct (script_raise _ a pre x post e Hc Ht Hx) as (Hsw & _ & rest & ->).
    split; [eauto|congruence].
  - rewrite Ht0 in Ht. apply snoc_split in Ht as [(-> & -> & ->)|(post' & -> & ->)].
    + destruct Hx0 as [(Hx0 & _ & Hsw)|(Hx0 & _)]; [|congruence].
      assert (e0 = e) as -> by congruence.
      split; [congruence|auto].
    + rewrite <- app_assoc in Hs. cbn in Hs.
      destruct (script_raise _ a pre x _ e Hc Hs Hx) as (Hsw & _ & rest & Hpost).
      split; [|congruence]. intros _.
      destruct post' as [|z1 [|z2 post']]; cbn in Hpost.
      * exfalso. injection Hpost as -> _. cbn in Hev.
        destruct Hx0 as [(_ & Hout & _)|(_ & Hcall & _)].
        -- rewrite Hev in Hout. discriminate Hout.
        -- rewrite Hev in Hcall. discriminate Hcall.
      * injection Hpost as -> -> _. cbn in Hev.
        destruct x0 as [c o]. cbn in Hev. subst c. cbn. eauto.
      * injection Hpost as -> -> _. cbn. eauto.
  - pose proof (firstn_skipn i (script (configured_region w) a)) as Hs.
    rewrite <- Ht0, Ht, <- app_assoc in Hs. cbn [app] in Hs. symmetry in Hs.
    destruct (script_raise _ a pre x _ e Hc Hs Hx) as (Hsw & Hpre & rest & Hpost).
    split; [|congruence]. intros _.
    assert (Hlong : 20 <= length (pre ++ x :: post)).
    { rewrite <- Ht, Ht0, length_firstn.
      pose proof (length_script_head (configured_region w) a) as Hhead.
      assert (length (script_head (configured_region w) a)
              <= length (script (configured_region w) a))
        by (unfold script; rewrite length_app; lia).
      destruct (fault_point_where _ _ _ _ Hc Hin) as [Hi|[Hi _]]; [|lia].
      exfalso. apply (f_equal (@length entry)) in Ht.
      rewrite Ht0, length_firstn, length_app in Ht. cbn [length] in Ht. lia. }
    rewrite length_app in Hlong. cbn [length] in Hlong.
    destruct post as [|z1 [|z2 post]]; cbn [length] in Hlong; try lia.
    cbn in Hpost. injection Hpost as -> -> _. eauto.
Qed.

Lemma failures_propagate_except_bucket_creation_witness :
  (exists destination o rest,
     skipn 7 (transcript bucket_taken_world)
     = Entry (print bucket_exists_message) (Ok tt)
       :: Entry (S3Uploader_upload "data/train.csv" destination) o :: rest)
  /\ (skipn 15 (transcript framework_fails_world) = []
      /\ result framework_fails_world = Raise (ClientError "ResourceLimitExceeded")).
Proof.
  split.
  - apply (failures_propagate_except_bucket_creation bucket_taken_world
             (firstn 6 (transcript bucket_taken_world))
             (Entry (s3_create_bucket {| service := "s3"; client_region := "eu-west-1" |}
                       "sagemaker-eu-west-1-123456789012"
                       (Some (<["LocationConstraint" := "eu-west-1"]> ∅)))
                    (Raise (ClientError "BucketAlreadyOwnedByYou")))
             (skipn 7 (transcript bucket_taken_world))
             (ClientError "BucketAlreadyOwnedByYou")).
    + vm_compute. reflexivity.
    + reflexivity.
    + reflexivity.
  - apply (failures_propagate_except_bucket_creation framework_fails_world
             (firstn 14 (transcript framework_fails_world))
             (Entry (fit (framework_estimator "eu-west-1"
                            "arn:aws:iam::123456789012:role/notebook" "xgboost:1"
                            "sagemaker-eu-west-1-123456789012")
                         (fit_inputs "sagemaker-eu-west-1-123456789012"))
                    (Raise (ClientError "ResourceLimitExceeded")))
             (skipn 15 (transcript framework_fails_world))
             (ClientError "ResourceLimitExceeded")).
    + vm_compute. reflexivity.
    + reflexivity.
    + reflexivity.
Defined.

(** ** The log only grows *)

Lemma extends_ret {A} (a : A) : extends (ret a).
Proof. intros w k. reflexivity. Qed.

Lemma extends_raise {A} e : extends (@raise A e).
Proof. intros w k. reflexivity. Qed.

Lemma extends_bind {A B} (m : M A) (f : A -> M B) :
  extends m -> (forall a, extends (f a)) -> extends (bind m f).
Proof.
  intros Hm Hf w k. unfold bind. specialize (Hm w k).
  destruct (m w k) as [[a|e] k']; cbn in Hm |- *; [|exact Hm].
  etransitivity; [exact Hm|apply Hf].
Qed.

Lemma extends_perform c : extends (perform c).
Proof. intros w k. cbn. now apply prefix_app_r. Qed.

Lemma extends_emit c done : extends (emit c done).
Proof. intros w k. cbn. now apply prefix_app_r. Qed.

Lemma extends_get {A} name (slot : Ns.t -> option A) : extends (get name slot).
Proof. intros w k. unfold get. destruct (slot (ns k)); reflexivity. Qed.

Lemma extends_assign upd : extends (assign upd).
Proof. intros w k. reflexivity. Qed.

Lemma extends_format fmt args : extends (format fmt args).
Proof. unfold format. destruct (PyStr.format fmt args); [apply extends_ret|apply extends_raise]. Qed.

Lemma extends_subscript {V} (d : gmap string V) key : extends (subscript d key).
Proof. unfold subscript. destruct (d !! key); [apply extends_ret|apply extends_raise]. Qed.

Lemma extends_try_except {A} (body : M A) handler :
  extends body -> (forall e, extends (handler e)) -> extends (try_except body handler).
Proof.
  intros Hb Hh w k. unfold try_except. specialize (Hb w k).
  destruct (body w k) as [[a|e] k']; cbn in Hb |- *; [exact Hb|].
  destruct (isinstance_Exception e); [|exact Hb].
  etransitivity; [exact Hb|apply Hh].
Qed.

Lemma extends_attempt op : extends (attempt op).
Proof. intros w k. unfold attempt. destruct (fault_of w _ op); reflexivity. Qed.

Lemma extends_for_rows path rows body :
  (forall x, extends (body x)) -> extends (for_rows path rows body).
Proof.
  intros Hb. induction rows as [|row rows IH]; cbn [for_rows];
    (apply extends_bind; [apply extends_attempt|intros _]); [apply extends_ret|].
  apply extends_bind; [apply Hb|intros _; exact IH].
Qed.

Lemma extends_for_each f body :
  (forall x, extends (body x)) -> extends (for_each f body).
Proof. intros Hb. now apply extends_for_rows. Qed.

Lemma extends_with_open path mode body :
  (forall f, extends (body f)) -> extends (with_open path mode body).
Proof.
  intros Hb w k. unfold with_open. cbn.
  destruct (answer w (length (log k)) (open_ path mode)) as [chars|e]; cbn.
  - match goal with |- context [body ?f w ?held] => specialize (Hb f w held) end.
    destruct (body _ w _) as [r k'']; cbn in Hb |- *.
    etransitivity; [|exact Hb]. now apply prefix_app_r.
  - now apply prefix_app_r.
Qed.

Lemma extends_boto3_Session : extends boto3_Session.
Proof. intros w k. reflexivity. Qed.

Lemma extends_sagemaker_Session : extends sagemaker_Session.
Proof. intros w k. reflexivity. Qed.

Lemma extends_attr_region_name s : extends (attr_region_name s).
Proof. destruct s; [apply extends_ret|apply extends_raise]. Qed.

Lemma extends_attr_client s {B} (f : (string -> option string -> M client) -> M B) :
  (forall client, (forall x y, extends (client x y)) -> extends (f client)) ->
  extends (bind (attr_client s) f).
Proof.
  intros Hf. destruct s as [r|r]; [|intros w k; reflexivity].
  intros w k. apply Hf. intros x y.
  apply extends_bind; [apply extends_attempt|intros _; apply extends_ret].
Qed.

Lemma extends_Estimator_deploy e n t name : extends (Estimator_deploy e n t name).
Proof.
  unfold Estimator_deploy. apply extends_bind; [apply extends_perform|].
  intros _. apply extends_ret.
Qed.

Ltac grows :=
  repeat first
    [ apply extends_try_except; [|intros ?]
    | apply extends_with_open; intros ?
    | apply extends_for_each; intros ?
    | apply extends_Estimator_deploy
    | apply extends_format | apply extends_subscript
    | apply extends_attr_region_name
    | apply extends_attr_client; intros ? ?
    | match goal with H : forall x y, extends (?client x y) |- extends (?client _ _) =>
        apply H
      end
    | apply extends_get | apply extends_assign
    | apply extends_perform | apply extends_emit
    | apply extends_bind; [|intros ?]
    | apply extends_ret | apply extends_raise
    | apply extends_boto3_Session | apply extends_sagemaker_Session
    | match goal with |- extends (if ?b then _ else _) => destruct b end ].

Lemma extends_cell_28 : extends cell_28.
Proof.
  intros w k. unfold cell_28, bind, get, attr_delete_endpoint.
  destruct (Ns.sess (ns k)) as [[r|r]|]; cbn; try reflexivity.
  destruct (Ns.xgb_predictor (ns k)); cbn; [|reflexivity].
  now apply prefix_app_r.
Qed.

Lemma extends_notebook : Forall (fun c => extends c) notebook.
Proof.
  unfold notebook.
  repeat (apply Forall_cons; split); [..|apply Forall_nil; exact I];
    try apply extends_cell_28.
  all: match goal with |- extends ?c => unfold c end;
    unfold create_bucket, channels, send_row; grows.
Qed.

Lemma extends_run_cells cells :
  Forall (fun c => extends c) cells -> extends (run_cells cells).
Proof.
  induction 1 as [|c cells Hc _ IH]; [apply extends_ret|].
  change (run_cells (c :: cells)) with (bind c (fun _ => run_cells cells)).
  apply extends_bind; [exact Hc|intros _; exact IH].
Qed.

Lemma run_cells_app l1 l2 w k :
  run_cells (l1 ++ l2) w k
  = match run_cells l1 w k with
    | (Ok _, k') => run_cells l2 w k'
    | (Raise e, k') => (Raise e, k')
    end.
Proof.
  revert k. induction l1 as [|c l1 IH]; intros k; [reflexivity|].
  cbn [app]. rewrite !run_cells_cons.
  destruct (c w k) as [[[]|e] k']; [apply IH|reflexivity].
Qed.

Lemma run_all_split n w :
  run_all w
  = match run_cells (firstn n notebook) w fresh_kernel with
    | (Ok _, k') => run_cells (skipn n notebook) w k'
    | (Raise e, k') => (Raise e, k')
    end.
Proof. unfold run_all. now rewrite <- run_cells_app, firstn_skipn. Qed.

(** What the log held after [n] cells is still the beginning of the
    transcript. *)
Lemma kernel_after_prefix n w : log (kernel_after n w) `prefix_of` transcript w.
Proof.
  unfold transcript, kernel_after. rewrite (run_all_split n w).
  destruct (run_cells (firstn n notebook) w fresh_kernel) as [[[]|e] k]; [|reflexivity].
  apply extends_run_cells.
  pose proof extends_notebook as H. rewrite <- (firstn_skipn n notebook) in H.
  now apply Forall_app in H as [_ H].
Qed.

(** ** The hyperparameters between uploads and training *)

Ltac dead_end := unfold after_uploads; kred; intros Hdead; discriminate Hdead.

Ltac early_call := step; [onward|solve [dead_end]].

Ltac early_client := local_step; [solve [dead_end]|onward].

Ltac up_to_hyperparameters :=
  onward; do 2 early_call; cell cell_08; early_call; cell cell_10;
  unfold run_cells, after_uploads; kred; intros _; split; reflexivity.

Lemma after_uploads_run w :
  after_uploads (run_cells (firstn 6 notebook) w fresh_kernel).
Proof.
  cbn [firstn notebook].
  cell cell_01.
  cell cell_02. early_client. early_call.
  cell cell_04. do 3 early_call.
  cell cell_06. early_client. early_call.
  match goal with |- context [?d !! "Account"] =>
    destruct (d !! "Account") as [account|] eqn:Haccount; kred
  end; [|dead_end].
  formats.
  match goal with |- context [create_bucket w ?k] =>
    rewrite (create_bucket_run w k (configured_region w)
               (bucket_name (configured_region w) account) eq_refl eq_refl)
  end.
  kred. local_step.
  - destruct (isinstance_Exception e) eqn:Hexception; kred; [|dead_end].
    up_to_hyperparameters.
  - step.
    + up_to_hyperparameters.
    + destruct (isinstance_Exception e) eqn:Hexception; kred; [|dead_end].
      up_to_hyperparameters.
Qed.

Lemma files_read_script region a : files_read (script region a) = [a_rows a].
Proof.
  unfold files_read. script_view. rewrite unseen_traffic by reflexivity.
  destruct (a_bucket a); reflexivity.
Qed.

(** C2: in a run that completes the steps come in this order: the local
    CSV read, the two uploads, the hyperparameter dictionary, the two
    training jobs (built-in algorithm, then framework), the deployment,
    one request per row, the teardown.  The dictionary is bound by the
    seventh code cell: before it the log holds the read and both uploads
    and no training job, and the cell itself calls nothing. *)
Theorem flow_runs_in_order w :
  result w = Ok tt ->
  exists rows,
    files_read (transcript w) = [rows]
    /\ steps (transcript w)
       = [StepInspect; StepUpload; StepUpload; StepTrain Estimator; StepTrain XGBoost;
          StepDeploy] ++ repeat StepRequest (length rows) ++ [StepTeardown]
    /\ Ns.hyperparams (ns (kernel_after 6 w)) = None
    /\ steps (log (kernel_after 6 w)) = [StepInspect; StepUpload; StepUpload]
    /\ Ns.hyperparams (ns (kernel_after 7 w)) = Some hyperparams_literal
    /\ log (kernel_after 7 w) = log (kernel_after 6 w)
    /\ log (kernel_after 6 w) `prefix_of` transcript w.
Proof.
  intros Hok. destruct (run_follows w) as [a Ha]. pose proof (proj1 Ha) as Hc.
  exists (a_rows a). rewrite (follows_done a w Ha Hok) at 1 2.
  split; [apply files_read_script|]. split; [now apply steps_script|].
  pose proof (after_uploads_run w) as Hearly. unfold after_uploads in Hearly.
  assert ((run_cells (firstn 6 notebook) w fresh_kernel).1 = Ok tt) as Hsix.
  { unfold result in Hok. rewrite (run_all_split 6 w) in Hok.
    destruct (run_cells (firstn 6 notebook) w fresh_kernel) as [[[]|e] k];
      [reflexivity|discriminate Hok]. }
  destruct (Hearly Hsix) as [Hunbound Hsteps].
  split; [exact Hunbound|]. split; [exact Hsteps|].
  assert (kernel_after 7 w
          = {| ns := Ns.set_hyperparams hyperparams_literal (ns (kernel_after 6 w));
               log := log (kernel_after 6 w);
               opened := opened (kernel_after 6 w) |}) as Hseven.
  { unfold kernel_after.
    change (firstn 7 notebook) with (firstn 6 notebook ++ [cell_12]).
    rewrite run_cells_app.
    destruct (run_cells (firstn 6 notebook) w fresh_kernel) as [[[]|e] k];
      [reflexivity|discriminate Hsix]. }
  rewrite Hseven. split; [reflexivity|]. split; [reflexivity|].
  apply kernel_after_prefix.
Qed.

Lemma flow_runs_in_order_witness :
  exists rows,
    files_read (transcript sample_world) = [rows]
    /\ steps (transcript sample_world)
       = [StepInspect; StepUpload; StepUpload; StepTrain Estimator; StepTrain XGBoost;
          StepDeploy] ++ repeat StepRequest (length rows) ++ [StepTeardown]
    /\ Ns.hyperparams (ns (kernel_after 6 sample_world)) = None
    /\ steps (log (kernel_after 6 sample_world)) = [StepInspect; StepUpload; StepUpload]
    /\ Ns.hyperparams (ns (kernel_after 7 sample_world)) = Some hyperparams_literal
    /\ log (kernel_after 7 sample_world) = log (kernel_after 6 sample_world)
    /\ log (kernel_after 6 sample_world) `prefix_of` transcript sample_world.
Proof.
  apply (flow_runs_in_order sample_world). vm_compute. reflexivity.
Defined.

(** * Further properties of the notebook *)

(** ** How runs end *)

Lemma run_shape w : shape w (result w) (transcript w).
Proof. exact (run_all_shape w). Qed.

Lemma elem_of_supplies_identity cl identity (l : list entry) :
  Entry (sts_get_caller_identity cl) (Ok identity) ∈ l -> Identity identity ∈ supplies l.
Proof.
  intros H. unfold supplies. apply list_elem_of_omap.
  exists (Entry (sts_get_caller_identity cl) (Ok identity)). now split.
Qed.

(** The identity in a script names the account. *)
Lemma script_identity region a cl identity :
  coherent a ->
  Entry (sts_get_caller_identity cl) (Ok identity) ∈ script region a ->
  identity !! "Account" = Some (a_account a).
Proof.
  intros (Hacc & _) Hin. apply elem_of_supplies_identity in Hin.
  rewrite supplies_script in Hin.
  apply elem_of_cons in Hin as [Hin|Hin].
  - injection Hin as ->. exact Hacc.
  - destruct (a_bucket a); [apply list_elem_of_singleton in Hin; discriminate Hin
                           |apply list_elem_of_singleton in Hin; discriminate Hin
                           |inversion Hin].
Qed.

Lemma firstn_5_script region a :
  firstn 5 (script region a)
  = [ Entry get_execution_role (Ok (a_role a));
      Entry (pd_read_csv "./data/training-dataset-with-header.csv") (Ok (a_data a));
      Entry (pd_set_option "display.max_columns" 500) (Ok tt);
      Entry (pd_set_option "display.max_rows" 10) (Ok tt);
      Entry (display (a_data a)) (Ok tt) ].
Proof. reflexivity. Qed.

Lemma elem_of_firstn {A} (x : A) n (l : list A) : x ∈ firstn n l -> x ∈ l.
Proof. intros H. rewrite <- (firstn_skipn n l). apply elem_of_app. now left. Qed.

(** A local operation fails before the clean-up, and at the end of what
    the log then holds. *)
Lemma fault_point_before_cleanup region a i op :
  coherent a ->
  (i, op) ∈ fault_points region a ->
  i <= length (script_head region a ++ script_loop a)
  /\ firstn i (script region a) = firstn i (script_head region a ++ script_loop a)
  /\ length (firstn i (script region a)) = i.
Proof.
  intros Hc Hin.
  assert (Hi : i <= length (script_head region a ++ script_loop a)).
  { pose proof (length_script_head region a) as Hhead.
    destruct (fault_point_where _ _ _ _ Hc Hin) as [Hi|[_ Hi]]; [|exact Hi].
    rewrite length_app. lia. }
  split; [exact Hi|]. unfold script. rewrite app_assoc.
  split.
  - rewrite firstn_app. replace (i - _) with 0 by lia. cbn [firstn]. apply app_nil_r.
  - rewrite length_firstn, length_app. lia.
Qed.

(** The local operations of the notebook. *)
Lemma fault_point_op region a i op :
  (i, op) ∈ fault_points region a ->
  op ∈ [new_client "sagemaker" region; new_client "sts" region; new_client "s3" region;
        read_line "data/test_sample.csv"].
Proof.
  unfold fault_points. intros Hin. apply elem_of_app in Hin as [Hin|Hin].
  - rewrite !elem_of_cons in Hin. rewrite !elem_of_cons.
    destruct Hin as [[= _ ->]|[[= _ ->]|[[= _ ->]|Hin]]]; auto. inversion Hin.
  - apply list_elem_of_fmap in Hin as (j & Heq & _).
    assert (op = read_line "data/test_sample.csv") as -> by congruence.
    rewrite !elem_of_cons. auto.
Qed.

(** How a run ends, with the equations spelled out. *)
Lemma run_cases w :
  exists a, follows a w /\
    ( (result w = Ok tt /\ transcript w = script (configured_region w) a)
      \/ (exists e (pre : list entry) c o (post : list entry),
            result w = Raise e
            /\ transcript w = pre ++ [Entry c (Raise e)]
            /\ script (configured_region w) a = pre ++ Entry c o :: post
            /\ is_output c = false /\ swallowed c e = false)
      \/ (exists identity,
            result w = Raise (KeyError "Account")
            /\ transcript w
               = firstn 5 (script (configured_region w) a)
                 ++ [Entry (sts_call (configured_region w)) (Ok identity)]
            /\ identity !! "Account" = None)
      \/ (exists e i op,
            result w = Raise e
            /\ (i, op) ∈ fault_points (configured_region w) a
            /\ fault_of w i op = Some e
            /\ transcript w = firstn i (script (configured_region w) a)) ).
Proof.
  pose proof (run_shape w) as H.
  remember (result w) as r eqn:Hr. remember (transcript w) as t eqn:Ht.
  destruct H as [a Hc | a e got Hc (pre & c & o & post & Hs & Hout & Hsw & ->)
                | a identity Hc Hid | a e i op Hc Hin Hf];
    exists a; symmetry in Hr, Ht.
  - split; [|left; auto]. split; [exact Hc|]. left. auto.
  - split; [|right; left; exists e, pre, c, o, post; auto].
    split; [exact Hc|]. right. left.
    exists pre, (Entry c (Raise e)), (Entry c o), post, e. repeat split; auto.
  - split; [|right; right; left; exists identity; auto].
    split; [exact Hc|]. right. left.
    exists (firstn 5 (script (configured_region w) a)),
      (Entry (sts_call (configured_region w)) (Ok identity)),
      (Entry (sts_call (configured_region w)) (Ok (a_identity a))),
      (skipn 6 (script (configured_region w) a)),
      (KeyError "Account").
    split; [exact Hr|]. split; [exact Ht|].
    split; [reflexivity|]. split; [reflexivity|]. right. auto.
  - split; [|right; right; right; exists e, i, op; auto].
    split; [exact Hc|]. right. right. exists e, i, op. auto.
Qed.

(** X1: an identity response that has no "Account" ends the run with
    KeyError('Account') on the spot: the response is the last line of the
    transcript, after the execution role and the data frame; no bucket is
    asked for and nothing is uploaded, trained or deployed. *)
Theorem missing_account_ends_the_run w cl identity :
  Entry (sts_get_caller_identity cl) (Ok identity) ∈ transcript w ->
  identity !! "Account" = None ->
  result w = Raise (KeyError "Account")
  /\ (exists pre : list entry,
        transcript w = pre ++ [Entry (sts_get_caller_identity cl) (Ok identity)]
        /\ length pre = 5)
  /\ supplies (transcript w) = [Identity identity]
  /\ steps (transcript w) = [StepInspect].
Proof.
  intros Hin Hnone.
  destruct (run_cases w) as (a & [Hc _] & [(Hr & Ht)|[(e & pre & c & o & post & Hr & Ht & Hs & _)
                                                 |[(identity' & Hr & Ht & Hid)
                                                  |(e & i & op & _ & _ & _ & Ht)]]]).
  4:{ rewrite Ht in Hin. apply elem_of_firstn, (script_identity _ a) in Hin;
        [congruence|assumption]. }
  - rewrite Ht in Hin. apply (script_identity _ a) in Hin; [congruence|assumption].
  - rewrite Ht in Hin. apply elem_of_app in Hin as [Hin|Hin].
    + assert (Entry (sts_get_caller_identity cl) (Ok identity)
                ∈ script (configured_region w) a) as Hin'
        by (rewrite Hs; apply elem_of_app; now left).
      apply (script_identity _ a) in Hin'; [congruence|assumption].
    + apply list_elem_of_singleton in Hin. inversion Hin.
  - rewrite Ht in Hin |- *. rewrite firstn_5_script in Hin |- *.
    assert (Entry (sts_get_caller_identity cl) (Ok identity)
            = Entry (sts_call (configured_region w)) (Ok identity')) as Heq.
    { apply elem_of_app in Hin as [Hin|Hin].
      - which_one Hin.
      - now apply list_elem_of_singleton in Hin. }
    rewrite <- Heq. split; [exact Hr|]. split; [|split; reflexivity].
    eexists. split; reflexivity.
Qed.

Lemma missing_account_ends_the_run_witness :
  result anonymous_world = Raise (KeyError "Account")
  /\ (exists pre : list entry,
        transcript anonymous_world
        = pre ++ [Entry (sts_get_caller_identity {| service := "sts"; client_region := "eu-west-1" |})
                        (Ok (<["UserId" := "AIDAEXAMPLE"]> ∅))]
        /\ length pre = 5)
  /\ supplies (transcript anonymous_world) = [Identity (<["UserId" := "AIDAEXAMPLE"]> ∅)]
  /\ steps (transcript anonymous_world) = [StepInspect].
Proof.
  apply (missing_account_ends_the_run anonymous_world).
  - apply (list_elem_of_lookup_2 _ 5). vm_compute. reflexivity.
  - vm_compute. reflexivity.
Defined.



(** ** Runs that fail *)

Lemma files_read_stable : stable rows_read.
Proof.
  split.
  - intros c o e. left. destruct c; reflexivity.
  - reflexivity.
Qed.

(** The rows a run read are the rows of its script. *)
Lemma rows_of_the_run a w rows :
  follows a w -> rows ∈ files_read (transcript w) -> rows = a_rows a.
Proof.
  intros Ha Hrows.
  pose proof (follows_stable rows_read a w Ha files_read_stable) as [k Hk].
  fold (files_read (transcript w)) (files_read (script (configured_region w) a)) in Hk.
  rewrite files_read_script in Hk.
  destruct (files_read (transcript w)) as [|r l]; [inversion Hrows|].
  injection Hk as <- Hk. symmetry in Hk. apply app_eq_nil in Hk as [-> _].
  now apply list_elem_of_singleton in Hrows.
Qed.

(** X3: the steps of any run, also of one that fails, are an initial
    segment of the full sequence. *)
Theorem steps_form_an_initial_segment w :
  exists n,
    steps (transcript w) `prefix_of`
      [StepInspect; StepUpload; StepUpload; StepTrain Estimator; StepTrain XGBoost;
       StepDeploy] ++ repeat StepRequest n ++ [StepTeardown]
    /\ (forall rows, rows ∈ files_read (transcript w) -> length rows = n).
Proof.
  destruct (run_follows w) as [a Ha]. pose proof (proj1 Ha) as Hc.
  exists (length (a_rows a)). split.
  - rewrite <- (steps_script (configured_region w) a Hc). apply follows_seen, Ha.
  - intros rows Hrows. now rewrite (rows_of_the_run a w rows Ha Hrows).
Qed.

(** ** Deletion *)

Lemma traffic_no_delete p rows : forall responses,
  Forall (fun x => is_delete (ev x) = false) (traffic p rows responses).
Proof.
  induction rows as [|row rows IH]; intros [|response responses]; cbn [traffic];
    repeat constructor. apply IH.
Qed.

Lemma no_delete_before_cleanup region a :
  Forall (fun x => is_delete (ev x) = false) (script_head region a ++ script_loop a).
Proof.
  apply Forall_app. split; [|apply traffic_no_delete].
  unfold script_head, bucket_lines. destruct (a_bucket a); repeat constructor.
Qed.

Lemma script_delete_last region a (pre : list entry) x (post : list entry) :
  script region a = pre ++ x :: post -> is_delete (ev x) = true -> post = [].
Proof.
  intros Hs Hx. unfold script, script_cleanup in Hs. rewrite app_assoc in Hs.
  apply snoc_split in Hs as [(-> & _)|(post' & _ & Hs)]; [reflexivity|].
  exfalso.
  pose proof (no_delete_before_cleanup region a) as Hall.
  rewrite Hs in Hall. apply Forall_app in Hall as [_ Hall].
  apply Forall_cons in Hall as [Hall _]. congruence.
Qed.

(** X4: nothing cleans up after a failure: in a run that fails no
    endpoint is deleted; a deletion in its transcript is the very call that
    failed, and its last line.  An endpoint deployed before the failure is
    not deleted by the run. *)
Theorem failed_run_deletes_no_endpoint w e s name o :
  result w = Raise e ->
  Entry (delete_endpoint s name) o ∈ transcript w ->
  o = Raise e
  /\ exists pre : list entry, transcript w = pre ++ [Entry (delete_endpoint s name) o].
Proof.
  intros Hfail Hin.
  destruct (run_cases w) as (a & [Hc _] & [(Hr & Ht)|[(e' & pre & c & o' & post & Hr & Ht & Hs & _)
                                                 |[(identity & Hr & Ht & Hid)
                                                  |(e' & i & op & _ & Hfault & _ & Ht)]]]).
  4:{ exfalso. destruct (fault_point_before_cleanup _ _ _ _ Hc Hfault) as (_ & Hcut & _).
      rewrite Ht, Hcut in Hin. apply elem_of_firstn in Hin.
      pose proof (no_delete_before_cleanup (configured_region w) a) as Hall.
      rewrite Forall_forall in Hall. apply Hall in Hin. discriminate Hin. }
  - congruence.
  - assert (e' = e) as -> by congruence.
    rewrite Ht in Hin |- *. apply elem_of_app in Hin as [Hin|Hin].
    + exfalso. apply list_elem_of_split in Hin as (l1 & l2 & ->).
      rewrite <- app_assoc in Hs. cbn in Hs.
      apply script_delete_last in Hs; [|reflexivity].
      destruct l2; discriminate Hs.
    + apply list_elem_of_singleton in Hin. split; [|exists pre; now rewrite Hin].
      apply (f_equal raised) in Hin. unfold raised in Hin. cbn in Hin.
      destruct o as [[]|e0]; [discriminate Hin|congruence].
  - exfalso. rewrite Ht, firstn_5_script in Hin.
    apply elem_of_app in Hin as [Hin|Hin]; [which_one Hin|].
    apply list_elem_of_singleton in Hin. discriminate Hin.
Qed.

Lemma failed_run_deletes_no_endpoint_witness :
  let gone := Entry (delete_endpoint (SageMakerSession "eu-west-1")
                       "demo-xgboost-customer-churn-2020-07-04-09-30-05")
                    (Raise (ClientError "ThrottlingException")) in
  @Raise unit (ClientError "ThrottlingException") = Raise (ClientError "ThrottlingException")
  /\ exists pre : list entry, transcript teardown_fails_world = pre ++ [gone].
Proof.
  apply (failed_run_deletes_no_endpoint teardown_fails_world
           (ClientError "ThrottlingException")).
  - vm_compute. reflexivity.
  - apply (list_elem_of_lookup_2 _ 29). vm_compute. reflexivity.
Defined.

(** ** The predictor *)

Lemma serving_traffic p rows : forall responses,
  length responses = length rows ->
  serving (traffic p rows responses) = repeat (Through p) (length rows).
Proof.
  induction rows as [|row rows IH]; intros [|response responses] Hlen;
    try discriminate; [reflexivity|].
  cbn. f_equal. apply IH. now injection Hlen.
Qed.

Lemma serving_script region a :
  coherent a ->
  serving (script region a)
  = Serving (algorithm_estimator region (a_role a) (a_image a)
               (bucket_name region (a_account a)))
            1 "ml.m5.large" (endpoint_name_at (a_now a))
    :: repeat (Through (csv_predictor (endpoint_name_at (a_now a)))) (length (a_rows a)).
Proof.
  intros (_ & Hlen & _). unfold serving. script_view.
  rewrite (serving_traffic _ _ _ Hlen).
  destruct (a_bucket a); cbn; now rewrite app_nil_r.
Qed.

Lemma serving_stable : stable serving_event_of.
Proof.
  split.
  - intros c o e. destruct c; cbn; auto.
  - reflexivity.
Qed.

(** X5: every request goes through the predictor as the notebook set it
    up: content type text/csv, the CSV serializer, no deserializer; and it
    goes to an endpoint whose deployment, on one ml.m5.large instance,
    returned before. *)
Theorem requests_go_through_the_csv_predictor w p d :
  predict p d ∈ calls (transcript w) ->
  pred_content_type p = Some "text/csv"
  /\ pred_serializer p = csv_serializer
  /\ pred_deserializer p = None
  /\ exists e, Entry (deploy e 1 "ml.m5.large" (endpoint p)) (Ok tt) ∈ transcript w.
Proof.
  intros Hin. destruct (run_follows w) as [a Ha]. pose proof (proj1 Ha) as Hc.
  assert (Through p ∈ serving (transcript w)) as Hp.
  { apply elem_of_calls in Hin as ([c o] & Hx & Hev). cbn in Hev. subst c.
    unfold serving. apply list_elem_of_omap. eauto. }
  pose proof (follows_stable serving_event_of a w Ha serving_stable) as [k Hk].
  fold (serving (transcript w)) (serving (script (configured_region w) a)) in Hk.
  rewrite (serving_script _ a Hc) in Hk.
  destruct (serving (transcript w)) as [|x l] eqn:Hserving; [inversion Hp|].
  injection Hk as <- Hk.
  apply elem_of_cons in Hp as [Hp|Hp]; [discriminate Hp|].
  assert (Through p ∈ l ++ k) as Hin' by (apply elem_of_app; now left).
  rewrite <- Hk in Hin'. apply elem_of_repeat_eq in Hin'. injection Hin' as ->.
  split; [reflexivity|]. split; [reflexivity|]. split; [reflexivity|].
  assert (Serving (algorithm_estimator (configured_region w) (a_role a) (a_image a)
                     (bucket_name (configured_region w) (a_account a)))
                  1 "ml.m5.large" (endpoint_name_at (a_now a)) ∈ serving (transcript w)) as Hs
    by (rewrite Hserving; apply list_elem_of_here).
  unfold serving in Hs. apply list_elem_of_omap in Hs as ([c o] & Hx & Hs).
  destruct c; try discriminate Hs. destruct o as [[]|]; [|discriminate Hs].
  injection Hs as -> -> -> ->. eexists. exact Hx.
Qed.

Lemma requests_go_through_the_csv_predictor_witness :
  let p := csv_predictor "demo-xgboost-customer-churn-2020-07-04-09-30-05" in
  pred_content_type p = Some "text/csv"
  /\ pred_serializer p = csv_serializer
  /\ pred_deserializer p = None
  /\ exists e, Entry (deploy e 1 "ml.m5.large" (endpoint p)) (Ok tt) ∈ transcript sample_world.
Proof.
  apply (requests_go_through_the_csv_predictor sample_world _ "3,4").
  apply (list_elem_of_lookup_2 _ 23). vm_compute. reflexivity.
Defined.

(** ** The frame *)

Lemma shown_script region a : shown (script region a) = [a_data a].
Proof.
  unfold shown. script_view.
  assert (forall p rows responses, omap shown_of (calls (traffic p rows responses)) = [])
    as Hloop.
  { intros p rows. induction rows as [|row rows IH]; intros [|response responses];
      try reflexivity. cbn. apply IH. }
  rewrite Hloop. destruct (a_bucket a); reflexivity.
Qed.

(** X6: the frame the notebook shows is the frame it read from
    './data/training-dataset-with-header.csv', shown after the two display
    options are set (at most 500 columns and 10 rows); these are the first
    calls of the run after the execution role. *)
Theorem shown_frame_is_the_frame_read w d :
  display d ∈ calls (transcript w) ->
  exists role,
    firstn 5 (transcript w)
    = [ Entry get_execution_role (Ok role);
        Entry (pd_read_csv "./data/training-dataset-with-header.csv") (Ok d);
        Entry (pd_set_option "display.max_columns" 500) (Ok tt);
        Entry (pd_set_option "display.max_rows" 10) (Ok tt);
        Entry (display d) (Ok tt) ]
    /\ shown (transcript w) = [d].
Proof.
  intros Hin.
  destruct (run_cases w) as (a & Ha & Hcases).
  assert (d ∈ shown (transcript w)) as Hd.
  { unfold shown. apply list_elem_of_omap. exists (display d). now split. }
  pose proof (follows_seen shown_of a w Ha) as [k Hk].
  fold (shown (transcript w)) (shown (script (configured_region w) a)) in Hk.
  rewrite shown_script in Hk.
  destruct (shown (transcript w)) as [|d' l] eqn:Hshown; [inversion Hd|].
  injection Hk as <- Hk. symmetry in Hk. apply app_eq_nil in Hk as [-> _].
  apply list_elem_of_singleton in Hd. subst d.
  exists (a_role a). split; [|reflexivity].
  destruct Hcases as [(Hr & Ht)|[(e' & pre & c & o' & post & Hr & Ht & Hs & Hout & _)
                                |[(identity & Hr & Ht & Hid)
                                 |(e' & i & op & _ & _ & _ & Ht)]]].
  4:{ rewrite Ht in Hshown |- *.
      destruct (le_lt_dec 5 i) as [Hlong|Hshort].
      - rewrite take_take, Nat.min_l by exact Hlong. apply firstn_5_script.
      - exfalso. destruct i as [|[|[|[|[|n]]]]]; [..|lia]; discriminate Hshown. }
  - rewrite Ht. apply firstn_5_script.
  - rewrite Ht in Hshown |- *.
    assert (pre = firstn (length pre) (script (configured_region w) a)) as Hpre
      by (rewrite Hs; symmetry; apply take_app_length).
    destruct (le_lt_dec 5 (length pre)) as [Hlong|Hshort].
    + rewrite take_app_le by exact Hlong.
      rewrite Hpre, take_take, Nat.min_l by exact Hlong. apply firstn_5_script.
    + exfalso. unfold shown in Hshown. rewrite calls_app, omap_app in Hshown.
      destruct (length pre) as [|[|[|[|[|n]]]]]; [..|lia];
        rewrite Hpre in Hshown; cbn in Hshown;
        destruct c; try discriminate Hshown; discriminate Hout.
  - rewrite Ht, firstn_5_script. reflexivity.
Qed.

Lemma shown_frame_is_the_frame_read_witness :
  exists role,
    firstn 5 (transcript sample_world)
    = [ Entry get_execution_role (Ok role);
        Entry (pd_read_csv "./data/training-dataset-with-header.csv")
              (Ok ["State,Churn"; "KS,0"]);
        Entry (pd_set_option "display.max_columns" 500) (Ok tt);
        Entry (pd_set_option "display.max_rows" 10) (Ok tt);
        Entry (display ["State,Churn"; "KS,0"]) (Ok tt) ]
    /\ shown (transcript sample_world) = [["State,Churn"; "KS,0"]].
Proof.
  apply (shown_frame_is_the_frame_read sample_world).
  apply (list_elem_of_lookup_2 _ 4). vm_compute. reflexivity.
Defined.

(** ** What the estimators are made of *)

Lemma training_stable : stable training_event_of.
Proof.
  split.
  - intros c o e. destruct c; cbn; auto.
  - reflexivity.
Qed.

Lemma training_script region a :
  let b := bucket_name region (a_account a) in
  training (script region a)
  = [ RoleIs (a_role a);
      SentTo "data/train.csv" (s3_uri b churn_prefix "train");
      SentTo "data/validation.csv" (s3_uri b churn_prefix "validation");
      ImageIs region "xgboost" (a_image a);
      Trained (algorithm_estimator region (a_role a) (a_image a) b);
      Trained (framework_estimator region (a_role a) (a_image a) b) ].
Proof.
  unfold training. script_view. rewrite unseen_traffic by reflexivity.
  destruct (a_bucket a); reflexivity.
Qed.

Lemma training_role r (l : list entry) :
  RoleIs r ∈ training l -> Entry get_execution_role (Ok r) ∈ l.
Proof.
  unfold training. rewrite list_elem_of_omap. intros ([c o] & Hx & H).
  destruct c, o; cbn in *; try discriminate H. now simplify_eq.
Qed.

Lemma training_image region repo image (l : list entry) :
  ImageIs region repo image ∈ training l -> Entry (get_image_uri region repo) (Ok image) ∈ l.
Proof.
  unfold training. rewrite list_elem_of_omap. intros ([c o] & Hx & H).
  destruct c, o; cbn in *; try discriminate H. now simplify_eq.
Qed.

Lemma training_sent f d (l : list entry) :
  SentTo f d ∈ training l -> S3Uploader_upload f d ∈ calls l.
Proof.
  unfold training. rewrite list_elem_of_omap. intros ([c o] & Hx & H).
  destruct c; try (destruct o; discriminate H). cbn in H. injection H as -> ->.
  unfold calls. apply list_elem_of_fmap. eexists. split; [|exact Hx]. reflexivity.
Qed.

Lemma s3_uri_base b p leaf :
  s3_uri b p leaf = ("s3://" +:+ b +:+ "/" +:+ p +:+ "/") +:+ leaf.
Proof. unfold s3_uri. now rewrite !append_assoc. Qed.

(** X7: an estimator submitted for training is built from what the
    outside returned before: the execution role, and the image that the
    lookup for the session's region and 'xgboost' gave.  Its output path
    is the sibling 'output' of the train upload; it asks for one
    ml.m5.large instance under the base job name
    "demo-xgboost-customer-churn", through the SageMaker session; only the
    framework estimator has an entry point, a framework version and a
    Python version. *)
Theorem estimators_are_built_from_the_answers w e inputs :
  fit e inputs ∈ calls (transcript w) ->
  exists role image base,
    Entry get_execution_role (Ok role) ∈ transcript w
    /\ Entry (get_image_uri (configured_region w) "xgboost") (Ok image) ∈ transcript w
    /\ S3Uploader_upload "data/train.csv" (base +:+ "train") ∈ calls (transcript w)
    /\ est_role e = role /\ image_name e = image
    /\ output_path e = base +:+ "output"
    /\ train_instance_count e = 1 /\ train_instance_type e = "ml.m5.large"
    /\ base_job_name e = "demo-xgboost-customer-churn"
    /\ sagemaker_session e = SageMakerSession (configured_region w)
    /\ match est_class e with
       | Estimator =>
           entry_point e = None /\ framework_version e = None /\ py_version e = None
       | XGBoost =>
           entry_point e = Some "xgboost_customer_churn.py"
           /\ framework_version e = Some "0.90-2" /\ py_version e = Some "py3"
       end.
Proof.
  intros Hfit. destruct (run_follows w) as [a Ha].
  set (b := bucket_name (configured_region w) (a_account a)).
  set (alg := algorithm_estimator (configured_region w) (a_role a) (a_image a) b).
  set (fw := framework_estimator (configured_region w) (a_role a) (a_image a) b).
  assert (Trained e ∈ training (transcript w)) as Hin.
  { apply elem_of_calls in Hfit as ([c o] & Hx & Hev). cbn in Hev. subst c.
    unfold training. apply list_elem_of_omap. eauto. }
  pose proof (follows_stable training_event_of a w Ha training_stable) as [k Hk].
  fold (training (transcript w)) (training (script (configured_region w) a)) in Hk.
  rewrite training_script in Hk. cbv zeta in Hk. fold b alg fw in Hk.
  assert (RoleIs (a_role a) ∈ training (transcript w)
          /\ SentTo "data/train.csv" (s3_uri b churn_prefix "train") ∈ training (transcript w)
          /\ ImageIs (configured_region w) "xgboost" (a_image a) ∈ training (transcript w)
          /\ (e = alg \/ e = fw)) as (Hrole & Hsent & Himage & He).
  { destruct (training (transcript w)) as [|x1 [|x2 [|x3 [|x4 [|x5 [|x6 l]]]]]].
    - inversion Hin.
    - injection Hk as <- _. which_one Hin.
    - injection Hk as <- <- _. which_one Hin.
    - injection Hk as <- <- <- _. which_one Hin.
    - injection Hk as <- <- <- <- _. which_one Hin.
    - injection Hk as <- <- <- <- <- _. which_one Hin.
      injection Hin as ->. repeat split; first [now left | is_there].
    - injection Hk as <- <- <- <- <- <- Hk.
      assert (l = []) as -> by (destruct l; [reflexivity|discriminate Hk]).
      which_one Hin; injection Hin as ->; repeat split; first [now left | now right | is_there]. }
  exists (a_role a), (a_image a), ("s3://" +:+ b +:+ "/" +:+ churn_prefix +:+ "/").
  split; [now apply training_role|]. split; [now apply training_image|].
  split; [rewrite <- s3_uri_base; now apply training_sent|].
  rewrite <- s3_uri_base.
  destruct He as [-> | ->]; repeat split; reflexivity.
Qed.

Lemma estimators_are_built_from_the_answers_witness :
  let e := framework_estimator "eu-west-1" "arn:aws:iam::123456789012:role/notebook"
             "xgboost:1" "sagemaker-eu-west-1-123456789012" in
  exists role image base,
    Entry get_execution_role (Ok role) ∈ transcript sample_world
    /\ Entry (get_image_uri (configured_region sample_world) "xgboost") (Ok image)
         ∈ transcript sample_world
    /\ S3Uploader_upload "data/train.csv" (base +:+ "train") ∈ calls (transcript sample_world)
    /\ est_role e = role /\ image_name e = image
    /\ output_path e = base +:+ "output"
    /\ train_instance_count e = 1 /\ train_instance_type e = "ml.m5.large"
    /\ base_job_name e = "demo-xgboost-customer-churn"
    /\ sagemaker_session e = SageMakerSession (configured_region sample_world)
    /\ match est_class e with
       | Estimator =>
           entry_point e = None /\ framework_version e = None /\ py_version e = None
       | XGBoost =>
           entry_point e = Some "xgboost_customer_churn.py"
           /\ framework_version e = Some "0.90-2" /\ py_version e = Some "py3"
       end.
Proof.
  apply (estimators_are_built_from_the_answers sample_world _
           (fit_inputs "sagemaker-eu-west-1-123456789012")).
  apply (list_elem_of_lookup_2 _ 14). vm_compute. reflexivity.
Defined.

(** ** The loop, at its edges *)

(** X8: the loop pauses after every request, the last one included: a
    run that completes over n rows has slept n times, not n-1, before the
    endpoint is deleted. *)
Theorem every_request_is_followed_by_a_pause w :
  result w = Ok tt ->
  exists rows,
    files_read (transcript w) = [rows]
    /\ rhythm (transcript w)
       = flat_map (fun _ => [Request; Pause (QArith_base.Qmake 1 2)]) rows.
Proof.
  intros Hok. destruct (run_follows w) as [a Ha].
  exists (a_rows a). rewrite (follows_done a w Ha Hok).
  split; [apply files_read_script|]. apply rhythm_script, Ha.
Qed.

Lemma every_request_is_followed_by_a_pause_witness :
  exists rows,
    files_read (transcript sample_world) = [rows]
    /\ rhythm (transcript sample_world)
       = flat_map (fun _ => [Request; Pause (QArith_base.Qmake 1 2)]) rows.
Proof.
  apply (every_request_is_followed_by_a_pause sample_world). vm_compute. reflexivity.
Defined.

(** Only the empty file has no rows. *)
Lemma rows_nil chars : PyIO.rows chars = [] -> chars = [].
Proof.
  unfold PyIO.rows. intros H.
  assert (Htext : PyIO.universal_newlines chars = []).
  { destruct (PyIO.universal_newlines chars) as [|c rest]; [reflexivity|].
    cbn in H. destruct (Ascii.eqb c PyStr.nl); [discriminate H|].
    destruct (PyIO.lines rest); discriminate H. }
  destruct chars as [|c rest]; [reflexivity|].
  cbn in Htext. destruct (Ascii.eqb c PyIO.cr); discriminate Htext.
Qed.

(** X9: with an empty test sample the loop body never runs: no request
    and no pause, and the endpoint is deleted right after the file is
    opened. *)
Theorem empty_sample_sends_no_request w :
  result w = Ok tt ->
  files_read (transcript w) = [[]] ->
  payloads (transcript w) = [] /\ rhythm (transcript w) = []
  /\ exists (pre : list entry) s name,
       transcript w
       = pre ++ [Entry (open_ "data/test_sample.csv" "r") (Ok []);
                 Entry (delete_endpoint s name) (Ok tt)].
Proof.
  intros Hok Hfiles. destruct (run_follows w) as [a Ha]. pose proof (proj1 Ha) as Hc.
  rewrite (follows_done a w Ha Hok) in Hfiles |- *.
  rewrite files_read_script in Hfiles. injection Hfiles as Hrows.
  rewrite (payloads_script _ a Hc), (rhythm_script _ a Hc), Hrows.
  split; [reflexivity|]. split; [reflexivity|].
  destruct (script_head_opens (configured_region w) a) as (pre & Hhead & _).
  exists pre. do 2 eexists. unfold script, script_loop, script_cleanup.
  rewrite Hhead, Hrows, <- app_assoc, (rows_nil _ Hrows). reflexivity.
Qed.

Lemma empty_sample_sends_no_request_witness :
  payloads (transcript empty_sample_world) = [] /\ rhythm (transcript empty_sample_world) = []
  /\ exists (pre : list entry) s name,
       transcript empty_sample_world
       = pre ++ [Entry (open_ "data/test_sample.csv" "r") (Ok []);
                 Entry (delete_endpoint s name) (Ok tt)].
Proof.
  apply (empty_sample_sends_no_request empty_sample_world); vm_compute; reflexivity.
Defined.

Lemma rstrip_only_newlines k : PyStr.rstrip (PyStr.times PyStr.nl k) PyStr.newline = "".
Proof.
  induction k as [|k IH]; [reflexivity|].
  cbn [PyStr.times]. rewrite rstrip_cons, IH. reflexivity.
Qed.

Lemma lookup_map {A B} (f : A -> B) (l : list A) i x :
  l !! i = Some x -> map f l !! i = Some (f x).
Proof.
  revert i. induction l as [|y l IH]; intros [|i] H; try discriminate H.
  - now injection H as ->.
  - cbn in H |- *. now apply IH.
Qed.

(** X10: the loop does not skip blank lines: the i-th row yields the
    i-th request, and a row that holds newlines only is sent as the empty
    payload. *)
Theorem blank_rows_are_sent_as_empty_payloads w rows i k :
  result w = Ok tt ->
  files_read (transcript w) = [rows] ->
  rows !! i = Some (PyStr.times PyStr.nl k) ->
  payloads (transcript w) !! i = Some "".
Proof.
  intros Hok Hfiles Hrow. destruct (run_follows w) as [a Ha]. pose proof (proj1 Ha) as Hc.
  rewrite (follows_done a w Ha Hok) in Hfiles |- *.
  rewrite files_read_script in Hfiles. injection Hfiles as Hrows.
  rewrite (payloads_script _ a Hc), Hrows.
  rewrite (lookup_map _ _ _ _ Hrow). now rewrite rstrip_only_newlines.
Qed.

Lemma blank_rows_are_sent_as_empty_payloads_witness :
  payloads (transcript blank_line_world) !! 1 = Some "".
Proof.
  apply (blank_rows_are_sent_as_empty_payloads blank_line_world
           [String "1" (String "," (String "2" PyStr.newline)); PyStr.newline; "5,6"] 1 1);
    vm_compute; reflexivity.
Defined.

(** ** What is printed *)

Lemma printed_traffic p rows : forall rs,
  length rs = length rows -> printed (traffic p rows rs) = map PyBytes.repr rs.
Proof.
  induction rows as [|row rows IH]; intros [|r rs] Hlen; try discriminate; [reflexivity|].
  cbn [traffic]. change (printed (?x :: Entry (print ?s) ?o :: ?y :: ?l)) with (s :: printed l).
  cbn [map]. f_equal. apply IH. now injection Hlen.
Qed.

Lemma responses_traffic p rows : forall rs,
  length rs = length rows -> responses (traffic p rows rs) = rs.
Proof.
  induction rows as [|row rows IH]; intros [|r rs] Hlen; try discriminate; [reflexivity|].
  cbn. f_equal. apply IH. now injection Hlen.
Qed.

(** X11: what a run that completes prints, in order: the bucket message
    if and only if the run created no bucket (the creation raised, or
    already the S3 client could not be created), the two URLs the uploads
    returned, the endpoint name, the traffic banner with the same name, and
    for every request the response as Python prints bytes: between quotes
    after a b, with escapes, and not the text the bytes hold. *)
Theorem what_a_complete_run_prints w :
  result w = Ok tt ->
  exists u1 u2 e name,
    upload_urls (transcript w) = [u1; u2]
    /\ deploy e 1 "ml.m5.large" name ∈ calls (transcript w)
    /\ printed (transcript w)
       = match buckets_created (transcript w) with
         | [] => [bucket_exists_message]
         | _ :: _ => []
         end
         ++ [u1; u2; "EndpointName = " +:+ name;
             "Sending test traffic to the endpoint " +:+ name +:+ ". " +:+ PyStr.newline
             +:+ "Please wait for a minute..."]
         ++ map PyBytes.repr (responses (transcript w)).
Proof.
  intros Hok. destruct (run_follows w) as [a Ha]. pose proof (proj1 Ha) as (_ & Hlen & _).
  rewrite (follows_done a w Ha Hok).
  exists (a_train_url a), (a_validation_url a),
    (algorithm_estimator (configured_region w) (a_role a) (a_image a)
       (bucket_name (configured_region w) (a_account a))),
    (endpoint_name_at (a_now a)).
  split; [|split].
  - unfold upload_urls. script_view. rewrite unseen_traffic by reflexivity.
    destruct (a_bucket a); reflexivity.
  - unfold script, script_head. rewrite !calls_app.
    apply elem_of_app. left. apply elem_of_app. right. apply elem_of_app. right.
    cbn. is_there.
  - assert (responses (script (configured_region w) a) = a_responses a) as ->.
    { unfold responses. script_view.
      fold (responses (traffic (csv_predictor (endpoint_name_at (a_now a))) (a_rows a)
                         (a_responses a))).
      rewrite (responses_traffic _ _ _ Hlen).
      destruct (a_bucket a); cbn; apply app_nil_r. }
    unfold printed, buckets_created. script_view.
    fold (printed (traffic (csv_predictor (endpoint_name_at (a_now a))) (a_rows a)
                     (a_responses a))).
    rewrite (printed_traffic _ _ _ Hlen).
    rewrite (unseen_traffic bucket_made) by reflexivity.
    destruct (a_bucket a); cbn; now rewrite app_nil_r.
Qed.

Lemma what_a_complete_run_prints_witness :
  exists u1 u2 e name,
    upload_urls (transcript bucket_taken_world) = [u1; u2]
    /\ deploy e 1 "ml.m5.large" name ∈ calls (transcript bucket_taken_world)
    /\ printed (transcript bucket_taken_world)
       = match buckets_created (transcript bucket_taken_world) with
         | [] => [bucket_exists_message]
         | _ :: _ => []
         end
         ++ [u1; u2; "EndpointName = " +:+ name;
             "Sending test traffic to the endpoint " +:+ name +:+ ". " +:+ PyStr.newline
             +:+ "Please wait for a minute..."]
         ++ map PyBytes.repr (responses (transcript bucket_taken_world)).
Proof.
  apply (what_a_complete_run_prints bucket_taken_world). vm_compute. reflexivity.
Defined.

(** ** rstrip *)

(** X12: [rstrip('\n')] removes the trailing newlines and nothing else:
    a text that does not end with a newline comes back unchanged, however
    many newlines follow it. *)
Theorem rstrip_removes_exactly_the_trailing_newlines t k :
  PyStr.last_char t <> Some PyStr.nl ->
  PyStr.rstrip (t +:+ PyStr.times PyStr.nl k) PyStr.newline = t.
Proof.
  induction t as [|c rest IH]; intros Hlast.
  - apply rstrip_only_newlines.
  - change (String c rest +:+ ?s) with (String c (rest +:+ s)). rewrite rstrip_cons.
    destruct rest as [|d rest'].
    + change ("" +:+ ?s) with s. rewrite rstrip_only_newlines.
      change (PyStr.mem c PyStr.newline) with (if Ascii.eqb c PyStr.nl then true else false).
      destruct (Ascii.eqb c PyStr.nl) eqn:Hc; [|reflexivity].
      apply Ascii.eqb_eq in Hc as ->. now contradiction Hlast.
    + now rewrite IH.
Qed.

Lemma rstrip_removes_exactly_the_trailing_newlines_witness :
  PyStr.rstrip ("1,2" +:+ PyStr.times PyStr.nl 2) PyStr.newline = "1,2".
Proof.
  apply (rstrip_removes_exactly_the_trailing_newlines "1,2" 2). discriminate.
Defined.

(** X13: stripping twice is stripping once. *)
Theorem rstrip_is_idempotent row :
  PyStr.rstrip (PyStr.rstrip row PyStr.newline) PyStr.newline
  = PyStr.rstrip row PyStr.newline.
Proof.
  destruct (rstrip_newline row) as (k & _ & Hlast).
  induction (PyStr.rstrip row PyStr.newline) as [|c rest IH]; [reflexivity|].
  rewrite rstrip_cons. destruct rest as [|d rest'].
  - change (PyStr.rstrip "" PyStr.newline) with "".
    change (PyStr.mem c PyStr.newline) with (if Ascii.eqb c PyStr.nl then true else false).
    destruct (Ascii.eqb c PyStr.nl) eqn:Hc; [|reflexivity].
    apply Ascii.eqb_eq in Hc as ->. now contradiction Hlast.
  - now rewrite IH.
Qed.

(** ** The endpoint name *)

Lemma length_append (s t : string) :
  String.length (s +:+ t) = String.length s + String.length t.
Proof.
  induction s as [|c s IH]; [reflexivity|].
  change (String c s +:+ t) with (String c (s +:+ t)). cbn [String.length]. now rewrite IH.
Qed.

Lemma length_zeros n : String.length (PyTime.zeros n) = n.
Proof. induction n as [|n IH]; cbn; congruence. Qed.

Lemma length_zpad w n :
  String.length (PyTime.decimal n) <= w -> String.length (PyTime.zpad w n) = w.
Proof. intros H. unfold PyTime.zpad. rewrite length_append, length_zeros. lia. Qed.

Lemma length_decimal_2 n : n < 100 -> String.length (PyTime.decimal n) <= 2.
Proof.
  intros H.
  assert (forallb (fun n => Nat.leb (String.length (PyTime.decimal n)) 2) (seq 0 100) = true) as Hall
    by (vm_compute; reflexivity).
  rewrite forallb_forall in Hall. apply Nat.leb_le, Hall, in_seq. lia.
Qed.

Lemma length_decimal_4 n : n < 10 ^ 4 -> String.length (PyTime.decimal n) <= 4.
Proof.
  intros H.
  assert (forallb (fun n => Nat.leb (String.length (PyTime.decimal n)) 4) (seq 0 (10 ^ 4)) = true)
    as Hall by (vm_compute; reflexivity).
  rewrite forallb_forall in Hall. apply Nat.leb_le, Hall, in_seq. lia.
Qed.

Lemma digits_value_zeros k s : digits_value (PyTime.zeros k +:+ s) = digits_value s.
Proof.
  induction k as [|k IH]; [reflexivity|].
  rewrite <- IH. unfold digits_value.
  change (PyTime.zeros (S k) +:+ s) with (String "0" (PyTime.zeros k +:+ s)).
  cbn [NilEmpty.uint_of_string].
  destruct (NilEmpty.uint_of_string (PyTime.zeros k +:+ s)); reflexivity.
Qed.

Lemma digits_value_zpad w n : digits_value (PyTime.zpad w n) = Some n.
Proof.
  unfold PyTime.zpad. rewrite digits_value_zeros. unfold digits_value, PyTime.decimal.
  rewrite NilEmpty.usu. cbn. now rewrite Unsigned.of_to.
Qed.

Lemma zpad_inj w n m : PyTime.zpad w n = PyTime.zpad w m -> n = m.
Proof.
  intros H. apply (f_equal digits_value) in H. rewrite !digits_value_zpad in H.
  now injection H.
Qed.

Lemma append_inj_length (a b x y : string) :
  String.length a = String.length b -> a +:+ x = b +:+ y -> a = b /\ x = y.
Proof.
  revert b. induction a as [|c a IH]; intros [|d b] Hlen Heq; try discriminate Hlen.
  - now split.
  - injection Hlen as Hlen. injection Heq as -> Heq.
    destruct (IH b Hlen Heq) as [-> ->]. now split.
Qed.

Lemma four_digit_year_lengths t :
  four_digit_year t ->
  String.length (PyTime.zpad 4 (PyTime.tm_year t)) = 4
  /\ String.length (PyTime.zpad 2 (PyTime.tm_mon t)) = 2
  /\ String.length (PyTime.zpad 2 (PyTime.tm_mday t)) = 2
  /\ String.length (PyTime.zpad 2 (PyTime.tm_hour t)) = 2
  /\ String.length (PyTime.zpad 2 (PyTime.tm_min t)) = 2
  /\ String.length (PyTime.zpad 2 (PyTime.tm_sec t)) = 2.
Proof.
  intros (Hy & Hm & Hd & HH & HM & HS).
  repeat split; apply length_zpad;
    first [apply length_decimal_4; lia | apply length_decimal_2; lia].
Qed.

(** The stamp and the name of a run's endpoint. *)
Lemma stamp_and_name w now e name :
  Stamped now ∈ endpoint_events (transcript w) ->
  Created e name ∈ endpoint_events (transcript w) ->
  name = endpoint_name_at now.
Proof.
  intros Hnow Hname. destruct (run_follows w) as [a Ha]. pose proof (proj1 Ha) as Hc.
  pose proof (follows_stable endpoint_event_of a w Ha endpoint_events_stable) as [k Hk].
  fold (endpoint_events (transcript w)) in Hk.
  fold (endpoint_events (script (configured_region w) a)) in Hk.
  rewrite (endpoint_events_script _ a Hc) in Hk. cbv zeta in Hk.
  assert (forall x, x ∈ endpoint_events (transcript w) ->
            x ∈ Stamped (a_now a)
                :: Created (algorithm_estimator (configured_region w) (a_role a) (a_image a)
                              (bucket_name (configured_region w) (a_account a)))
                           (endpoint_name_at (a_now a))
                :: repeat (Invoked (endpoint_name_at (a_now a))) (length (a_rows a))
                   ++ [Deleted (endpoint_name_at (a_now a))]) as Hall.
  { intros x Hx. rewrite Hk. apply elem_of_app. now left. }
  assert (forall x, x ∈ repeat (Invoked (endpoint_name_at (a_now a))) (length (a_rows a))
                        ++ [Deleted (endpoint_name_at (a_now a))] ->
            forall t e' n, x <> Stamped t /\ x <> Created e' n) as Hrest.
  { intros x Hx t e' n. apply elem_of_app in Hx as [Hx|Hx].
    - apply elem_of_repeat_eq in Hx. subst x. split; discriminate.
    - apply list_elem_of_singleton in Hx. subst x. split; discriminate. }
  apply Hall in Hnow, Hname.
  apply elem_of_cons in Hnow as [Hnow|Hnow].
  - injection Hnow as ->.
    apply elem_of_cons in Hname as [Hname|Hname]; [discriminate Hname|].
    apply elem_of_cons in Hname as [Hname|Hname]; [now injection Hname|].
    now destruct (Hrest _ Hname (a_now a) e name).
  - apply elem_of_cons in Hnow as [Hnow|Hnow]; [discriminate Hnow|].
    now destruct (Hrest _ Hnow now e name).
Qed.

(** X14: the endpoint name has 47 characters whenever the clock returns
    a time in a year of four digits: the 28 of the prefix and the 19 of the
    stamp. *)
Theorem endpoint_name_has_47_characters w now e name :
  Stamped now ∈ endpoint_events (transcript w) ->
  Created e name ∈ endpoint_events (transcript w) ->
  four_digit_year now ->
  String.length name = 47.
Proof.
  intros Hnow Hname Hrange. rewrite (stamp_and_name w now e name Hnow Hname).
  unfold endpoint_name_at, endpoint_prefix, endpoint_time_format.
  rewrite strftime_endpoint_format.
  destruct (four_digit_year_lengths now Hrange) as (Hy & Hm & Hd & HH & HM & HS).
  rewrite !length_append, Hy, Hm, Hd, HH, HM, HS. reflexivity.
Qed.

Lemma endpoint_name_has_47_characters_witness :
  String.length "demo-xgboost-customer-churn-2020-07-04-09-30-05" = 47.
Proof.
  apply (endpoint_name_has_47_characters sample_world sample_time
           (algorithm_estimator "eu-west-1" "arn:aws:iam::123456789012:role/notebook"
              "xgboost:1" "sagemaker-eu-west-1-123456789012")).
  - apply (list_elem_of_lookup_2 _ 0). vm_compute. reflexivity.
  - apply (list_elem_of_lookup_2 _ 1). vm_compute. reflexivity.
  - unfold four_digit_year. cbn. lia.
Defined.

Lemma strftime_inj t1 t2 :
  four_digit_year t1 -> four_digit_year t2 ->
  PyTime.strftime "%Y-%m-%d-%H-%M-%S" t1 = PyTime.strftime "%Y-%m-%d-%H-%M-%S" t2 ->
  t1 = t2.
Proof.
  intros H1 H2 Heq. rewrite !strftime_endpoint_format in Heq.
  destruct (four_digit_year_lengths t1 H1) as (Hy1 & Hm1 & Hd1 & HH1 & HM1 & HS1).
  destruct (four_digit_year_lengths t2 H2) as (Hy2 & Hm2 & Hd2 & HH2 & HM2 & HS2).
  apply append_inj_length in Heq as [Hy Heq]; [|congruence]. apply String.app_inj in Heq.
  apply append_inj_length in Heq as [Hm Heq]; [|congruence]. apply String.app_inj in Heq.
  apply append_inj_length in Heq as [Hd Heq]; [|congruence]. apply String.app_inj in Heq.
  apply append_inj_length in Heq as [HH Heq]; [|congruence]. apply String.app_inj in Heq.
  apply append_inj_length in Heq as [HM HS]; [|congruence]. apply String.app_inj in HS.
  apply zpad_inj in Hy, Hm, Hd, HH, HM, HS.
  destruct t1, t2. cbn in *. congruence.
Qed.

(** X15: two runs get the same endpoint name exactly when their clocks
    return the same second: the stamp determines the time, and the time the
    stamp. *)
Theorem same_name_same_second w1 w2 t1 t2 e1 e2 n1 n2 :
  Stamped t1 ∈ endpoint_events (transcript w1) ->
  Created e1 n1 ∈ endpoint_events (transcript w1) ->
  Stamped t2 ∈ endpoint_events (transcript w2) ->
  Created e2 n2 ∈ endpoint_events (transcript w2) ->
  four_digit_year t1 -> four_digit_year t2 ->
  n1 = n2 <-> t1 = t2.
Proof.
  intros Ht1 Hn1 Ht2 Hn2 H1 H2.
  rewrite (stamp_and_name w1 t1 e1 n1 Ht1 Hn1), (stamp_and_name w2 t2 e2 n2 Ht2 Hn2).
  split; [|now intros ->].
  unfold endpoint_name_at, endpoint_time_format. intros Heq.
  apply String.app_inj in Heq. now apply strftime_inj.
Qed.

Lemma same_name_same_second_witness :
  "demo-xgboost-customer-churn-2020-07-04-09-30-05"
  = "demo-xgboost-customer-churn-2020-07-04-09-30-06"
  <-> sample_time
      = {| PyTime.tm_year := 2020; PyTime.tm_mon := 7; PyTime.tm_mday := 4;
           PyTime.tm_hour := 9; PyTime.tm_min := 30; PyTime.tm_sec := 6 |}.
Proof.
  apply (same_name_same_second sample_world a_second_later_world _ _
           (algorithm_estimator "eu-west-1" "arn:aws:iam::123456789012:role/notebook"
              "xgboost:1" "sagemaker-eu-west-1-123456789012")
           (algorithm_estimator "eu-west-1" "arn:aws:iam::123456789012:role/notebook"
              "xgboost:1" "sagemaker-eu-west-1-123456789012")).
  - apply (list_elem_of_lookup_2 _ 0). vm_compute. reflexivity.
  - apply (list_elem_of_lookup_2 _ 1). vm_compute. reflexivity.
  - apply (list_elem_of_lookup_2 _ 0). vm_compute. reflexivity.
  - apply (list_elem_of_lookup_2 _ 1). vm_compute. reflexivity.
  - unfold four_digit_year. cbn. lia.
  - unfold four_digit_year. cbn. lia.
Defined.

(** ** Open files *)

Lemma closes_ret {A} (a : A) : closes_its_files (ret a).
Proof. intros w k. reflexivity. Qed.

Lemma closes_raise {A} e : closes_its_files (@raise A e).
Proof. intros w k. reflexivity. Qed.

Lemma closes_bind {A B} (m : M A) (f : A -> M B) :
  closes_its_files m -> (forall a, closes_its_files (f a)) -> closes_its_files (bind m f).
Proof.
  intros Hm Hf w k. unfold bind. specialize (Hm w k).
  destruct (m w k) as [[a|e] k']; cbn in Hm |- *; [|exact Hm].
  now rewrite Hf.
Qed.

Lemma closes_perform c : closes_its_files (perform c).
Proof. intros w k. reflexivity. Qed.

Lemma closes_emit c done : closes_its_files (emit c done).
Proof. intros w k. reflexivity. Qed.

Lemma closes_get {A} name (slot : Ns.t -> option A) : closes_its_files (get name slot).
Proof. intros w k. unfold get. destruct (slot (ns k)); reflexivity. Qed.

Lemma closes_assign upd : closes_its_files (assign upd).
Proof. intros w k. reflexivity. Qed.

Lemma closes_format fmt args : closes_its_files (format fmt args).
Proof. unfold format. destruct (PyStr.format fmt args); [apply closes_ret|apply closes_raise]. Qed.

Lemma closes_subscript {V} (d : gmap string V) key : closes_its_files (subscript d key).
Proof. unfold subscript. destruct (d !! key); [apply closes_ret|apply closes_raise]. Qed.

Lemma closes_try_except {A} (body : M A) handler :
  closes_its_files body -> (forall e, closes_its_files (handler e)) ->
  closes_its_files (try_except body handler).
Proof.
  intros Hb Hh w k. unfold try_except. specialize (Hb w k).
  destruct (body w k) as [[a|e] k']; cbn in Hb |- *; [exact Hb|].
  destruct (isinstance_Exception e); [|exact Hb]. now rewrite Hh.
Qed.

Lemma closes_attempt op : closes_its_files (attempt op).
Proof. intros w k. unfold attempt. destruct (fault_of w _ op); reflexivity. Qed.

Lemma closes_for_rows path rows body :
  (forall x, closes_its_files (body x)) -> closes_its_files (for_rows path rows body).
Proof.
  intros Hb. induction rows as [|row rows IH]; cbn [for_rows];
    (apply closes_bind; [apply closes_attempt|intros _]); [apply closes_ret|].
  apply closes_bind; [apply Hb|intros _; exact IH].
Qed.

Lemma closes_for_each f body :
  (forall x, closes_its_files (body x)) -> closes_its_files (for_each f body).
Proof. intros Hb. now apply closes_for_rows. Qed.

(** The [with] statement closes its file however its body ends. *)
Lemma closes_with_open path mode body :
  (forall f, closes_its_files (body f)) -> closes_its_files (with_open path mode body).
Proof.
  intros Hb w k. unfold with_open. cbn.
  destruct (answer w (length (log k)) (open_ path mode)) as [chars|e]; cbn; [|reflexivity].
  match goal with |- context [body ?f w ?held] => specialize (Hb f w held) end.
  destruct (body _ w _) as [r k'']; cbn in Hb |- *. now rewrite Hb.
Qed.

Lemma closes_boto3_Session : closes_its_files boto3_Session.
Proof. intros w k. reflexivity. Qed.

Lemma closes_sagemaker_Session : closes_its_files sagemaker_Session.
Proof. intros w k. reflexivity. Qed.

Lemma closes_attr_region_name s : closes_its_files (attr_region_name s).
Proof. destruct s; [apply closes_ret|apply closes_raise]. Qed.

Lemma closes_attr_client s {B} (f : (string -> option string -> M client) -> M B) :
  (forall client, (forall x y, closes_its_files (client x y)) -> closes_its_files (f client)) ->
  closes_its_files (bind (attr_client s) f).
Proof.
  intros Hf. destruct s as [r|r]; [|intros w k; reflexivity].
  intros w k. apply Hf. intros x y.
  apply closes_bind; [apply closes_attempt|intros _; apply closes_ret].
Qed.

Lemma closes_Estimator_deploy e n t name : closes_its_files (Estimator_deploy e n t name).
Proof.
  unfold Estimator_deploy. apply closes_bind; [apply closes_perform|].
  intros _. apply closes_ret.
Qed.

Ltac closes :=
  repeat first
    [ apply closes_try_except; [|intros ?]
    | apply closes_with_open; intros ?
    | apply closes_for_each; intros ?
    | apply closes_Estimator_deploy
    | apply closes_format | apply closes_subscript
    | apply closes_attr_region_name
    | apply closes_attr_client; intros ? ?
    | match goal with
      | H : forall x y, closes_its_files (?client x y) |- closes_its_files (?client _ _) =>
          apply H
      end
    | apply closes_get | apply closes_assign
    | apply closes_perform | apply closes_emit
    | apply closes_bind; [|intros ?]
    | apply closes_ret | apply closes_raise
    | apply closes_boto3_Session | apply closes_sagemaker_Session
    | match goal with |- closes_its_files (if ?b then _ else _) => destruct b end ].

Lemma closes_cell_28 : closes_its_files cell_28.
Proof.
  intros w k. unfold cell_28, bind, get, attr_delete_endpoint.
  destruct (Ns.sess (ns k)) as [[r|r]|]; cbn; try reflexivity.
  destruct (Ns.xgb_predictor (ns k)); reflexivity.
Qed.

Lemma closes_notebook : Forall (fun c => closes_its_files c) notebook.
Proof.
  unfold notebook.
  repeat (apply Forall_cons; split); [..|apply Forall_nil; exact I];
    try apply closes_cell_28.
  all: match goal with |- closes_its_files ?c => unfold c end;
    unfold create_bucket, channels, send_row; closes.
Qed.

Lemma closes_run_cells cells :
  Forall (fun c => closes_its_files c) cells -> closes_its_files (run_cells cells).
Proof.
  induction 1 as [|c cells Hc _ IH]; [apply closes_ret|].
  change (run_cells (c :: cells)) with (bind c (fun _ => run_cells cells)).
  apply closes_bind; [exact Hc|intros _; exact IH].
Qed.

(** X16: the run leaves no file open, however it ends: the test sample
    is closed when the [with] block is left, also by an exception of a
    request or a pause; and running the cells on any kernel leaves open
    exactly the files that were open before. *)
Theorem no_file_is_left_open w :
  opened (run_all w).2 = []
  /\ forall k, opened (run_cells notebook w k).2 = opened k.
Proof.
  split; [|intros k]; apply (closes_run_cells notebook closes_notebook).
Qed.

(** ** Regions *)

Lemma traffic_regions p rows : forall responses c,
  c ∈ calls (traffic p rows responses) -> regions_of c = [].
Proof.
  induction rows as [|row rows IH]; intros [|response responses] c Hc;
    try (now inversion Hc).
  cbn in Hc. which_one Hc; try (subst c; reflexivity).
  now apply (IH responses).
Qed.

(** X17: every call that names a region names the region the session is
    configured with: the identity and bucket clients, the location
    constraint of the bucket, the image lookup, and the session of the
    estimators and of the deletion. *)
Theorem every_call_is_addressed_to_the_configured_region w c r :
  c ∈ calls (transcript w) -> r ∈ regions_of c -> r = configured_region w.
Proof.
  intros Hc Hr. destruct (run_follows w) as [a Ha].
  pose proof (follows_calls a w Ha) as [k Hk].
  assert (c ∈ calls (script (configured_region w) a)) as Hin
    by (rewrite Hk; apply elem_of_app; now left).
  clear Hc Hk. unfold script in Hin. rewrite !calls_app in Hin.
  apply elem_of_app in Hin as [Hin|Hin]; [|apply elem_of_app in Hin as [Hin|Hin]].
  - unfold script_head, bucket_lines, bucket_configuration in Hin.
    destruct (a_bucket a), (String.eqb (configured_region w) "us-east-1");
      cbn in Hin; which_one Hin; subst c; cbn in Hr; which_one Hr; exact Hr.
  - apply traffic_regions in Hin. rewrite Hin in Hr. inversion Hr.
  - cbn in Hin. which_one Hin. subst c. cbn in Hr. which_one Hr. exact Hr.
Qed.

Lemma every_call_is_addressed_to_the_configured_region_witness :
  "eu-west-1" = configured_region sample_world.
Proof.
  apply (every_call_is_addressed_to_the_configured_region sample_world
           (s3_create_bucket {| service := "s3"; client_region := "eu-west-1" |}
              "sagemaker-eu-west-1-123456789012"
              (Some (<["LocationConstraint" := "eu-west-1"]> ∅)))).
  - apply (list_elem_of_lookup_2 _ 6). vm_compute. reflexivity.
  - apply (list_elem_of_lookup_2 _ 1). vm_compute. reflexivity.
Defined.

Lemma same_outcome_refl x : same_outcome x x.
Proof. repeat split. Qed.

(** ** Old bindings *)

(** Reduction that leaves the log as it is written. *)
Ltac kred2 :=
  cbv beta iota zeta delta
    [bind ret raise perform emit get assign attempt format subscript try_except with_open
     boto3_Session sagemaker_Session attr_region_name attr_client
     attr_delete_endpoint Estimator_deploy
     setattr_content_type setattr_serializer setattr_deserializer
     endpoint pred_content_type pred_serializer pred_deserializer
     ns log opened
     Ns.sess Ns.set_sess Ns.sm Ns.set_sm Ns.role Ns.set_role
     Ns.local_data_path Ns.set_local_data_path Ns.data Ns.set_data
     Ns.account_id Ns.set_account_id Ns.bucket Ns.set_bucket
     Ns.prefix Ns.set_prefix Ns.s3url Ns.set_s3url
     Ns.docker_image_name Ns.set_docker_image_name
     Ns.s3_input_train Ns.set_s3_input_train
     Ns.s3_input_validation Ns.set_s3_input_validation
     Ns.hyperparams Ns.set_hyperparams Ns.xgb Ns.set_xgb
     Ns.entry_point_script Ns.set_entry_point_script
     Ns.framework_xgb Ns.set_framework_xgb
     Ns.data_capture_prefix Ns.set_data_capture_prefix
     Ns.endpoint_name Ns.set_endpoint_name
     Ns.xgb_predictor Ns.set_xgb_predictor].

Ltac onward2 := kred2; repeat (progress (autorewrite with formats; kred2)).
Ltac cell2 c := rewrite !run_cells_cons; unfold c, channels; onward2.
Ltac alike :=
  unfold same_outcome; cbn [fst snd];
  split; [reflexivity|split; [reflexivity|split; [reflexivity|]]];
  let H := fresh in intros H; discriminate H.
Ltac step2 :=
  match goal with
  | |- context [answer ?w ?i ?c] =>
      let v := fresh "v" in let e := fresh "e" in let H := fresh "Hans" in
      destruct (answer w i c) as [v|e] eqn:H;
      [cbn in v; try (match type of v with unit => destruct v end)|]; kred2
  end.
Ltac call2 := step2; [onward2|solve [alike]].
Ltac client2 :=
  match goal with
  | |- context [fault_of ?w ?i ?op] =>
      let e := fresh "e" in let H := fresh "Hfault" in
      destruct (fault_of w i op) as [e|] eqn:H; kred2; [solve [alike]|onward2]
  end.

Ltac rest_alike :=
  onward2;
  do 2 call2;
  cell2 cell_08; call2;
  cell2 cell_10;
  cell2 cell_12;
  cell2 cell_14; call2;
  cell2 cell_17; call2;
  cell2 cell_19; call2;
  cell2 cell_21; call2;
  cell2 cell_22; call2;
  apply same_outcome_refl.

Lemma rerun_alike w n l o :
  same_outcome (run_cells notebook w {| ns := n; log := l; opened := o |})
               (run_cells notebook w {| ns := Ns.empty; log := l; opened := o |}).
Proof.
  destruct n. unfold notebook, Ns.empty.
  cell2 cell_01.
  cell2 cell_02. client2. call2.
  cell2 cell_04. do 3 call2.
  cell2 cell_06. client2. call2.
  match goal with |- context [?d !! "Account"] =>
    destruct (d !! "Account") as [account|] eqn:Haccount; kred2
  end; [|alike].
  onward2.
  repeat match goal with |- context [create_bucket w ?k] =>
    rewrite (create_bucket_run w k (configured_region w)
               (bucket_name (configured_region w) account) eq_refl eq_refl)
  end.
  kred2.
  match goal with
  | |- context [fault_of ?w ?i ?op] =>
      destruct (fault_of w i op) as [e|] eqn:Hs3; kred2
  end.
  - destruct (isinstance_Exception e) eqn:Hexception; kred2; [|alike].
    rest_alike.
  - step2.
    + rest_alike.
    + destruct (isinstance_Exception e) eqn:Hexception; kred2; [|alike].
      rest_alike.
Qed.


(** ** The session is rebound *)

Lemma cell_28_returns w k :
  (cell_28 w k).1 = Ok tt ->
  (exists r, Ns.sess (ns k) = Some (SageMakerSession r)) /\ ns (cell_28 w k).2 = ns k.
Proof.
  unfold cell_28, bind, get, attr_delete_endpoint.
  destruct (Ns.sess (ns k)) as [[r|r]|]; cbn; try discriminate.
  destruct (Ns.xgb_predictor (ns k)); cbn; [|discriminate].
  intros _. split; [now exists r|reflexivity].
Qed.

Lemma final_session w :
  result w = Ok tt -> exists r, Ns.sess (ns (run_all w).2) = Some (SageMakerSession r).
Proof.
  unfold result. rewrite (run_all_split 14 w).
  destruct (run_cells (firstn 14 notebook) w fresh_kernel) as [[[]|e] k]; [|discriminate].
  change (skipn 14 notebook) with [cell_28]. rewrite run_cells_cons.
  pose proof (cell_28_returns w k) as H.
  destruct (cell_28 w k) as [[[]|e] k']; [|discriminate].
  intros _. destruct (H eq_refl) as ((r & Hr) & Hns). cbn in Hns.
  exists r. unfold run_cells, ret. cbn. now rewrite Hns.
Qed.

(** X19: the training cell rebinds [sess] from the boto3 session to the
    SageMaker session, and nothing binds it back: on the kernel a complete
    run leaves, the upload cell cannot be run again on its own; it fails on
    [sess.client] with AttributeError before it calls anything. *)
Theorem upload_cell_cannot_be_rerun_alone w w' :
  result w = Ok tt ->
  cell_06 w' (run_all w).2 = (Raise (AttributeError "client"), (run_all w).2).
Proof.
  intros Hok. destruct (final_session w Hok) as (r & Hr).
  destruct (run_all w).2 as [n l o]. cbn in Hr.
  unfold cell_06, bind, get. cbn [ns]. rewrite Hr. reflexivity.
Qed.

Lemma upload_cell_cannot_be_rerun_alone_witness :
  cell_06 sample_world (run_all sample_world).2
  = (Raise (AttributeError "client"), (run_all sample_world).2).
Proof.
  apply (upload_cell_cannot_be_rerun_alone sample_world sample_world).
  vm_compute. reflexivity.
Defined.

(** ** The bucket and the uploads *)

(** X20: the uploads go into the bucket that was asked for: a run that
    both asks for a bucket and uploads a file uploads it to
    's3://<that bucket>/xgboost-churn/train' or '.../validation'. *)
Theorem uploads_go_to_the_bucket_asked_for w cl b cfg f d :
  s3_create_bucket cl b cfg ∈ calls (transcript w) ->
  S3Uploader_upload f d ∈ calls (transcript w) ->
  (f = "data/train.csv" /\ d = "s3://" +:+ b +:+ "/xgboost-churn/train")
  \/ (f = "data/validation.csv" /\ d = "s3://" +:+ b +:+ "/xgboost-churn/validation").
Proof.
  intros Hbucket Hupload. destruct (run_follows w) as [a Ha]. pose proof (proj1 Ha) as Hc.
  assert (BucketRequest cl b cfg ∈ supplies (transcript w)) as Hin.
  { apply elem_of_calls in Hbucket as ([c o] & Hx & Hev). cbn in Hev. subst c.
    unfold supplies. apply list_elem_of_omap. eauto. }
  pose proof (supplies_with_bucket a w cl b cfg Ha Hin) as Heq.
  rewrite Heq in Hin.
  apply elem_of_cons in Hin as [Hin|Hin]; [discriminate|].
  apply list_elem_of_singleton in Hin. injection Hin as _ -> _.
  assert ((f, d) ∈ uploads (transcript w)) as Hfd.
  { unfold uploads. apply list_elem_of_omap. exists (S3Uploader_upload f d). now split. }
  pose proof (follows_seen upload_of a w Ha) as [k Hk].
  fold (uploads (transcript w)) (uploads (script (configured_region w) a)) in Hk.
  rewrite (uploads_script _ a Hc) in Hk.
  assert ((f, d) ∈ uploads (transcript w) ++ k) as Hfd' by (apply elem_of_app; now left).
  rewrite <- Hk in Hfd'. which_one Hfd'; injection Hfd' as -> ->; [left|right]; now split.
Qed.

Lemma uploads_go_to_the_bucket_asked_for_witness :
  ("data/validation.csv" = "data/train.csv"
   /\ "s3://sagemaker-eu-west-1-123456789012/xgboost-churn/validation"
      = "s3://" +:+ "sagemaker-eu-west-1-123456789012" +:+ "/xgboost-churn/train")
  \/ ("data/validation.csv" = "data/validation.csv"
      /\ "s3://sagemaker-eu-west-1-123456789012/xgboost-churn/validation"
         = "s3://" +:+ "sagemaker-eu-west-1-123456789012" +:+ "/xgboost-churn/validation").
Proof.
  apply (uploads_go_to_the_bucket_asked_for sample_world
           {| service := "s3"; client_region := "eu-west-1" |} _
           (Some (<["LocationConstraint" := "eu-west-1"]> ∅))).
  - apply (list_elem_of_lookup_2 _ 6). vm_compute. reflexivity.
  - apply (list_elem_of_lookup_2 _ 9). vm_compute. reflexivity.
Defined.

(** ** Requests of a run that fails *)

(** X21: in any run, also one that a request or a pause ends, the
    requests sent are those of the first rows of the file, in file order,
    each row without its trailing newlines: no row is skipped and none is
    sent twice. *)
Theorem requests_follow_the_rows_in_any_run w rows :
  rows ∈ files_read (transcript w) ->
  payloads (transcript w)
    `prefix_of` map (fun row => PyStr.rstrip row PyStr.newline) rows.
Proof.
  intros Hrows. destruct (run_follows w) as [a Ha]. pose proof (proj1 Ha) as Hc.
  rewrite (rows_of_the_run a w rows Ha Hrows).
  rewrite <- (payloads_script (configured_region w) a Hc). apply follows_seen, Ha.
Qed.

Lemma requests_follow_the_rows_in_any_run_witness :
  result second_request_fails_world = Raise (ClientError "ModelError")
  /\ payloads (transcript second_request_fails_world) = ["1,2"; "3,4"]
  /\ payloads (transcript second_request_fails_world)
       `prefix_of` map (fun row => PyStr.rstrip row PyStr.newline) sample_rows.
Proof.
  split; [vm_compute; reflexivity|]. split; [vm_compute; reflexivity|].
  apply (requests_follow_the_rows_in_any_run second_request_fails_world sample_rows).
  apply (list_elem_of_lookup_2 _ 0). vm_compute. reflexivity.
Defined.

(** ** Sample runs *)

Example rstrip_row :
  PyStr.rstrip (String "1" (String "," (String "2" PyStr.newline))) PyStr.newline = "1,2".
Proof. reflexivity. Qed.

Example rstrip_keeps_carriage_return :
  PyStr.rstrip (String "a" (String "013" PyStr.newline)) PyStr.newline
  = String "a" (String "013" "").
Proof. reflexivity. Qed.

Example rstrip_all_newlines :
  PyStr.rstrip (String "x" (String PyStr.nl PyStr.newline)) PyStr.newline = "x".
Proof. reflexivity. Qed.

Example format_bucket :
  PyStr.format "sagemaker-{}-{}" ["eu-west-1"; "123456789012"]
  = Some "sagemaker-eu-west-1-123456789012".
Proof. reflexivity. Qed.

Example strftime_sample :
  PyTime.strftime "%Y-%m-%d-%H-%M-%S" sample_time = "2020-07-04-09-30-05".
Proof. reflexivity. Qed.

Example sample_run_completes : result sample_world = Ok tt.
Proof. vm_compute. reflexivity. Qed.

Example sample_run_steps :
  steps (transcript sample_world)
  = [StepInspect; StepUpload; StepUpload; StepTrain Estimator; StepTrain XGBoost;
     StepDeploy; StepRequest; StepRequest; StepRequest; StepTeardown].
Proof. vm_compute. reflexivity. Qed.

Example sample_run_payloads : payloads (transcript sample_world) = ["1,2"; "3,4"; "5,6"].
Proof. vm_compute. reflexivity. Qed.

Example sample_run_endpoint :
  endpoint_events (transcript sample_world) !! 3
  = Some (Invoked "demo-xgboost-customer-churn-2020-07-04-09-30-05").
Proof. vm_compute. reflexivity. Qed.

Example bucket_taken_run_completes : result bucket_taken_world = Ok tt.
Proof. vm_compute. reflexivity. Qed.

Example framework_failure_stops_the_run :
  result framework_fails_world = Raise (ClientError "ResourceLimitExceeded")
  /\ steps (transcript framework_fails_world)
     = [StepInspect; StepUpload; StepUpload; StepTrain Estimator; StepTrain XGBoost].
Proof. split; vm_compute; reflexivity. Qed.

Example sample_run_leaves_no_file_open : opened (run_all sample_world).2 = [].
Proof. vm_compute. reflexivity. Qed.

Example sample_run_prints_bytes :
  skipn 4 (printed (transcript sample_world)) = ["b'0.25'"; "b'0.25'"; "b'0.25'"].
Proof. vm_compute. reflexivity. Qed.

Example repr_escapes :
  PyBytes.repr (list_byte_of_string (String "a" (String PyStr.nl "'")))
  = String "b" (String PyBytes.double_quote
      (String "a" (String PyBytes.backslash (String "n" (String "'"
        (String PyBytes.double_quote "")))))).
Proof. vm_compute. reflexivity. Qed.

Example crlf_rows :
  PyIO.rows crlf_chars
  = [String "1" (String "," (String "2" PyStr.newline));
     String "3" (String "," (String "4" PyStr.newline))].
Proof. vm_compute. reflexivity. Qed.

Example lone_carriage_return_ends_a_line :
  PyIO.rows ["a"; PyIO.cr; "b"]%char = [String "a" PyStr.newline; "b"].
Proof. vm_compute. reflexivity. Qed.

Example crlf_run_payloads : payloads (transcript crlf_world) = ["1,2"; "3,4"].
Proof. vm_compute. reflexivity. Qed.

Example empty_region_run :
  result empty_region_world = Raise (OtherError "ValueError")
  /\ transcript empty_region_world = [].
Proof. split; vm_compute; reflexivity. Qed.

Example unconfigured_run :
  result unconfigured_world = Raise (OtherError "NoRegionError")
  /\ transcript unconfigured_world = [].
Proof. split; vm_compute; reflexivity. Qed.

Example unreadable_sample_run :
  result unreadable_sample_world = Raise (OtherError "UnicodeDecodeError")
  /\ payloads (transcript unreadable_sample_world) = ["1,2"]
  /\ length (transcript unreadable_sample_world) = 23
  /\ opened (run_all unreadable_sample_world).2 = [].
Proof. repeat split; vm_compute; reflexivity. Qed.
